(** * ppcdash: the forecasting / pacing engine of [static/js/main.js]

    A shallow embedding of the client-side pacing computation
    ([forecastingApp] in [static/js/main.js]) and of the request handlers
    of the forecasting view and of the two live dashboards ([dashboardApp]
    in [static/js/main.js], [static/js/dashboard.js]), with the properties
    the specification states for them.

    State.  A component is a record of the fields its methods read and
    write; a method is a function on that record.  Settings and actual
    figures are objects with the four region keys the component declares;
    preferences, charts and the DOM are not part of the records.

    Number models.  A JavaScript number is a binary64 double.
    [Double.num] has the doubles, with operations that round the exact
    result to the nearest double (ties to even), overflow to an infinity
    and keep the sign of a zero; the forecasting component over it
    ([Forecasting64]) carries the properties that depend on how an
    operation rounds.  [JS.num] abstracts from rounding: a finite value is
    an exact rational, next to [Infinity], [-Infinity] and [NaN] with the
    arithmetic JavaScript gives them (division by zero,
    [Infinity - Infinity], comparisons with [NaN] ...), and every zero is
    [+0]; the components over it carry the properties of the branches
    taken, of the fields written and of the expressions evaluated. *)

From Stdlib Require Import ZArith QArith Qround Qabs Qminmax Qpower Lia Lqa List String Bool
  SpecFloat.
Import ListNotations.

Set Implicit Arguments.

(** ** JavaScript numbers *)

Module JS.

Inductive num : Type :=
| Fin (q : Q)
| PInf
| NInf
| NaN.

Definition zero : num := Fin 0.
Definition ofZ (z : Z) : num := Fin (inject_Z z).

(** The infinity (or [NaN]) whose sign is the outcome of a comparison
    with zero. *)
Definition sign_inf (c : comparison) : num :=
  match c with Gt => PInf | Lt => NInf | Eq => NaN end.

Definition neg (x : num) : num :=
  match x with
  | Fin q => Fin (- q)
  | PInf => NInf
  | NInf => PInf
  | NaN => NaN
  end.

(** [x + y] *)
Definition add (x y : num) : num :=
  match x, y with
  | NaN, _ | _, NaN => NaN
  | Fin p, Fin q => Fin (p + q)
  | PInf, NInf | NInf, PInf => NaN
  | PInf, _ | _, PInf => PInf
  | NInf, _ | _, NInf => NInf
  end.

(** [x - y] *)
Definition sub (x y : num) : num := add x (neg y).

(** [x * y] *)
Definition mul (x y : num) : num :=
  match x, y with
  | NaN, _ | _, NaN => NaN
  | Fin p, Fin q => Fin (p * q)
  | Fin p, PInf | PInf, Fin p => sign_inf (p ?= 0)
  | Fin p, NInf | NInf, Fin p => sign_inf (0 ?= p)
  | PInf, PInf | NInf, NInf => PInf
  | PInf, NInf | NInf, PInf => NInf
  end.

(** [x / y]; a finite value divided by zero is an infinity of its sign,
    and [0 / 0] is [NaN]. *)
Definition div (x y : num) : num :=
  match x, y with
  | NaN, _ | _, NaN => NaN
  | Fin p, Fin q => if Qeq_bool q 0 then sign_inf (p ?= 0) else Fin (p / q)
  | Fin _, PInf | Fin _, NInf => Fin 0
  | PInf, Fin q => match q ?= 0 with Lt => NInf | _ => PInf end
  | NInf, Fin q => match q ?= 0 with Lt => PInf | _ => NInf end
  | _, _ => NaN
  end.

(** Ordering of two numbers; [None] when one of them is [NaN]. *)
Definition cmp (x y : num) : option comparison :=
  match x, y with
  | NaN, _ | _, NaN => None
  | Fin p, Fin q => Some (p ?= q)
  | PInf, PInf | NInf, NInf => Some Eq
  | PInf, _ | _, NInf => Some Gt
  | _, _ => Some Lt
  end.

(** [x > y], [x >= y], [x < y] *)
Definition gt (x y : num) : bool :=
  match cmp x y with Some Gt => true | _ => false end.
Definition ge (x y : num) : bool :=
  match cmp x y with Some Gt | Some Eq => true | _ => false end.
Definition lt (x y : num) : bool :=
  match cmp x y with Some Lt => true | _ => false end.

(** [Math.round]: the nearest integer, a tie going up. *)
Definition round_half_up (q : Q) : Z := Qfloor (q + (1 # 2)).

Definition round (x : num) : num :=
  match x with
  | Fin q => ofZ (round_half_up q)
  | _ => x
  end.

(** [Math.max(x, y)] *)
Definition max (x y : num) : num :=
  match cmp x y with
  | None => NaN
  | Some Lt => y
  | Some _ => x
  end.

(** [Math.abs] *)
Definition abs (x : num) : num :=
  match x with
  | Fin q => Fin (Qabs q)
  | PInf | NInf => PInf
  | NaN => NaN
  end.

(** [x || 0] on a number: [0] and [NaN] are falsy. *)
Definition orZero (x : num) : num :=
  match x with
  | Fin q => if Qeq_bool q 0 then zero else x
  | NaN => zero
  | _ => x
  end.

(** Neither [NaN] nor an infinity. *)
Definition isFinite (x : num) : bool :=
  match x with Fin _ => true | _ => false end.

(** Two numbers denote the same value. *)
Definition same (x y : num) : Prop :=
  match x, y with
  | Fin p, Fin q => p == q
  | PInf, PInf | NInf, NInf | NaN, NaN => True
  | _, _ => False
  end.

(** The rational a finite number stands for ([0] for the special values). *)
Definition toQ (x : num) : Q :=
  match x with Fin q => q | _ => 0 end.

End JS.

(** ** Binary64 numbers

    The values of a JavaScript number as IEEE 754 binary64 has them:
    [S754_finite s m e] is [(-1)^s * m * 2^e], next to the two zeros, the
    two infinities and [NaN].  An operation returns the exact result
    rounded to the nearest double, a tie going to the even mantissa, and
    follows the standard on zeros, infinities and [NaN].  The type also
    has values with a mantissa or an exponent no double has; [isDouble]
    tells the doubles among them. *)

Module Double.

Local Open Scope Z_scope.

Definition num : Type := spec_float.

Definition NaN : num := S754_nan.
Definition zero : num := S754_zero false.
Definition PInf : num := S754_infinity false.
Definition NInf : num := S754_infinity true.

(** [2^k] *)
Definition pow2 (k : Z) : Q := (2 ^ k)%Q.

(** The rational a finite number stands for ([0] for the other values). *)
Definition toQ (x : num) : Q :=
  match x with
  | S754_finite s m e => (inject_Z (if s then Zneg m else Zpos m) * pow2 e)%Q
  | _ => 0%Q
  end.

(** The integer nearest to [q], a tie going to the even one. *)
Definition nearestEven (q : Q) : Z :=
  let f := Qfloor q in
  match (q - inject_Z f ?= 1 # 2)%Q with
  | Lt => f
  | Gt => f + 1
  | Eq => if Z.even f then f else f + 1
  end.

(** The exponent of the last mantissa bit of a positive [a]: the [e] with
    [2^52 <= a / 2^e < 2^53], and -1074 in the subnormal range. *)
Definition ulpExponent (a : Q) : Z :=
  let e1 := Z.log2 (Qnum a) - Z.log2 (Zpos (Qden a)) - 52 in
  let e2 := if Qle_bool (pow2 52) (a / pow2 e1) then e1 else e1 - 1 in
  Z.max e2 (-1074).

(** The double of sign [neg], mantissa [m] and exponent [e]: a mantissa
    that rounding has carried to [2^53] is renormalised, an exponent
    beyond 971 is an overflow, and a mantissa of 0 an underflow. *)
Definition pack (neg : bool) (m e : Z) : num :=
  let m' := if m =? 2 ^ 53 then 2 ^ 52 else m in
  let e' := if m =? 2 ^ 53 then e + 1 else e in
  match m' with
  | Zpos p => if 971 <? e' then S754_infinity neg else S754_finite neg p e'
  | _ => S754_zero neg
  end.

(** Round to nearest, ties to even; [zs] is the sign of the zero an exact
    zero gives. *)
Definition rnd (zs : bool) (q : Q) : num :=
  match Qnum q with
  | Z0 => S754_zero zs
  | n =>
      let a := Qabs q in
      let e := ulpExponent a in
      pack (n <? 0) (nearestEven (a / pow2 e)) e
  end.

(** An integer and a decimal literal of the program text. *)
Definition ofZ (z : Z) : num := rnd false (inject_Z z).
Definition lit (q : Q) : num := rnd false q.

Definition neg (x : num) : num := SFopp x.

(** [Math.abs] *)
Definition abs (x : num) : num := SFabs x.

Definition sign (x : num) : bool :=
  match x with
  | S754_zero s | S754_infinity s | S754_finite s _ _ => s
  | S754_nan => false
  end.

(** [x + y] *)
Definition add (x y : num) : num :=
  match x, y with
  | S754_nan, _ | _, S754_nan => S754_nan
  | S754_infinity s, S754_infinity s' => if Bool.eqb s s' then x else S754_nan
  | S754_infinity _, _ => x
  | _, S754_infinity _ => y
  | S754_zero s, S754_zero s' => S754_zero (s && s')
  | S754_zero _, _ => y
  | _, S754_zero _ => x
  | S754_finite _ _ _, S754_finite _ _ _ => rnd false (toQ x + toQ y)
  end.

(** [x - y] *)
Definition sub (x y : num) : num := add x (neg y).

(** [x * y] *)
Definition mul (x y : num) : num :=
  match x, y with
  | S754_nan, _ | _, S754_nan => S754_nan
  | S754_infinity _, S754_zero _ | S754_zero _, S754_infinity _ => S754_nan
  | S754_infinity s, _ => S754_infinity (xorb s (sign y))
  | _, S754_infinity s => S754_infinity (xorb (sign x) s)
  | S754_zero s, _ => S754_zero (xorb s (sign y))
  | _, S754_zero s => S754_zero (xorb (sign x) s)
  | S754_finite _ _ _, S754_finite _ _ _ => rnd false (toQ x * toQ y)
  end.

(** [x / y] *)
Definition div (x y : num) : num :=
  match x, y with
  | S754_nan, _ | _, S754_nan => S754_nan
  | S754_infinity _, S754_infinity _ => S754_nan
  | S754_zero _, S754_zero _ => S754_nan
  | S754_infinity s, _ => S754_infinity (xorb s (sign y))
  | _, S754_infinity s => S754_zero (xorb (sign x) s)
  | S754_zero s, _ => S754_zero (xorb s (sign y))
  | _, S754_zero s => S754_infinity (xorb (sign x) s)
  | S754_finite _ _ _, S754_finite _ _ _ => rnd false (toQ x / toQ y)
  end.

(** Ordering of two numbers; [None] when one of them is [NaN]. *)
Definition cmp (x y : num) : option comparison :=
  match x, y with
  | S754_nan, _ | _, S754_nan => None
  | S754_infinity s, S754_infinity s' =>
      Some (if Bool.eqb s s' then Eq else if s then Lt else Gt)
  | S754_infinity s, _ => Some (if s then Lt else Gt)
  | _, S754_infinity s => Some (if s then Gt else Lt)
  | _, _ => Some (toQ x ?= toQ y)%Q
  end.

(** [x > y], [x >= y], [x < y] *)
Definition gt (x y : num) : bool :=
  match cmp x y with Some Gt => true | _ => false end.
Definition ge (x y : num) : bool :=
  match cmp x y with Some Gt | Some Eq => true | _ => false end.
Definition lt (x y : num) : bool :=
  match cmp x y with Some Lt => true | _ => false end.

(** [Math.round]: the nearest integer, a tie going up; a result of zero
    has the sign of [x]. *)
Definition round (x : num) : num :=
  match x with
  | S754_finite s _ _ =>
      match Qfloor (toQ x + (1 # 2)) with
      | Z0 => S754_zero s
      | n => rnd false (inject_Z n)
      end
  | _ => x
  end.

(** [Math.max(x, y)] *)
Definition max (x y : num) : num :=
  match cmp x y with
  | None => S754_nan
  | Some Lt => y
  | Some Gt => x
  | Some Eq => if sign x then y else x
  end.

(** [x || 0] on a number: both zeros and [NaN] are falsy. *)
Definition orZero (x : num) : num :=
  match x with
  | S754_zero _ | S754_nan => zero
  | _ => x
  end.

(** Neither [NaN] nor an infinity. *)
Definition isFinite (x : num) : bool :=
  match x with
  | S754_zero _ | S754_finite _ _ _ => true
  | _ => false
  end.

(** The values of the type that are doubles: a mantissa of at most 53
    bits, with its canonical exponent ([valid_binary] of the Standard
    Library's [SpecFloat], for precision 53 and exponents up to 1024). *)
Definition isDouble (x : num) : bool := valid_binary 53 1024 x.

(** The operations of the Standard Library's specification of binary64
    ([SpecFloat], precision 53, exponents up to 1024), to compare with. *)
Definition SFadd64 : num -> num -> num := SFadd 53 1024.
Definition SFmul64 : num -> num -> num := SFmul 53 1024.
Definition SFdiv64 : num -> num -> num := SFdiv 53 1024.

End Double.

Import JS.

Declare Scope js_scope.
Delimit Scope js_scope with js.
Infix "=~" := same (at level 70, no associativity) : js_scope.
Open Scope js_scope.
Open Scope string_scope.
Open Scope list_scope.
Open Scope Z_scope.

(** ** Mutation and exceptions

    A method body is a function from the component's state to an outcome
    and the state it leaves: what was written before a [throw] stays
    written.  A thrown [Error] is kept as its message. *)

Module Eff.

Inductive outcome (A : Type) : Type :=
| Threw (message : string)
| Returned (a : A).
Arguments Threw {A} message.

Definition M (S A : Type) : Type := S -> outcome A * S.

Definition ret {S A} (a : A) : M S A := fun s => (Returned a, s).

Definition bind {S A B} (c : M S A) (k : A -> M S B) : M S B :=
  fun s =>
    match c s with
    | (Returned a, s') => k a s'
    | (Threw e, s') => (Threw e, s')
    end.

Definition throw {S A} (message : string) : M S A := fun s => (Threw message, s).

(** [this.field = ...] *)
Definition modify {S} (f : S -> S) : M S unit := fun s => (Returned tt, f s).

(** [try { body } catch (error) { handler }] *)
Definition try_catch {S} (body : M S unit) (handler : string -> M S unit) : M S unit :=
  fun s =>
    match body s with
    | (Threw e, s') => handler e s'
    | r => r
    end.

(** The state a body leaves, and whether it returned. *)
Definition exec {S A} (c : M S A) (s : S) : S := snd (c s).

Definition returns {S A} (c : M S A) (s : S) : bool :=
  match fst (c s) with Returned _ => true | Threw _ => false end.

(** What a request comes back with: the promise of [fetch] rejects (no
    connection), or a response arrives, whose body is JSON of the expected
    shape or is not JSON at all. *)
Record Response (A : Type) : Type := { ok : bool; body : option A }.

Definition Fetched (A : Type) : Type := (string + Response A)%type.

(** [await fetch(url)] *)
Definition fetch {S A} (r : Fetched A) : M S (Response A) :=
  match r with
  | inl message => throw message
  | inr response => ret response
  end.

(** [await response.json()]; the text of the [SyntaxError] depends on
    the engine, one text stands for it. *)
Definition json {S A} (response : Response A) : M S A :=
  match body response with
  | Some data => ret data
  | None => throw "Unexpected token < in JSON at position 0"
  end.

(** A request that did not deliver data. *)
Definition rejected {A} (r : Fetched A) : bool :=
  match r with
  | inl _ => true
  | inr response => match body response with None => true | Some _ => false end
  end.

End Eff.

Notation "x <- c ;; k" := (Eff.bind c (fun x => k))
  (at level 61, c at next level, right associativity).
Notation "c ;; k" := (Eff.bind c (fun _ => k))
  (at level 61, right associativity).

(** ** Calendar dates ([Date])

    Only the local civil date of a [Date] matters here.  A date is kept as
    its day number (days since 1970-01-01, a Thursday); [new Date(y, m, d)]
    lets the month and the day run over, as JavaScript does. *)

Module Date.

Record t : Type := { getFullYear : Z; getMonth : Z; getDate : Z }.

(** Day number of the civil date [y-m-d], [m] counted from 1. *)
Definition days_from_civil (y m d : Z) : Z :=
  let y := if m <=? 2 then y - 1 else y in
  let era := y / 400 in
  let yoe := y - era * 400 in
  let mp := (m + 9) mod 12 in
  let doy := (153 * mp + 2) / 5 + d - 1 in
  let doe := yoe * 365 + yoe / 4 - yoe / 100 + doy in
  era * 146097 + doe - 719468.

(** The civil date of a day number. *)
Definition civil_from_days (z : Z) : t :=
  let z := z + 719468 in
  let era := z / 146097 in
  let doe := z - era * 146097 in
  let yoe := (doe - doe / 1460 + doe / 36524 - doe / 146096) / 365 in
  let doy := doe - (365 * yoe + yoe / 4 - yoe / 100) in
  let mp := (5 * doy + 2) / 153 in
  let d := doy - (153 * mp + 2) / 5 + 1 in
  let m := if mp <? 10 then mp + 3 else mp - 9 in
  let y := yoe + era * 400 + (if m <=? 2 then 1 else 0) in
  {| getFullYear := y; getMonth := m - 1; getDate := d |}.

(** [new Date(year, month, day)] as a day number; [month] counts from 0. *)
Definition make (year month day : Z) : Z :=
  days_from_civil (year + month / 12) (month mod 12 + 1) 1 + (day - 1).

(** [.getDay()]: 0 is Sunday, 6 is Saturday. *)
Definition getDay (dayNumber : Z) : Z := (dayNumber + 4) mod 7.

End Date.

(** ** The forecasting component ([forecastingApp]) *)

Module ForecastingApp.

Inductive Region : Type := CA | AZ | GA | TX.
Inductive Metric : Type := Spend | Leads | Cases | Retainers.

Definition regionCode (s : Region) : string :=
  match s with CA => "CA" | AZ => "AZ" | GA => "GA" | TX => "TX" end.

(** An object with the four region keys, in the order the component
    declares them. *)
Record PerState (A : Type) : Type :=
  { atCA : A; atAZ : A; atGA : A; atTX : A }.

Definition get {A} (m : PerState A) (s : Region) : A :=
  match s with CA => atCA m | AZ => atAZ m | GA => atGA m | TX => atTX m end.

Definition set {A} (m : PerState A) (s : Region) (v : A) : PerState A :=
  match s with
  | CA => {| atCA := v; atAZ := atAZ m; atGA := atGA m; atTX := atTX m |}
  | AZ => {| atCA := atCA m; atAZ := v; atGA := atGA m; atTX := atTX m |}
  | GA => {| atCA := atCA m; atAZ := atAZ m; atGA := v; atTX := atTX m |}
  | TX => {| atCA := atCA m; atAZ := atAZ m; atGA := atGA m; atTX := v |}
  end.

(** [Object.values] *)
Definition values {A} (m : PerState A) : list A :=
  [atCA m; atAZ m; atGA m; atTX m].

Record MetricTarget : Type :=
  { weekdayDaily : num; weekendDaily : num; monthlyTotal : num }.

Module Target.
Record t : Type :=
  { spend : MetricTarget; leads : MetricTarget;
    cases : MetricTarget; retainers : MetricTarget }.

Definition get (x : t) (m : Metric) : MetricTarget :=
  match m with
  | Spend => spend x | Leads => leads x | Cases => cases x | Retainers => retainers x
  end.

Definition set (x : t) (m : Metric) (v : MetricTarget) : t :=
  match m with
  | Spend => {| spend := v; leads := leads x; cases := cases x; retainers := retainers x |}
  | Leads => {| spend := spend x; leads := v; cases := cases x; retainers := retainers x |}
  | Cases => {| spend := spend x; leads := leads x; cases := v; retainers := retainers x |}
  | Retainers => {| spend := spend x; leads := leads x; cases := cases x; retainers := v |}
  end.
End Target.

Module Actual.
Record t : Type := { spend : num; leads : num; cases : num; retainers : num }.

Definition get (x : t) (m : Metric) : num :=
  match m with
  | Spend => spend x | Leads => leads x | Cases => cases x | Retainers => retainers x
  end.
End Actual.

Record ConversionRates : Type := { leadToCase : num; leadToRetainer : num }.

(** An entry of [insights]: a literal message, or the cost-per-lead
    template [`Cost per lead ($${currentCPL.toFixed(0)}) is better than
    target`] with the number it prints. *)
Inductive Insight : Type :=
| Text (message : string)
| CostPerLead (currentCPL : num).

(** The fields under "Computed values". *)
Record Computed : Type :=
  { totalTargetSpend : num; totalTargetLeads : num;
    totalTargetCases : num; totalTargetRetainers : num;
    totalActualSpend : num; totalActualLeads : num;
    totalActualCases : num; totalActualRetainers : num;
    spendProgress : num; leadsProgress : num;
    casesProgress : num; retainersProgress : num;
    spendPacingStatus : string; leadsPacingStatus : string;
    casesPacingStatus : string; retainersPacingStatus : string;
    dailyAverageSpend : num; dailyAverageLeads : num;
    dailyAverageCases : num; dailyAverageRetainers : num;
    requiredDailySpend : num; requiredDailyLeads : num;
    requiredDailyCases : num; requiredDailyRetainers : num;
    projectedSpend : num; projectedLeads : num;
    projectedCases : num; projectedRetainers : num;
    insights : list Insight }.

Record App : Type :=
  { currentDayOfMonth : Z;
    totalDaysInMonth : Z;
    remainingDays : Z;
    dataSource : string;
    conversionRates : ConversionRates;
    settings : PerState Target.t;
    actualData : PerState Actual.t;
    computed : Computed }.

Definition with_settings (st : App) (s : PerState Target.t) : App :=
  {| currentDayOfMonth := currentDayOfMonth st;
     totalDaysInMonth := totalDaysInMonth st;
     remainingDays := remainingDays st;
     dataSource := dataSource st;
     conversionRates := conversionRates st;
     settings := s;
     actualData := actualData st;
     computed := computed st |}.

Definition with_actualData (st : App) (a : PerState Actual.t) : App :=
  {| currentDayOfMonth := currentDayOfMonth st;
     totalDaysInMonth := totalDaysInMonth st;
     remainingDays := remainingDays st;
     dataSource := dataSource st;
     conversionRates := conversionRates st;
     settings := settings st;
     actualData := a;
     computed := computed st |}.

Definition with_dataSource (st : App) (label : string) : App :=
  {| currentDayOfMonth := currentDayOfMonth st;
     totalDaysInMonth := totalDaysInMonth st;
     remainingDays := remainingDays st;
     dataSource := label;
     conversionRates := conversionRates st;
     settings := settings st;
     actualData := actualData st;
     computed := computed st |}.

Definition with_conversionRates (st : App) (r : ConversionRates) : App :=
  {| currentDayOfMonth := currentDayOfMonth st;
     totalDaysInMonth := totalDaysInMonth st;
     remainingDays := remainingDays st;
     dataSource := dataSource st;
     conversionRates := r;
     settings := settings st;
     actualData := actualData st;
     computed := computed st |}.

Definition with_computed (st : App) (c : Computed) : App :=
  {| currentDayOfMonth := currentDayOfMonth st;
     totalDaysInMonth := totalDaysInMonth st;
     remainingDays := remainingDays st;
     dataSource := dataSource st;
     conversionRates := conversionRates st;
     settings := settings st;
     actualData := actualData st;
     computed := c |}.

Definition with_insights (c : Computed) (l : list Insight) : Computed :=
  {| totalTargetSpend := totalTargetSpend c; totalTargetLeads := totalTargetLeads c;
     totalTargetCases := totalTargetCases c; totalTargetRetainers := totalTargetRetainers c;
     totalActualSpend := totalActualSpend c; totalActualLeads := totalActualLeads c;
     totalActualCases := totalActualCases c; totalActualRetainers := totalActualRetainers c;
     spendProgress := spendProgress c; leadsProgress := leadsProgress c;
     casesProgress := casesProgress c; retainersProgress := retainersProgress c;
     spendPacingStatus := spendPacingStatus c; leadsPacingStatus := leadsPacingStatus c;
     casesPacingStatus := casesPacingStatus c;
     retainersPacingStatus := retainersPacingStatus c;
     dailyAverageSpend := dailyAverageSpend c; dailyAverageLeads := dailyAverageLeads c;
     dailyAverageCases := dailyAverageCases c;
     dailyAverageRetainers := dailyAverageRetainers c;
     requiredDailySpend := requiredDailySpend c; requiredDailyLeads := requiredDailyLeads c;
     requiredDailyCases := requiredDailyCases c;
     requiredDailyRetainers := requiredDailyRetainers c;
     projectedSpend := projectedSpend c; projectedLeads := projectedLeads c;
     projectedCases := projectedCases c; projectedRetainers := projectedRetainers c;
     insights := l |}.

(** The component as [forecastingApp()] returns it. *)
Definition mt (wd we total : Z) : MetricTarget :=
  {| weekdayDaily := ofZ wd; weekendDaily := ofZ we; monthlyTotal := ofZ total |}.

Definition defaultSettings : PerState Target.t :=
  {| atCA := {| Target.spend := mt 36364 18182 1000000; Target.leads := mt 51 26 1428;
                Target.cases := mt 11 6 308; Target.retainers := mt 13 6 350 |};
     atAZ := {| Target.spend := mt 22727 11364 500000; Target.leads := mt 18 9 500;
                Target.cases := mt 4 2 110; Target.retainers := mt 5 2 125 |};
     atGA := {| Target.spend := mt 9091 4545 200000; Target.leads := mt 11 5 310;
                Target.cases := mt 3 1 68; Target.retainers := mt 4 2 80 |};
     atTX := {| Target.spend := mt 0 0 0; Target.leads := mt 0 0 0;
                Target.cases := mt 0 0 0; Target.retainers := mt 0 0 0 |} |}.

Definition defaultRates : ConversionRates :=
  {| leadToCase := ofZ 22; leadToRetainer := ofZ 25 |}.

Definition actual (spend leads cases retainers : Z) : Actual.t :=
  {| Actual.spend := ofZ spend; Actual.leads := ofZ leads;
     Actual.cases := ofZ cases; Actual.retainers := ofZ retainers |}.

Definition noActuals : PerState Actual.t :=
  {| atCA := actual 0 0 0 0; atAZ := actual 0 0 0 0;
     atGA := actual 0 0 0 0; atTX := actual 0 0 0 0 |}.

Definition initialComputed : Computed :=
  {| totalTargetSpend := zero; totalTargetLeads := zero;
     totalTargetCases := zero; totalTargetRetainers := zero;
     totalActualSpend := zero; totalActualLeads := zero;
     totalActualCases := zero; totalActualRetainers := zero;
     spendProgress := zero; leadsProgress := zero;
     casesProgress := zero; retainersProgress := zero;
     spendPacingStatus := ""; leadsPacingStatus := "";
     casesPacingStatus := ""; retainersPacingStatus := "";
     dailyAverageSpend := zero; dailyAverageLeads := zero;
     dailyAverageCases := zero; dailyAverageRetainers := zero;
     requiredDailySpend := zero; requiredDailyLeads := zero;
     requiredDailyCases := zero; requiredDailyRetainers := zero;
     projectedSpend := zero; projectedLeads := zero;
     projectedCases := zero; projectedRetainers := zero;
     insights := [] |}.

Definition forecastingApp : App :=
  {| currentDayOfMonth := 0;
     totalDaysInMonth := 0;
     remainingDays := 0;
     dataSource := "Demo Data";
     conversionRates := defaultRates;
     settings := defaultSettings;
     actualData := noActuals;
     computed := initialComputed |}.

(** [getWeekdaysInMonth()] (main.js, 945-959): the loop over
    [day = 1 .. totalDaysInMonth], [fuel] being the number of rounds left. *)
Fixpoint countWeekdays (year month : Z) (fuel : nat) (day weekdays : Z) : Z :=
  match fuel with
  | O => weekdays
  | S fuel' =>
      let dayOfWeek := Date.getDay (Date.make year month day) in
      let weekdays' :=
        if negb (dayOfWeek =? 0) && negb (dayOfWeek =? 6) then weekdays + 1
        else weekdays in
      countWeekdays year month fuel' (day + 1) weekdays'
  end.

Definition getWeekdaysInMonth (now : Date.t) (st : App) : Z :=
  let year := Date.getFullYear now in
  let month := Date.getMonth now in
  countWeekdays year month (Z.to_nat (totalDaysInMonth st)) 1 0.

(** [getPacingStatus(actual, expected)] (main.js, 1080-1086) *)
Definition getPacingStatus (actual expected : num) : string :=
  let diff := sub actual expected in
  if ge diff (ofZ 10) then "Ahead of target"
  else if ge diff (ofZ 0) then "On track"
  else if ge diff (ofZ (-10)) then "Slightly behind"
  else "Behind target".

(** [(this.currentDayOfMonth / this.totalDaysInMonth) * 100] *)
Definition expectedProgress (st : App) : num :=
  mul (div (ofZ (currentDayOfMonth st)) (ofZ (totalDaysInMonth st))) (ofZ 100).

(** [getStateTarget], [getStateActual], [getStateProgress] *)
Definition getStateTarget (st : App) (state : Region) (metric : Metric) : num :=
  orZero (monthlyTotal (Target.get (get (settings st) state) metric)).

Definition getStateActual (st : App) (state : Region) (metric : Metric) : num :=
  orZero (Actual.get (get (actualData st) state) metric).

Definition getStateProgress (st : App) (state : Region) (metric : Metric) : num :=
  let target := getStateTarget st state metric in
  let actual := getStateActual st state metric in
  if gt target zero then mul (div actual target) (ofZ 100) else zero.

(** [generateInsights()] (main.js, 1088-1120): the list it builds, from
    [this.insights = []] to the last [push] ... *)
Definition insightList (st : App) : list Insight :=
  let c := computed st in
  let insights0 : list Insight := [] in
  let insights1 :=
    if gt (projectedSpend c) (mul (totalTargetSpend c) (Fin (11 # 10))) then
      insights0 ++ [Text "Spend is projected to exceed target by more than 10%"]
    else if lt (projectedSpend c) (mul (totalTargetSpend c) (Fin (9 # 10))) then
      insights0 ++ [Text "Spend is projected to fall short of target by more than 10%"]
    else insights0 in
  let insights2 :=
    if gt (dailyAverageLeads c) (mul (requiredDailyLeads c) (Fin (12 # 10))) then
      insights1 ++ [Text "Lead generation is significantly outperforming targets"]
    else if lt (dailyAverageLeads c) (mul (requiredDailyLeads c) (Fin (8 # 10))) then
      insights1 ++ [Text "Lead generation needs acceleration to meet targets"]
    else insights1 in
  let currentCPL := div (totalActualSpend c) (totalActualLeads c) in
  let targetCPL := div (totalTargetSpend c) (totalTargetLeads c) in
  let insights3 :=
    if lt currentCPL (mul targetCPL (Fin (9 # 10))) then
      insights2 ++ [CostPerLead currentCPL]
    else insights2 in
  let insights4 :=
    fold_left
      (fun acc state =>
         let stateProgress := getStateProgress st state Spend in
         let expected := expectedProgress st in
         if gt (abs (sub stateProgress expected)) (ofZ 15) then
           acc ++ [Text (regionCode state ++ " spend pacing needs attention")]
         else acc)
      [CA; AZ; GA] insights3 in
  insights4.

(** ... which is what [this.insights] holds when it returns. *)
Definition generateInsights (st : App) : App :=
  with_computed st (with_insights (computed st) (insightList st)).

(** [Object.values(obj).reduce((sum, x) => sum + (f(x) || 0), 0)] *)
Definition sumOrZero {A} (f : A -> num) (l : list A) : num :=
  fold_left (fun sum x => add sum (orZero (f x))) l zero.

(** [calculatePacing()] (main.js, 1006-1078): first every computed field
    but [insights] ... *)
Definition pacingFields (st : App) : Computed :=
  let old := computed st in
  let currentDay := currentDayOfMonth st in
  let remaining := remainingDays st in
  let totalTargetSpend' :=
    sumOrZero (fun s => monthlyTotal (Target.spend s)) (values (settings st)) in
  let totalTargetLeads' :=
    sumOrZero (fun s => monthlyTotal (Target.leads s)) (values (settings st)) in
  let totalTargetCases' :=
    sumOrZero (fun s => monthlyTotal (Target.cases s)) (values (settings st)) in
  let totalTargetRetainers' :=
    sumOrZero (fun s => monthlyTotal (Target.retainers s)) (values (settings st)) in
  let totalActualSpend' := sumOrZero Actual.spend (values (actualData st)) in
  let totalActualLeads' := sumOrZero Actual.leads (values (actualData st)) in
  let totalActualCases' := sumOrZero Actual.cases (values (actualData st)) in
  let totalActualRetainers' := sumOrZero Actual.retainers (values (actualData st)) in
  let expected := expectedProgress st in
  let progress target actual :=
    if gt target zero then mul (div actual target) (ofZ 100) else zero in
  let spendProgress' := progress totalTargetSpend' totalActualSpend' in
  let leadsProgress' := progress totalTargetLeads' totalActualLeads' in
  let casesProgress' := progress totalTargetCases' totalActualCases' in
  let retainersProgress' := progress totalTargetRetainers' totalActualRetainers' in
  let dailyAverage actual :=
    if currentDay >? 0 then div actual (ofZ currentDay) else zero in
  let dailyAverageSpend' := dailyAverage totalActualSpend' in
  let dailyAverageLeads' := dailyAverage totalActualLeads' in
  let dailyAverageCases' := dailyAverage totalActualCases' in
  let dailyAverageRetainers' := dailyAverage totalActualRetainers' in
  let requiredDaily previous target actual :=
    if remaining >? 0 then max zero (div (sub target actual) (ofZ remaining))
    else previous in
  let projection actual average := add actual (mul average (ofZ remaining)) in
  {| totalTargetSpend := totalTargetSpend';
     totalTargetLeads := totalTargetLeads';
     totalTargetCases := totalTargetCases';
     totalTargetRetainers := totalTargetRetainers';
     totalActualSpend := totalActualSpend';
     totalActualLeads := totalActualLeads';
     totalActualCases := totalActualCases';
     totalActualRetainers := totalActualRetainers';
     spendProgress := spendProgress';
     leadsProgress := leadsProgress';
     casesProgress := casesProgress';
     retainersProgress := retainersProgress';
     spendPacingStatus := getPacingStatus spendProgress' expected;
     leadsPacingStatus := getPacingStatus leadsProgress' expected;
     casesPacingStatus := getPacingStatus casesProgress' expected;
     retainersPacingStatus := getPacingStatus retainersProgress' expected;
     dailyAverageSpend := dailyAverageSpend';
     dailyAverageLeads := dailyAverageLeads';
     dailyAverageCases := dailyAverageCases';
     dailyAverageRetainers := dailyAverageRetainers';
     requiredDailySpend :=
       requiredDaily (requiredDailySpend old) totalTargetSpend' totalActualSpend';
     requiredDailyLeads :=
       requiredDaily (requiredDailyLeads old) totalTargetLeads' totalActualLeads';
     requiredDailyCases :=
       requiredDaily (requiredDailyCases old) totalTargetCases' totalActualCases';
     requiredDailyRetainers :=
       requiredDaily (requiredDailyRetainers old)
         totalTargetRetainers' totalActualRetainers';
     projectedSpend := projection totalActualSpend' dailyAverageSpend';
     projectedLeads := round (projection totalActualLeads' dailyAverageLeads');
     projectedCases := round (projection totalActualCases' dailyAverageCases');
     projectedRetainers :=
       round (projection totalActualRetainers' dailyAverageRetainers');
     insights := insights old |}.

(** ... then [this.generateInsights()]. *)
Definition calculatePacing (st : App) : App :=
  generateInsights (with_computed st (pacingFields st)).

(** [recalculateDailyTargets(state, metric)] (main.js, 846-858) *)
Definition recalculateDailyTargets (now : Date.t) (state : Region) (metric : Metric)
    (st : App) : App :=
  let target := Target.get (get (settings st) state) metric in
  let monthlyTotal' := monthlyTotal target in
  let weekdays := getWeekdaysInMonth now st in
  let weekends := totalDaysInMonth st - weekdays in
  let weekdayDaily' := round (div (mul monthlyTotal' (Fin (7 # 10))) (ofZ weekdays)) in
  let weekendDaily' := round (div (mul monthlyTotal' (Fin (3 # 10))) (ofZ weekends)) in
  with_settings st
    (set (settings st) state
       (Target.set (get (settings st) state) metric
          {| weekdayDaily := weekdayDaily';
             weekendDaily := weekendDaily';
             monthlyTotal := monthlyTotal' |})).

(** [this.settings[state][metric].monthlyTotal = v] *)
Definition setMonthlyTotal (state : Region) (metric : Metric) (v : num) (st : App) : App :=
  let target := Target.get (get (settings st) state) metric in
  with_settings st
    (set (settings st) state
       (Target.set (get (settings st) state) metric
          {| weekdayDaily := weekdayDaily target;
             weekendDaily := weekendDaily target;
             monthlyTotal := v |})).

(** [recalculateTargets(state)] (main.js, 860-879) *)
Definition recalculateTargets (now : Date.t) (state : Region) (st : App) : App :=
  let leads := monthlyTotal (Target.leads (get (settings st) state)) in
  let cases := round (mul leads (div (leadToCase (conversionRates st)) (ofZ 100))) in
  let st := setMonthlyTotal state Cases cases st in
  let retainers :=
    round (mul leads (div (leadToRetainer (conversionRates st)) (ofZ 100))) in
  let st := setMonthlyTotal state Retainers retainers st in
  let st :=
    fold_left (fun st metric => recalculateDailyTargets now state metric st)
      [Spend; Leads; Cases; Retainers] st in
  calculatePacing st.

(** [updateCalculations()] (main.js, 881-897) *)
Definition updateCalculations (now : Date.t) (st : App) : App :=
  let st :=
    fold_left
      (fun st state =>
         let leads := monthlyTotal (Target.leads (get (settings st) state)) in
         let st :=
           setMonthlyTotal state Cases
             (round (mul leads (div (leadToCase (conversionRates st)) (ofZ 100)))) st in
         let st :=
           setMonthlyTotal state Retainers
             (round (mul leads (div (leadToRetainer (conversionRates st)) (ofZ 100)))) st in
         fold_left (fun st metric => recalculateDailyTargets now state metric st)
           [Cases; Retainers] st)
      [CA; AZ; GA; TX] st in
  calculatePacing st.

(** [loadDefaults()] (main.js, 808-844) *)
Definition loadDefaults (st : App) : App :=
  calculatePacing
    (with_conversionRates (with_settings st defaultSettings) defaultRates).

(** The date part of [init()]: it runs before the first [await]. *)
Definition initDates (now : Date.t) (st : App) : App :=
  let currentDay := Date.getDate now in
  let lastDay := Date.make (Date.getFullYear now) (Date.getMonth now + 1) 0 in
  let totalDays := Date.getDate (Date.civil_from_days lastDay) in
  {| currentDayOfMonth := currentDay;
     totalDaysInMonth := totalDays;
     remainingDays := totalDays - currentDay;
     dataSource := dataSource st;
     conversionRates := conversionRates st;
     settings := settings st;
     actualData := actualData st;
     computed := computed st |}.

(** [loadSettings()] (main.js, 778-788); the body of the reply is [None]
    when it is an empty object. *)
Definition loadSettings (reply : Eff.Fetched (option (PerState Target.t)))
    : Eff.M App unit :=
  Eff.try_catch
    (response <- Eff.fetch reply ;;
     data <- Eff.json response ;;
     match data with
     | Some data => Eff.modify (fun st => with_settings st data)
     | None => Eff.ret tt
     end)
    (fun error => Eff.ret tt).

(** The replies of [/api/forecast-pacing] and [/api/status]. *)
Record PacingData : Type := { states : option (PerState Actual.t) }.
Record StatusData : Type := { google_ads_connected : bool; litify_connected : bool }.

Definition demoData : PerState Actual.t :=
  {| atCA := actual 450000 650 140 160;
     atAZ := actual 200000 180 40 45;
     atGA := actual 75000 110 24 28;
     atTX := actual 0 0 0 0 |}.

(** [fetchActualData()] (main.js, 961-1004) *)
Definition fetchActualData (pacing : Eff.Fetched PacingData)
    (status : Eff.Fetched StatusData) : Eff.M App unit :=
  Eff.try_catch
    (response <- Eff.fetch pacing ;;
     data <- Eff.json response ;;
     match states data with
     | Some states =>
         let hasRealData :=
           existsb
             (fun state =>
                gt (Actual.spend state) zero || gt (Actual.leads state) zero
                || gt (Actual.cases state) zero || gt (Actual.retainers state) zero)
             (values states) in
         Eff.modify (fun st =>
           with_dataSource (with_actualData st states)
             (if hasRealData then "Live Data" else "Demo Data"))
     | None => Eff.ret tt
     end ;;
     statusResponse <- Eff.fetch status ;;
     statusData <- Eff.json statusResponse ;;
     if google_ads_connected statusData && litify_connected statusData then
       Eff.modify (fun st => with_dataSource st "Live Data")
     else if google_ads_connected statusData || litify_connected statusData then
       Eff.modify (fun st => with_dataSource st "Partial Live Data")
     else Eff.ret tt)
    (fun error =>
       Eff.modify (fun st => with_actualData (with_dataSource st "Demo Data") demoData)).

(** [init()] (main.js, 743-770) *)
Definition init (now : Date.t) (settingsReply : Eff.Fetched (option (PerState Target.t)))
    (pacing : Eff.Fetched PacingData) (status : Eff.Fetched StatusData)
    : Eff.M App unit :=
  Eff.modify (initDates now) ;;
  loadSettings settingsReply ;;
  fetchActualData pacing status ;;
  Eff.modify calculatePacing.

(** The states the component passes through: [init()] runs once, when the
    component is created; after it the user edits targets and rates, and
    the methods above run in any order. *)
Inductive reachable : App -> Prop :=
| reach_new : reachable forecastingApp
| reach_init now : reachable (initDates now forecastingApp)
| reach_settings st s : reachable st -> reachable (with_settings st s)
| reach_rates st r : reachable st -> reachable (with_conversionRates st r)
| reach_loadSettings st reply :
    reachable st -> reachable (Eff.exec (loadSettings reply) st)
| reach_fetchActualData st pacing status :
    reachable st -> reachable (Eff.exec (fetchActualData pacing status) st)
| reach_calculatePacing st : reachable st -> reachable (calculatePacing st)
| reach_loadDefaults st : reachable st -> reachable (loadDefaults st)
| reach_recalculateTargets st now state :
    reachable st -> reachable (recalculateTargets now state st)
| reach_updateCalculations st now :
    reachable st -> reachable (updateCalculations now st).

End ForecastingApp.

(** ** The live dashboard component ([dashboardApp]) *)

Module Str.

Definition lowerAscii (c : Ascii.ascii) : Ascii.ascii :=
  let n := Ascii.nat_of_ascii c in
  if (Nat.leb 65 n && Nat.leb n 90)%bool then Ascii.ascii_of_nat (n + 32) else c.

(** [s.toLowerCase()], on ASCII letters. *)
Fixpoint toLowerCase (s : string) : string :=
  match s with
  | EmptyString => EmptyString
  | String c rest => String (lowerAscii c) (toLowerCase rest)
  end.

(** [hay.includes(needle)] *)
Fixpoint includes (hay needle : string) : bool :=
  if String.prefix needle hay then true
  else match hay with
       | EmptyString => false
       | String _ rest => includes rest needle
       end.

(** [s || fallback]: the empty string is falsy. *)
Definition orElse (s : option string) (fallback : string) : string :=
  match s with
  | Some EmptyString | None => fallback
  | Some s => s
  end.

End Str.

Module DashboardApp.

Record Bucket : Type :=
  { name : string;
    state : string;
    campaigns : option (list string);
    cost : num; leads : num; cases : num; retainers : num; pendingRetainers : num }.

Record Lead : Type := { bucket : string }.

Record Summary : Type :=
  { totalCost : num; totalLeads : num; totalCases : num;
    totalRetainers : num; totalPending : num; avgCostPerLead : num }.

Record ExcludedCounts : Type :=
  { spam : num; abandoned : num; duplicate : num; total : num }.

Module Youtube.
Record t : Type :=
  { totalCost : num; totalLeads : num; totalCases : num; totalRetainers : num }.
End Youtube.

(** The reply of [/api/dashboard-data]; a field the reply lacks is [None]. *)
Module Reply.
Record t : Type :=
  { buckets : option (list Bucket);
    unmapped_campaigns : option (list string);
    litify_leads : option (list Lead);
    available_buckets : option (list string);
    data_source : option string;
    excluded_lead_counts : option ExcludedCounts }.
End Reply.

Record App : Type :=
  { buckets : list Bucket;
    unmappedCampaigns : list string;
    litifyLeads : list Lead;
    filteredLitifyLeads : list Lead;
    availableBuckets : list string;
    summary : Summary;
    youtubeSummary : Youtube.t;
    includeSpam : bool; includeAbandoned : bool; includeDuplicate : bool;
    excludedCounts : ExcludedCounts;
    selectedState : string; selectedCampaign : string; litifyBucketFilter : string;
    filteredBuckets : list Bucket;
    filteredSummary : Summary;
    dataSource : string;
    isLoading : bool;
    hasError : bool;
    errorMessage : string;
    lastUpdated : string }.

Definition zeroSummary : Summary :=
  {| totalCost := zero; totalLeads := zero; totalCases := zero;
     totalRetainers := zero; totalPending := zero; avgCostPerLead := zero |}.

Definition zeroYoutube : Youtube.t :=
  {| Youtube.totalCost := zero; Youtube.totalLeads := zero;
     Youtube.totalCases := zero; Youtube.totalRetainers := zero |}.

(** The component as [dashboardApp()] returns it. *)
Definition dashboardApp : App :=
  {| buckets := []; unmappedCampaigns := []; litifyLeads := [];
     filteredLitifyLeads := []; availableBuckets := [];
     summary := zeroSummary; youtubeSummary := zeroYoutube;
     includeSpam := false; includeAbandoned := false; includeDuplicate := false;
     excludedCounts :=
       {| spam := zero; abandoned := zero; duplicate := zero; total := zero |};
     selectedState := "all"; selectedCampaign := "all"; litifyBucketFilter := "all";
     filteredBuckets := []; filteredSummary := zeroSummary;
     dataSource := "Demo Data";
     isLoading := true; hasError := false; errorMessage := ""; lastUpdated := "Never" |}.

(** Writing the three status fields. *)
Definition with_status (st : App) (loading error : bool) (message : string) : App :=
  {| buckets := buckets st; unmappedCampaigns := unmappedCampaigns st;
     litifyLeads := litifyLeads st; filteredLitifyLeads := filteredLitifyLeads st;
     availableBuckets := availableBuckets st;
     summary := summary st; youtubeSummary := youtubeSummary st;
     includeSpam := includeSpam st; includeAbandoned := includeAbandoned st;
     includeDuplicate := includeDuplicate st;
     excludedCounts := excludedCounts st;
     selectedState := selectedState st; selectedCampaign := selectedCampaign st;
     litifyBucketFilter := litifyBucketFilter st;
     filteredBuckets := filteredBuckets st; filteredSummary := filteredSummary st;
     dataSource := dataSource st;
     isLoading := loading; hasError := error; errorMessage := message;
     lastUpdated := lastUpdated st |}.

(** [list.reduce((sum, b) => sum + (f(b) || 0), 0)] *)
Definition total_ (f : Bucket -> num) (l : list Bucket) : num :=
  fold_left (fun sum b => add sum (orZero (f b))) l zero.

(** The summary object of a list of buckets, as [fetchData] and
    [updateFilters] build it. *)
Definition summarize (l : list Bucket) : Summary :=
  let cost' := total_ cost l in
  let leads' := total_ leads l in
  {| totalCost := cost'; totalLeads := leads';
     totalCases := total_ cases l; totalRetainers := total_ retainers l;
     totalPending := total_ pendingRetainers l;
     avgCostPerLead := if gt leads' zero then div cost' leads' else zero |}.

(** [isYouTubeBucket(bucket)] *)
Definition isYouTubeBucket (b : Bucket) : bool :=
  match campaigns b with
  | None => false
  | Some l => existsb (fun campaign => Str.includes (Str.toLowerCase campaign) "crisp") l
  end.

(** [hasExclusionFilters()] *)
Definition hasExclusionFilters (st : App) : bool :=
  includeSpam st || includeAbandoned st || includeDuplicate st.

(** What [fetchData()] does before its first [await]. *)
Definition fetchData_begin (st : App) : App :=
  with_status st (match buckets st with [] => true | _ => false end) false
    (errorMessage st).

(** [updateFilters()] (main.js, 352-404); the request it starts when an exclusion filter is
    on is a call of [fetchData] whose reply comes later: only its
    beginning runs here.  The chart is not part of the state. *)
Definition updateFilters (st : App) : App :=
  let filtered :=
    filter
      (fun b =>
         negb (negb (String.eqb (selectedState st) "all")
               && negb (String.eqb (state b) (selectedState st)))
         && negb (negb (String.eqb (selectedCampaign st) "all")
                  && negb (String.eqb (name b) (selectedCampaign st))))
      (buckets st) in
  let youtube :=
    fold_left
      (fun y b =>
         if isYouTubeBucket b then
           {| Youtube.totalCost := add (Youtube.totalCost y) (orZero (cost b));
              Youtube.totalLeads := add (Youtube.totalLeads y) (orZero (leads b));
              Youtube.totalCases := add (Youtube.totalCases y) (orZero (cases b));
              Youtube.totalRetainers :=
                add (Youtube.totalRetainers y) (orZero (retainers b)) |}
         else y)
      filtered zeroYoutube in
  let st' :=
    {| buckets := buckets st; unmappedCampaigns := unmappedCampaigns st;
       litifyLeads := litifyLeads st; filteredLitifyLeads := filteredLitifyLeads st;
       availableBuckets := availableBuckets st;
       summary := summary st;
       youtubeSummary := youtube;
       includeSpam := includeSpam st; includeAbandoned := includeAbandoned st;
       includeDuplicate := includeDuplicate st;
       excludedCounts := excludedCounts st;
       selectedState := selectedState st; selectedCampaign := selectedCampaign st;
       litifyBucketFilter := litifyBucketFilter st;
       filteredBuckets := filtered; filteredSummary := summarize filtered;
       dataSource := dataSource st;
       isLoading := isLoading st; hasError := hasError st;
       errorMessage := errorMessage st;
       lastUpdated := lastUpdated st |} in
  if hasExclusionFilters st' then fetchData_begin st' else st'.

(** [filterLitifyLeads()] *)
Definition filterLitifyLeads (st : App) : App :=
  let shown :=
    if String.eqb (litifyBucketFilter st) "all" then litifyLeads st
    else filter (fun lead => String.eqb (bucket lead) (litifyBucketFilter st))
           (litifyLeads st) in
  {| buckets := buckets st; unmappedCampaigns := unmappedCampaigns st;
     litifyLeads := litifyLeads st; filteredLitifyLeads := shown;
     availableBuckets := availableBuckets st;
     summary := summary st; youtubeSummary := youtubeSummary st;
     includeSpam := includeSpam st; includeAbandoned := includeAbandoned st;
     includeDuplicate := includeDuplicate st;
     excludedCounts := excludedCounts st;
     selectedState := selectedState st; selectedCampaign := selectedCampaign st;
     litifyBucketFilter := litifyBucketFilter st;
     filteredBuckets := filteredBuckets st; filteredSummary := filteredSummary st;
     dataSource := dataSource st;
     isLoading := isLoading st; hasError := hasError st;
     errorMessage := errorMessage st;
     lastUpdated := lastUpdated st |}.

(** The assignments of the [try] block, from [this.buckets = ...] to
    [this.isLoading = false]; [clock] is what
    [new Date().toLocaleTimeString()] returns. *)
Definition assignData (clock : string) (data : Reply.t) (st : App) : App :=
  let buckets' := match Reply.buckets data with Some l => l | None => [] end in
  {| buckets := buckets';
     unmappedCampaigns := match Reply.unmapped_campaigns data with Some l => l | None => [] end;
     litifyLeads := match Reply.litify_leads data with Some l => l | None => [] end;
     filteredLitifyLeads := filteredLitifyLeads st;
     availableBuckets := match Reply.available_buckets data with Some l => l | None => [] end;
     summary := summarize buckets';
     youtubeSummary := youtubeSummary st;
     includeSpam := includeSpam st; includeAbandoned := includeAbandoned st;
     includeDuplicate := includeDuplicate st;
     excludedCounts :=
       match Reply.excluded_lead_counts data with
       | Some c => c
       | None => {| spam := zero; abandoned := zero; duplicate := zero; total := zero |}
       end;
     selectedState := selectedState st; selectedCampaign := selectedCampaign st;
     litifyBucketFilter := litifyBucketFilter st;
     filteredBuckets := filteredBuckets st; filteredSummary := filteredSummary st;
     dataSource := Str.orElse (Reply.data_source data) "Demo Data";
     isLoading := false; hasError := hasError st;
     errorMessage := errorMessage st;
     lastUpdated := clock |}.

(** [fetchData()] (main.js, 216-267) *)
Definition fetchData (clock : string) (reply : Eff.Fetched Reply.t)
    : Eff.M App unit :=
  Eff.modify fetchData_begin ;;
  Eff.try_catch
    (response <- Eff.fetch reply ;;
     (if negb (Eff.ok response) then Eff.throw "Failed to fetch data" else Eff.ret tt) ;;
     data <- Eff.json response ;;
     Eff.modify (assignData clock data) ;;
     Eff.modify updateFilters ;;
     Eff.modify filterLitifyLeads)
    (fun error => Eff.modify (fun st => with_status st false true error)).

(** A request of [fetchData] that fails: no connection, a status that is
    not [ok], or a body that is not JSON. *)
Definition failed (reply : Eff.Fetched Reply.t) : bool :=
  match reply with
  | inl _ => true
  | inr response =>
      negb (Eff.ok response)
      || match Eff.body response with None => true | Some _ => false end
  end.

End DashboardApp.

(** ** The jQuery dashboard ([static/js/dashboard.js])

    The request cycle of [fetchData]: the [state] object and which of the
    three page blocks is shown.  Rendering the tables and charts is outside
    the model. *)

Module Dashboard.

Record Lead : Type := { count_for_leads : bool }.

Record Reply : Type :=
  { litify_leads : option (list Lead);
    available_buckets : option (list string) }.

(** What [xhr.responseText] parses to: [None] when it is not JSON, else
    the [error] field of the object, if it has one. *)
Record Xhr : Type := { responseJSON : option (option string) }.

Inductive Ajax : Type :=
| Success (response : Reply)
| Error (xhr : Xhr).

Record State : Type :=
  { isLoading : bool;
    isRefreshing : bool;
    dashboardData : Reply;
    litifyLeads : list Lead;
    availableBuckets : list string }.

(** Visibility of [#loadingState], [#errorState], [#dashboardContent] and
    the text of [#errorMessage]. *)
Record Page : Type :=
  { loadingState : bool;
    errorState : bool;
    dashboardContent : bool;
    errorMessage : string }.

(** The [success] callback. *)
Definition onSuccess (response : Reply) (sp : State * Page) : State * Page :=
  let (st, page) := sp in
  ({| isLoading := isLoading st;
      isRefreshing := isRefreshing st;
      dashboardData := response;
      litifyLeads :=
        filter (fun lead => Bool.eqb (count_for_leads lead) true)
          (match litify_leads response with Some l => l | None => [] end);
      availableBuckets :=
        match available_buckets response with Some l => l | None => [] end |},
   {| loadingState := false;
      errorState := errorState page;
      dashboardContent := true;
      errorMessage := errorMessage page |}).

(** The [error] callback. *)
Definition onError (xhr : Xhr) (sp : State * Page) : State * Page :=
  let (st, page) := sp in
  let errorMessage' :=
    match responseJSON xhr with
    | Some (Some e) =>
        Str.orElse (Some e) "Failed to load dashboard data. Please try again."
    | _ => "Failed to load dashboard data. Please try again."
    end in
  (st,
   {| loadingState := false;
      errorState := true;
      dashboardContent := dashboardContent page;
      errorMessage := errorMessage' |}).

(** The [complete] callback. *)
Definition onComplete (sp : State * Page) : State * Page :=
  let (st, page) := sp in
  ({| isLoading := false;
      isRefreshing := false;
      dashboardData := dashboardData st;
      litifyLeads := litifyLeads st;
      availableBuckets := availableBuckets st |},
   page).

(** [fetchData(forceRefresh)] (dashboard.js, 236-321) with the outcome of
    its request. *)
Definition fetchData (outcome : Ajax) (sp : State * Page) : State * Page :=
  let (st, page) := sp in
  if isLoading st then sp
  else
    let st := {| isLoading := true;
                 isRefreshing := isRefreshing st;
                 dashboardData := dashboardData st;
                 litifyLeads := litifyLeads st;
                 availableBuckets := availableBuckets st |} in
    let page := {| loadingState := true;
                   errorState := false;
                   dashboardContent := false;
                   errorMessage := errorMessage page |} in
    onComplete
      (match outcome with
       | Success response => onSuccess response (st, page)
       | Error xhr => onError xhr (st, page)
       end).

End Dashboard.

(** ** Vocabulary of the specification *)

Module Spec.

Import ForecastingApp.

Definition regions : list Region := [CA; AZ; GA; TX].
Definition metrics : list Metric := [Spend; Leads; Cases; Retainers].

(** Every monthly target and every actual figure is a finite number. *)
Definition finiteInputs (st : App) : bool :=
  forallb
    (fun s =>
       forallb
         (fun m =>
            isFinite (monthlyTotal (Target.get (get (settings st) s) m))
            && isFinite (Actual.get (get (actualData st) s) m))
         metrics)
    regions.

(** Sum over the four regions. *)
Definition sumRegions (f : Region -> Q) : Q := (f CA + f AZ + f GA + f TX)%Q.

(** Total monthly target and total actual figure of a metric. *)
Definition target (st : App) (m : Metric) : Q :=
  sumRegions (fun s => toQ (monthlyTotal (Target.get (get (settings st) s) m))).

Definition actual (st : App) (m : Metric) : Q :=
  sumRegions (fun s => toQ (Actual.get (get (actualData st) s) m)).

(** The computed fields, by metric. *)
Definition totalTarget (c : Computed) (m : Metric) : num :=
  match m with
  | Spend => totalTargetSpend c | Leads => totalTargetLeads c
  | Cases => totalTargetCases c | Retainers => totalTargetRetainers c
  end.

Definition totalActual (c : Computed) (m : Metric) : num :=
  match m with
  | Spend => totalActualSpend c | Leads => totalActualLeads c
  | Cases => totalActualCases c | Retainers => totalActualRetainers c
  end.

Definition progress (c : Computed) (m : Metric) : num :=
  match m with
  | Spend => spendProgress c | Leads => leadsProgress c
  | Cases => casesProgress c | Retainers => retainersProgress c
  end.

Definition dailyAverage (c : Computed) (m : Metric) : num :=
  match m with
  | Spend => dailyAverageSpend c | Leads => dailyAverageLeads c
  | Cases => dailyAverageCases c | Retainers => dailyAverageRetainers c
  end.

Definition requiredDaily (c : Computed) (m : Metric) : num :=
  match m with
  | Spend => requiredDailySpend c | Leads => requiredDailyLeads c
  | Cases => requiredDailyCases c | Retainers => requiredDailyRetainers c
  end.

Definition projected (c : Computed) (m : Metric) : num :=
  match m with
  | Spend => projectedSpend c | Leads => projectedLeads c
  | Cases => projectedCases c | Retainers => projectedRetainers c
  end.



(** The cost per lead [generateInsights] computes, and the insights that
    print it. *)
Definition currentCPL (c : Computed) : num :=
  div (totalActualSpend c) (totalActualLeads c).

Definition isCostPerLead (i : Insight) : bool :=
  match i with CostPerLead _ => true | Text _ => false end.

(** The message of the error a failed request of [dashboardApp] throws. *)
Definition failureMessage (reply : Eff.Fetched DashboardApp.Reply.t) : string :=
  match reply with
  | inl message => message
  | inr response =>
      if Eff.ok response then "Unexpected token < in JSON at position 0"
      else "Failed to fetch data"
  end.

(** A percentage as it is quoted, rounded to one decimal. *)
Definition oneDecimal (q : Q) : Q := (inject_Z (round_half_up (q * 10)) / 10)%Q.

(** The dates of the month of [now], and how many fall on Monday to
    Friday and on Saturday or Sunday. *)
Definition daysInMonth (now : Date.t) : Z :=
  Date.getDate
    (Date.civil_from_days
       (Date.make (Date.getFullYear now) (Date.getMonth now + 1) 0)).

Definition datesOfMonth (now : Date.t) : list Z :=
  map Z.of_nat (seq 1 (Z.to_nat (daysInMonth now))).

Definition dayOfWeek (now : Date.t) (day : Z) : Z :=
  Date.getDay (Date.make (Date.getFullYear now) (Date.getMonth now) day).

Definition isMonFri (now : Date.t) (day : Z) : bool :=
  (1 <=? dayOfWeek now day) && (dayOfWeek now day <=? 5).

Definition isSatSun (now : Date.t) (day : Z) : bool :=
  (dayOfWeek now day =? 6) || (dayOfWeek now day =? 0).

Definition weekdayCount (now : Date.t) : Z :=
  Z.of_nat (List.length (filter (isMonFri now) (datesOfMonth now))).

Definition weekendCount (now : Date.t) : Z :=
  Z.of_nat (List.length (filter (isSatSun now) (datesOfMonth now))).

(** The daily split of a monthly total over [weekdayCount] weekdays and
    [weekendCount] weekend days: 70% on the weekdays, 30% on the weekend
    days, each rounded. *)
Definition dailySplit (total : num) (weekdayCount weekendCount : Z) : MetricTarget :=
  {| weekdayDaily := round (div (mul total (Fin (7 # 10))) (ofZ weekdayCount));
     weekendDaily := round (div (mul total (Fin (3 # 10))) (ofZ weekendCount));
     monthlyTotal := total |}.

(** The leads target of a region, and the day counts the component works
    with. *)
Definition leadsTotal (st : App) (s : Region) : num :=
  monthlyTotal (Target.leads (get (settings st) s)).

Definition weekdays (now : Date.t) (st : App) : Z := getWeekdaysInMonth now st.

Definition weekends (now : Date.t) (st : App) : Z :=
  totalDaysInMonth st - getWeekdaysInMonth now st.

End Spec.

(** ** Sample states *)

Module Sample.

Import ForecastingApp.

Definition noTarget : Target.t :=
  {| Target.spend := mt 0 0 0; Target.leads := mt 0 0 0;
     Target.cases := mt 0 0 0; Target.retainers := mt 0 0 0 |}.

(** One region with a target of [leadsTarget] leads and [leadsSoFar] leads
    so far, nothing else, on day [day] of a month of [days] days. *)
Definition leadsOnly (leadsTarget leadsSoFar day days : Z) : App :=
  {| currentDayOfMonth := day;
     totalDaysInMonth := days;
     remainingDays := days - day;
     dataSource := "Demo Data";
     conversionRates := defaultRates;
     settings :=
       {| atCA := {| Target.spend := mt 0 0 0; Target.leads := mt 0 0 leadsTarget;
                     Target.cases := mt 0 0 0; Target.retainers := mt 0 0 0 |};
          atAZ := noTarget; atGA := noTarget; atTX := noTarget |};
     actualData :=
       {| atCA := actual 0 leadsSoFar 0 0; atAZ := actual 0 0 0 0;
          atGA := actual 0 0 0 0; atTX := actual 0 0 0 0 |};
     computed := initialComputed |}.

(** Targets [{leads.monthlyTotal: 1000}], actual [{leads: 300}], day 10
    of 30. *)
Definition endToEnd : App := leadsOnly 1000 300 10 30.



(** The default targets on day 3 of 30, no lead yet, and a spend of -100
    (a refund) in one region. *)
Definition refund : App :=
  {| currentDayOfMonth := 3;
     totalDaysInMonth := 30;
     remainingDays := 27;
     dataSource := "Live Data";
     conversionRates := defaultRates;
     settings := defaultSettings;
     actualData :=
       {| atCA := actual (-100) 0 0 0; atAZ := actual 0 0 0 0;
          atGA := actual 0 0 0 0; atTX := actual 0 0 0 0 |};
     computed := initialComputed |}.

(** The live dashboard after a reply labelled "Live Data" with one
    bucket. *)
Definition searchBucket : DashboardApp.Bucket :=
  {| DashboardApp.name := "California Search";
     DashboardApp.state := "CA";
     DashboardApp.campaigns := Some ["CA Brand"; "CA Injury"];
     DashboardApp.cost := ofZ 1200; DashboardApp.leads := ofZ 10;
     DashboardApp.cases := ofZ 2; DashboardApp.retainers := ofZ 1;
     DashboardApp.pendingRetainers := ofZ 0 |}.

Definition liveReply : DashboardApp.Reply.t :=
  {| DashboardApp.Reply.buckets := Some [searchBucket];
     DashboardApp.Reply.unmapped_campaigns := None;
     DashboardApp.Reply.litify_leads := None;
     DashboardApp.Reply.available_buckets := Some ["California Search"];
     DashboardApp.Reply.data_source := Some "Live Data";
     DashboardApp.Reply.excluded_lead_counts := None |}.

Definition liveDashboard : DashboardApp.App :=
  Eff.exec
    (DashboardApp.fetchData "10:15:00 AM"
       (inr {| Eff.ok := true; Eff.body := Some liveReply |}))
    DashboardApp.dashboardApp.

Definition november3 : Date.t :=
  {| Date.getFullYear := 2026; Date.getMonth := 10; Date.getDate := 3 |}.


End Sample.

(** ** Derived figures and classes of the forecasting view *)

Module ForecastingViews.

Import ForecastingApp.

(** [getStatePacingStatus(state)] (main.js, 1136-1140) *)
Definition getStatePacingStatus (st : App) (state : Region) : string :=
  let expected := expectedProgress st in
  let actualProgress := getStateProgress st state Spend in
  getPacingStatus actualProgress expected.

(** [getStatePacingBadgeClass(state)] (main.js, 1142-1151) *)
Definition getStatePacingBadgeClass (st : App) (state : Region) : string :=
  let status := getStatePacingStatus st state in
  if Str.includes status "Ahead" || String.eqb status "On track" then
    "bg-green-100 text-green-800 dark-mode:bg-green-900 dark-mode:text-green-300"
  else if Str.includes status "Slightly" then
    "bg-yellow-100 text-yellow-800 dark-mode:bg-yellow-900 dark-mode:text-yellow-300"
  else "bg-red-100 text-red-800 dark-mode:bg-red-900 dark-mode:text-red-300".

(** [getPacingClass(status)] (main.js, 1169-1173) *)
Definition getPacingClass (status : string) : string :=
  if Str.includes status "Ahead" || String.eqb status "On track" then "pacing-good"
  else if Str.includes status "Slightly" then "pacing-warning"
  else "pacing-danger".

(** [getSpendPacingClass()] ... [getRetainersPacingClass()]
    (main.js, 1153-1167) *)
Definition getSpendPacingClass (st : App) : string :=
  getPacingClass (spendPacingStatus (computed st)).
Definition getLeadsPacingClass (st : App) : string :=
  getPacingClass (leadsPacingStatus (computed st)).
Definition getCasesPacingClass (st : App) : string :=
  getPacingClass (casesPacingStatus (computed st)).
Definition getRetainersPacingClass (st : App) : string :=
  getPacingClass (retainersPacingStatus (computed st)).

(** [getProgressBarClass(progress)] (main.js, 1175-1182) *)
Definition getProgressBarClass (st : App) (progress : num) : string :=
  let expected := expectedProgress st in
  let diff := sub progress expected in
  if ge diff (ofZ 0) then "bg-green-500"
  else if ge diff (ofZ (-10)) then "bg-yellow-500"
  else "bg-red-500".

End ForecastingViews.

(** ** More sample states *)

Module Fixture.

Import ForecastingApp.

(** The default targets with the demo figures on day [day] of a month of
    [days] days. *)
Definition demoOn (day days : Z) : App :=
  {| currentDayOfMonth := day;
     totalDaysInMonth := days;
     remainingDays := days - day;
     dataSource := "Demo Data";
     conversionRates := defaultRates;
     settings := defaultSettings;
     actualData := demoData;
     computed := initialComputed |}.

Definition midMonth : App := demoOn 10 30.
Definition lastDay : App := demoOn 30 30.

End Fixture.

(** ** The insight cards of the live dashboard

    Each bucket of the reply carries, beside the figures of
    [DashboardApp.Bucket], the rates the server computes for it. *)

Module DashboardCards.

Import DashboardApp.

Record BucketRow : Type :=
  { bucket : Bucket;
    inPractice : num;
    conversionRate : num;
    costPerLead : num;
    cpa : num }.

(** [list.reduce((prev, current) => better(current, prev) ? current : prev)]
    from a first element: [current] replaces [prev] when it is better. *)
Definition pick (better : BucketRow -> BucketRow -> bool) (first : BucketRow)
    (rest : list BucketRow) : BucketRow :=
  fold_left (fun prev current => if better current prev then current else prev)
    rest first.

(** [getBestConversion()] (main.js, 564-572) *)
Definition getBestConversion (filteredBuckets : list BucketRow) : string :=
  match filteredBuckets with
  | [] => "N/A"
  | _ :: _ =>
      match filter (fun b => gt (conversionRate b) zero) filteredBuckets with
      | [] => "N/A"
      | first :: rest =>
          name (bucket
                  (pick (fun current prev =>
                           gt (conversionRate current) (conversionRate prev))
                     first rest))
      end
  end.

(** [getLowestCPL()] (main.js, 574-582) *)
Definition getLowestCPL (filteredBuckets : list BucketRow) : string :=
  match
    filter (fun b => gt (costPerLead b) zero && negb (isYouTubeBucket (bucket b)))
      filteredBuckets
  with
  | [] => "N/A"
  | first :: rest =>
      name (bucket
              (pick (fun current prev => lt (costPerLead current) (costPerLead prev))
                 first rest))
  end.

(** [getHighestVolume()] (main.js, 584-590) *)
Definition getHighestVolume (filteredBuckets : list BucketRow) : string :=
  match filteredBuckets with
  | [] => "N/A"
  | first :: rest =>
      name (bucket
              (pick (fun current prev =>
                       gt (leads (bucket current)) (leads (bucket prev)))
                 first rest))
  end.

(** [getMostEfficient()] (main.js, 592-600) *)
Definition getMostEfficient (filteredBuckets : list BucketRow) : string :=
  match
    filter (fun b => gt (cpa b) zero && negb (isYouTubeBucket (bucket b)))
      filteredBuckets
  with
  | [] => "N/A"
  | first :: rest =>
      name (bucket (pick (fun current prev => lt (cpa current) (cpa prev)) first rest))
  end.

(** [getIncludedCount()] (main.js, 178-184) *)
Definition getIncludedCount (st : App) : num :=
  let count := zero in
  let count := if includeSpam st then add count (spam (excludedCounts st)) else count in
  let count :=
    if includeAbandoned st then add count (abandoned (excludedCounts st)) else count in
  if includeDuplicate st then add count (duplicate (excludedCounts st)) else count.

(** [clearExclusionFilters()] (main.js, 186-191) *)
Definition clearExclusionFilters (st : App) : App :=
  updateFilters
    {| buckets := buckets st; unmappedCampaigns := unmappedCampaigns st;
       litifyLeads := litifyLeads st; filteredLitifyLeads := filteredLitifyLeads st;
       availableBuckets := availableBuckets st;
       summary := summary st; youtubeSummary := youtubeSummary st;
       includeSpam := false; includeAbandoned := false; includeDuplicate := false;
       excludedCounts := excludedCounts st;
       selectedState := selectedState st; selectedCampaign := selectedCampaign st;
       litifyBucketFilter := litifyBucketFilter st;
       filteredBuckets := filteredBuckets st; filteredSummary := filteredSummary st;
       dataSource := dataSource st;
       isLoading := isLoading st; hasError := hasError st;
       errorMessage := errorMessage st;
       lastUpdated := lastUpdated st |}.

(** The getter [availableCampaigns] (main.js, 193-204) *)
Definition availableCampaigns (st : App) : list string :=
  let campaigns := map name (buckets st) in
  if negb (String.eqb (selectedState st) "all") then
    filter
      (fun name' =>
         match find (fun b => String.eqb (name b) name') (buckets st) with
         | Some bucket => String.eqb (state bucket) (selectedState st)
         | None => false
         end)
      campaigns
  else campaigns.

End DashboardCards.

(** ** The key insights of the jQuery dashboard

    [updateKeyInsights()] (dashboard.js, 1107-1142) picks one bucket for
    each of four cards; [None] stands for the text 'N/A', [Some b] for the
    text made of the name and the figure of [b]. *)

Module KeyInsights.

Import DashboardApp.
Import DashboardCards.

Record t : Type :=
  { bestConversion : option BucketRow;
    lowestCPL : option BucketRow;
    highestVolume : option BucketRow;
    mostEfficient : option BucketRow }.

Definition activeBuckets (buckets : list BucketRow) : list BucketRow :=
  filter
    (fun b =>
       gt (leads (bucket b)) zero
       && negb (Str.includes (name (bucket b)) "Youtube")
       && negb (Str.includes (name (bucket b)) "Crisp"))
    buckets.

(** [b.name ? text : 'N/A'] *)
Definition named (b : BucketRow) : option BucketRow :=
  match name (bucket b) with
  | EmptyString => None
  | _ => Some b
  end.

Definition updateKeyInsights (buckets : list BucketRow) : t :=
  match activeBuckets buckets with
  | [] =>
      {| bestConversion := None; lowestCPL := None;
         highestVolume := None; mostEfficient := None |}
  | first :: rest =>
      let activeBuckets := first :: rest in
      let bestConv :=
        pick (fun curr best => gt (conversionRate curr) (conversionRate best))
          first activeBuckets in
      let lowestCPL :=
        pick (fun curr lowest =>
                lt (costPerLead curr) (costPerLead lowest) && gt (costPerLead curr) zero)
          first activeBuckets in
      let highestVol :=
        pick (fun curr highest => gt (leads (bucket curr)) (leads (bucket highest)))
          first activeBuckets in
      let mostEfficient :=
        pick (fun curr best => lt (cpa curr) (cpa best))
          (match find (fun b => gt (cpa b) zero) activeBuckets with
           | Some b => b
           | None => first
           end)
          (filter (fun b => gt (cpa b) zero) activeBuckets) in
      {| bestConversion := named bestConv;
         lowestCPL := named lowestCPL;
         highestVolume := named highestVol;
         mostEfficient :=
           if gt (cpa mostEfficient) zero then Some mostEfficient else None |}
  end.

End KeyInsights.

(** ** Sample buckets *)

Module CardFixture.

Import DashboardApp DashboardCards.

(** A bucket with its rates: conversion rate = cases / leads, cost per
    lead = cost / leads, cost per case = cost / cases. *)
Definition row (name' state' : string) (cost' leads' cases' : Z) : BucketRow :=
  {| bucket :=
       {| name := name'; state := state'; campaigns := Some [name'];
          cost := ofZ cost'; leads := ofZ leads'; cases := ofZ cases';
          retainers := ofZ cases'; pendingRetainers := ofZ 0 |};
     inPractice := ofZ leads';
     conversionRate := div (ofZ cases') (ofZ leads');
     costPerLead := div (ofZ cost') (ofZ leads');
     cpa := div (ofZ cost') (ofZ cases') |}.

Definition organic : BucketRow := row "Organic" "CA" 0 12 3.
Definition search : BucketRow := row "California Search" "CA" 1200 10 2.
Definition arizona : BucketRow := row "Arizona Search" "AZ" 900 6 1.

(** The live dashboard with two buckets, filtered by state. *)
Definition twoStates : App :=
  {| buckets := [bucket search; bucket arizona]; unmappedCampaigns := [];
     litifyLeads := []; filteredLitifyLeads := []; availableBuckets := [];
     summary := summarize [bucket search; bucket arizona];
     youtubeSummary := zeroYoutube;
     includeSpam := true; includeAbandoned := false; includeDuplicate := false;
     excludedCounts :=
       {| spam := ofZ 4; abandoned := ofZ 2; duplicate := ofZ 1; total := ofZ 7 |};
     selectedState := "AZ"; selectedCampaign := "all"; litifyBucketFilter := "all";
     filteredBuckets := [bucket arizona];
     filteredSummary := summarize [bucket arizona];
     dataSource := "Live Data";
     isLoading := false; hasError := false; errorMessage := "";
     lastUpdated := "10:15:00 AM" |}.

End CardFixture.

(** ** Date ranges

    [setDateRange] of the two dashboards.  A [Date] object is a civil
    date; [setDate] lets the day of the month run over, as [Date.make]
    does. *)

Module DateRange.

Definition digit (n : Z) : string :=
  String (Ascii.ascii_of_N (Z.to_N (48 + n))) EmptyString.

(** The decimal digits of a natural number, [fuel] bounding their count. *)
Fixpoint digits (fuel : nat) (n : Z) : string :=
  match fuel with
  | O => EmptyString
  | S fuel' => if n <? 10 then digit n else digits fuel' (n / 10) ++ digit (n mod 10)
  end.

(** [String(n)] of an integer. *)
Definition toString (n : Z) : string :=
  if n <? 0 then "-" ++ digits (S (Z.to_nat (- n))) (- n)
  else digits (S (Z.to_nat n)) n.

(** [s.padStart(2, '0')] *)
Definition padStart2 (s : string) : string :=
  match String.length s with
  | O => "00"
  | S O => "0" ++ s
  | _ => s
  end.

(** [formatDate(date)] (main.js, 286-291; dashboard.js, 1157-1162) *)
Definition formatDate (date : Date.t) : string :=
  let year := Date.getFullYear date in
  let month := padStart2 (toString (Date.getMonth date + 1)) in
  let day := padStart2 (toString (Date.getDate date)) in
  toString year ++ "-" ++ month ++ "-" ++ day.

(** The day number of a [Date] object, and [date.getDay()]. *)
Definition dayNumber (date : Date.t) : Z :=
  Date.make (Date.getFullYear date) (Date.getMonth date) (Date.getDate date).

Definition getDay (date : Date.t) : Z := Date.getDay (dayNumber date).

(** [copy = new Date(date); copy.setDate(day)] *)
Definition setDate (date : Date.t) (day : Z) : Date.t :=
  Date.civil_from_days (Date.make (Date.getFullYear date) (Date.getMonth date) day).

(** The [Date] objects [setDateRange] of [dashboardApp] formats
    (main.js, 295-323). *)
Definition yesterday (today : Date.t) : Date.t := setDate today (Date.getDate today - 1).
Definition weekStart (today : Date.t) : Date.t :=
  setDate today (Date.getDate today - getDay today).
Definition monthStart (today : Date.t) : Date.t :=
  Date.civil_from_days (Date.make (Date.getFullYear today) (Date.getMonth today) 1).
Definition thirtyDaysAgo (today : Date.t) : Date.t :=
  setDate today (Date.getDate today - 30).

Record Range : Type :=
  { dateRangePreset : string;
    startDate : string;
    endDate : string }.

(** [setDateRange(range)] of [dashboardApp] (main.js, 284-326), up to the
    call of [fetchData()] that ends it. *)
Definition setDateRange (today : Date.t) (range : string) (st : Range) : Range :=
  let st :=
    {| dateRangePreset := range; startDate := startDate st; endDate := endDate st |} in
  if String.eqb range "today" then
    {| dateRangePreset := dateRangePreset st;
       startDate := formatDate today; endDate := formatDate today |}
  else if String.eqb range "yesterday" then
    {| dateRangePreset := dateRangePreset st;
       startDate := formatDate (yesterday today);
       endDate := formatDate (yesterday today) |}
  else if String.eqb range "week" then
    {| dateRangePreset := dateRangePreset st;
       startDate := formatDate (weekStart today); endDate := formatDate today |}
  else if String.eqb range "month" then
    {| dateRangePreset := dateRangePreset st;
       startDate := formatDate (monthStart today); endDate := formatDate today |}
  else if String.eqb range "last30" then
    {| dateRangePreset := dateRangePreset st;
       startDate := formatDate (thirtyDaysAgo today); endDate := formatDate today |}
  else st.

(** The [Date] objects of the jQuery dashboard (dashboard.js, 180-191). *)
Definition weekAgo (today : Date.t) : Date.t := setDate today (Date.getDate today - 6).
Definition monthAgo (today : Date.t) : Date.t := setDate today (Date.getDate today - 29).

End DateRange.

(** ** Requests of the jQuery dashboard

    [fetchData] of [static/js/dashboard.js] up to the moment the request
    is sent, and the functions that call it.  [sent] lists the requests
    sent so far, the latest first; an undefined date is [None]. *)

Module DashboardRequests.

Import Dashboard.

Record Query : Type :=
  { start_date : option string;
    end_date : option string;
    include_spam : bool;
    include_abandoned : bool;
    include_duplicate : bool;
    force_refresh : bool }.

Record Session : Type :=
  { state : State;
    page : Page;
    dateRangePreset : string;
    startDate : option string;
    endDate : option string;
    includeSpam : bool;
    includeAbandoned : bool;
    includeDuplicate : bool;
    sent : list Query }.

(** The session when the script is loaded (dashboard.js, 4-26). *)
Definition initial : Session :=
  {| state :=
       {| isLoading := false; isRefreshing := false;
          dashboardData := {| litify_leads := None; available_buckets := None |};
          litifyLeads := []; availableBuckets := [] |};
     page :=
       {| loadingState := false; errorState := false; dashboardContent := false;
          errorMessage := "" |};
     dateRangePreset := "today";
     startDate := Some ""; endDate := Some "";
     includeSpam := false; includeAbandoned := false; includeDuplicate := false;
     sent := [] |}.

(** [fetchData(forceRefresh)] (dashboard.js, 236-321) up to [$.ajax]. *)
Definition send (forceRefresh : bool) (s : Session) : Session :=
  if isLoading (state s) then s
  else
    {| state :=
         {| isLoading := true;
            isRefreshing := isRefreshing (state s);
            dashboardData := dashboardData (state s);
            litifyLeads := litifyLeads (state s);
            availableBuckets := availableBuckets (state s) |};
       page :=
         {| loadingState := true; errorState := false; dashboardContent := false;
            errorMessage := errorMessage (page s) |};
       dateRangePreset := dateRangePreset s;
       startDate := startDate s; endDate := endDate s;
       includeSpam := includeSpam s; includeAbandoned := includeAbandoned s;
       includeDuplicate := includeDuplicate s;
       sent :=
         {| start_date := startDate s; end_date := endDate s;
            include_spam := includeSpam s; include_abandoned := includeAbandoned s;
            include_duplicate := includeDuplicate s;
            force_refresh := forceRefresh |} :: sent s |}.

(** The callbacks of the request that is in flight. *)
Definition settle (outcome : Ajax) (s : Session) : Session :=
  let (st, pg) :=
    onComplete
      (match outcome with
       | Success response => onSuccess response (state s, page s)
       | Error xhr => onError xhr (state s, page s)
       end) in
  {| state := st; page := pg;
     dateRangePreset := dateRangePreset s;
     startDate := startDate s; endDate := endDate s;
     includeSpam := includeSpam s; includeAbandoned := includeAbandoned s;
     includeDuplicate := includeDuplicate s;
     sent := sent s |}.

Definition with_dates (s : Session) (preset : string) (start end' : option string)
    : Session :=
  {| state := state s; page := page s;
     dateRangePreset := preset;
     startDate := start; endDate := end';
     includeSpam := includeSpam s; includeAbandoned := includeAbandoned s;
     includeDuplicate := includeDuplicate s;
     sent := sent s |}.

(** [setDateRange(preset)] (dashboard.js, 166-205) *)
Definition setDateRange (today : Date.t) (preset : string) (s : Session) : Session :=
  let s := with_dates s preset (startDate s) (endDate s) in
  if String.eqb preset "custom" then s
  else
    let range :=
      if String.eqb preset "today" then
        (Some (DateRange.formatDate today), Some (DateRange.formatDate today))
      else if String.eqb preset "yesterday" then
        (Some (DateRange.formatDate (DateRange.yesterday today)),
         Some (DateRange.formatDate (DateRange.yesterday today)))
      else if String.eqb preset "week" then
        (Some (DateRange.formatDate (DateRange.weekAgo today)),
         Some (DateRange.formatDate today))
      else if String.eqb preset "month" then
        (Some (DateRange.formatDate (DateRange.monthAgo today)),
         Some (DateRange.formatDate today))
      else (None, None) in
    send false (with_dates s preset (fst range) (snd range)).

(** [refreshData()] (dashboard.js, 372-377) *)
Definition refreshData (s : Session) : Session :=
  if isRefreshing (state s) then s
  else
    send true
      {| state :=
           {| isLoading := isLoading (state s);
              isRefreshing := true;
              dashboardData := dashboardData (state s);
              litifyLeads := litifyLeads (state s);
              availableBuckets := availableBuckets (state s) |};
         page := page s;
         dateRangePreset := dateRangePreset s;
         startDate := startDate s; endDate := endDate s;
         includeSpam := includeSpam s; includeAbandoned := includeAbandoned s;
         includeDuplicate := includeDuplicate s;
         sent := sent s |}.

(** [init()] (dashboard.js, 32-39): [setDateRange('today')], then
    [fetchData()]. *)
Definition init (today : Date.t) : Session :=
  send false (setDateRange today "today" initial).

(** [clearExclusionFilters()] (dashboard.js, 426-434) *)
Definition clearExclusionFilters (s : Session) : Session :=
  send false
    {| state := state s; page := page s;
       dateRangePreset := dateRangePreset s;
       startDate := startDate s; endDate := endDate s;
       includeSpam := false; includeAbandoned := false; includeDuplicate := false;
       sent := sent s |}.

End DashboardRequests.

(** ** The annual view ([annualAnalyticsApp]) *)

Module AnnualAnalytics.

Record Month : Type :=
  { month : string;
    is_future : bool;
    spend : num;
    leads : num;
    conversion_rate : num }.

Record Summary : Type :=
  { total_spend : num; total_leads : num; total_cases : num; total_retainers : num;
    total_in_practice : num; total_unqualified : num;
    avg_cpl : num; avg_cpa : num; avg_cpr : num; avg_conversion_rate : num }.

(** The reply of [/api/annual-data]; a field the reply lacks is [None].
    The performance analysis is an object the component only hands to
    the page: its entries are kept as texts. *)
Record Reply : Type :=
  { monthly_data : option (list Month);
    annual_summary : option Summary;
    performance_analysis : option (list (string * string));
    data_source : option string }.

Record App : Type :=
  { selectedYear : Z;
    availableYears : list Z;
    monthlyData : list Month;
    annualSummary : Summary;
    performanceAnalysis : list (string * string);
    dataSource : string;
    isLoading : bool;
    isRefreshing : bool }.

(** The component as [annualAnalyticsApp()] returns it in year [year]. *)
Definition annualAnalyticsApp (year : Z) : App :=
  {| selectedYear := year;
     availableYears := [];
     monthlyData := [];
     annualSummary :=
       {| total_spend := zero; total_leads := zero; total_cases := zero;
          total_retainers := zero; total_in_practice := zero;
          total_unqualified := zero;
          avg_cpl := zero; avg_cpa := zero; avg_cpr := zero;
          avg_conversion_rate := zero |};
     performanceAnalysis := [];
     dataSource := "Demo Data";
     isLoading := true;
     isRefreshing := false |}.

Definition with_flags (st : App) (loading refreshing : bool) : App :=
  {| selectedYear := selectedYear st; availableYears := availableYears st;
     monthlyData := monthlyData st; annualSummary := annualSummary st;
     performanceAnalysis := performanceAnalysis st;
     dataSource := dataSource st;
     isLoading := loading; isRefreshing := refreshing |}.

(** The assignments of the [try] block of [fetchYearData]. *)
Definition assignYear (data : Reply) (st : App) : App :=
  {| selectedYear := selectedYear st; availableYears := availableYears st;
     monthlyData := match monthly_data data with Some l => l | None => [] end;
     annualSummary :=
       match annual_summary data with Some s => s | None => annualSummary st end;
     performanceAnalysis :=
       match performance_analysis data with Some p => p | None => [] end;
     dataSource :=
       match data_source data with
       | Some label =>
           if Str.includes label "Live Data" then label ++ " (All Campaigns)"
           else Str.orElse (Some label) "Demo Data"
       | None => "Demo Data"
       end;
     isLoading := false; isRefreshing := false |}.

(** [fetchYearData(forceRefresh)] (main.js, 1367-1427) *)
Definition fetchYearData (forceRefresh : bool) (reply : Eff.Fetched Reply)
    : Eff.M App unit :=
  Eff.modify (fun st => with_flags st true forceRefresh) ;;
  Eff.try_catch
    (response <- Eff.fetch reply ;;
     data <- Eff.json response ;;
     Eff.modify (assignYear data))
    (fun error => Eff.modify (fun st => with_flags st false false)).

(** [init()] (main.js, 1339-1359): the three years offered, then the
    first request. *)
Definition init (currentYear : Z) (reply : Eff.Fetched Reply) : Eff.M App unit :=
  Eff.modify (fun st =>
    {| selectedYear := selectedYear st;
       availableYears := [currentYear; currentYear - 1; currentYear - 2];
       monthlyData := monthlyData st; annualSummary := annualSummary st;
       performanceAnalysis := performanceAnalysis st;
       dataSource := dataSource st;
       isLoading := isLoading st; isRefreshing := isRefreshing st |}) ;;
  fetchYearData true reply.

End AnnualAnalytics.

(** ** The forecasting component over binary64 numbers

    The same component with every number a double: the records and the
    methods of [ForecastingApp] whose results depend on how an operation
    rounds, with the regions, the metrics and the loop of
    [getWeekdaysInMonth] shared with it. *)

Module Forecasting64.

Import ForecastingApp.
Import Double.

Record MetricTarget : Type :=
  { weekdayDaily : num; weekendDaily : num; monthlyTotal : num }.

Module Target.
Record t : Type :=
  { spend : MetricTarget; leads : MetricTarget;
    cases : MetricTarget; retainers : MetricTarget }.

Definition get (x : t) (m : Metric) : MetricTarget :=
  match m with
  | Spend => spend x | Leads => leads x | Cases => cases x | Retainers => retainers x
  end.

Definition set (x : t) (m : Metric) (v : MetricTarget) : t :=
  match m with
  | Spend => {| spend := v; leads := leads x; cases := cases x; retainers := retainers x |}
  | Leads => {| spend := spend x; leads := v; cases := cases x; retainers := retainers x |}
  | Cases => {| spend := spend x; leads := leads x; cases := v; retainers := retainers x |}
  | Retainers => {| spend := spend x; leads := leads x; cases := cases x; retainers := v |}
  end.
End Target.

Module Actual.
Record t : Type := { spend : num; leads : num; cases : num; retainers : num }.

Definition get (x : t) (m : Metric) : num :=
  match m with
  | Spend => spend x | Leads => leads x | Cases => cases x | Retainers => retainers x
  end.
End Actual.

Record ConversionRates : Type := { leadToCase : num; leadToRetainer : num }.

(** An entry of [insights]: a literal message, or the cost-per-lead
    template [`Cost per lead ($${currentCPL.toFixed(0)}) is better than
    target`] with the number it prints. *)
Inductive Insight : Type :=
| Text (message : string)
| CostPerLead (currentCPL : num).

(** The fields under "Computed values". *)
Record Computed : Type :=
  { totalTargetSpend : num; totalTargetLeads : num;
    totalTargetCases : num; totalTargetRetainers : num;
    totalActualSpend : num; totalActualLeads : num;
    totalActualCases : num; totalActualRetainers : num;
    spendProgress : num; leadsProgress : num;
    casesProgress : num; retainersProgress : num;
    spendPacingStatus : string; leadsPacingStatus : string;
    casesPacingStatus : string; retainersPacingStatus : string;
    dailyAverageSpend : num; dailyAverageLeads : num;
    dailyAverageCases : num; dailyAverageRetainers : num;
    requiredDailySpend : num; requiredDailyLeads : num;
    requiredDailyCases : num; requiredDailyRetainers : num;
    projectedSpend : num; projectedLeads : num;
    projectedCases : num; projectedRetainers : num;
    insights : list Insight }.

Record App : Type :=
  { currentDayOfMonth : Z;
    totalDaysInMonth : Z;
    remainingDays : Z;
    dataSource : string;
    conversionRates : ConversionRates;
    settings : PerState Target.t;
    actualData : PerState Actual.t;
    computed : Computed }.

Definition with_settings (st : App) (s : PerState Target.t) : App :=
  {| currentDayOfMonth := currentDayOfMonth st;
     totalDaysInMonth := totalDaysInMonth st;
     remainingDays := remainingDays st;
     dataSource := dataSource st;
     conversionRates := conversionRates st;
     settings := s;
     actualData := actualData st;
     computed := computed st |}.

Definition with_actualData (st : App) (a : PerState Actual.t) : App :=
  {| currentDayOfMonth := currentDayOfMonth st;
     totalDaysInMonth := totalDaysInMonth st;
     remainingDays := remainingDays st;
     dataSource := dataSource st;
     conversionRates := conversionRates st;
     settings := settings st;
     actualData := a;
     computed := computed st |}.

Definition with_dataSource (st : App) (label : string) : App :=
  {| currentDayOfMonth := currentDayOfMonth st;
     totalDaysInMonth := totalDaysInMonth st;
     remainingDays := remainingDays st;
     dataSource := label;
     conversionRates := conversionRates st;
     settings := settings st;
     actualData := actualData st;
     computed := computed st |}.

Definition with_conversionRates (st : App) (r : ConversionRates) : App :=
  {| currentDayOfMonth := currentDayOfMonth st;
     totalDaysInMonth := totalDaysInMonth st;
     remainingDays := remainingDays st;
     dataSource := dataSource st;
     conversionRates := r;
     settings := settings st;
     actualData := actualData st;
     computed := computed st |}.

Definition with_computed (st : App) (c : Computed) : App :=
  {| currentDayOfMonth := currentDayOfMonth st;
     totalDaysInMonth := totalDaysInMonth st;
     remainingDays := remainingDays st;
     dataSource := dataSource st;
     conversionRates := conversionRates st;
     settings := settings st;
     actualData := actualData st;
     computed := c |}.

Definition with_insights (c : Computed) (l : list Insight) : Computed :=
  {| totalTargetSpend := totalTargetSpend c; totalTargetLeads := totalTargetLeads c;
     totalTargetCases := totalTargetCases c; totalTargetRetainers := totalTargetRetainers c;
     totalActualSpend := totalActualSpend c; totalActualLeads := totalActualLeads c;
     totalActualCases := totalActualCases c; totalActualRetainers := totalActualRetainers c;
     spendProgress := spendProgress c; leadsProgress := leadsProgress c;
     casesProgress := casesProgress c; retainersProgress := retainersProgress c;
     spendPacingStatus := spendPacingStatus c; leadsPacingStatus := leadsPacingStatus c;
     casesPacingStatus := casesPacingStatus c;
     retainersPacingStatus := retainersPacingStatus c;
     dailyAverageSpend := dailyAverageSpend c; dailyAverageLeads := dailyAverageLeads c;
     dailyAverageCases := dailyAverageCases c;
     dailyAverageRetainers := dailyAverageRetainers c;
     requiredDailySpend := requiredDailySpend c; requiredDailyLeads := requiredDailyLeads c;
     requiredDailyCases := requiredDailyCases c;
     requiredDailyRetainers := requiredDailyRetainers c;
     projectedSpend := projectedSpend c; projectedLeads := projectedLeads c;
     projectedCases := projectedCases c; projectedRetainers := projectedRetainers c;
     insights := l |}.

(** The component as [forecastingApp()] returns it. *)
Definition mt (wd we total : Z) : MetricTarget :=
  {| weekdayDaily := ofZ wd; weekendDaily := ofZ we; monthlyTotal := ofZ total |}.

Definition defaultSettings : PerState Target.t :=
  {| atCA := {| Target.spend := mt 36364 18182 1000000; Target.leads := mt 51 26 1428;
                Target.cases := mt 11 6 308; Target.retainers := mt 13 6 350 |};
     atAZ := {| Target.spend := mt 22727 11364 500000; Target.leads := mt 18 9 500;
                Target.cases := mt 4 2 110; Target.retainers := mt 5 2 125 |};
     atGA := {| Target.spend := mt 9091 4545 200000; Target.leads := mt 11 5 310;
                Target.cases := mt 3 1 68; Target.retainers := mt 4 2 80 |};
     atTX := {| Target.spend := mt 0 0 0; Target.leads := mt 0 0 0;
                Target.cases := mt 0 0 0; Target.retainers := mt 0 0 0 |} |}.

Definition defaultRates : ConversionRates :=
  {| leadToCase := ofZ 22; leadToRetainer := ofZ 25 |}.

Definition actual (spend leads cases retainers : Z) : Actual.t :=
  {| Actual.spend := ofZ spend; Actual.leads := ofZ leads;
     Actual.cases := ofZ cases; Actual.retainers := ofZ retainers |}.

Definition noActuals : PerState Actual.t :=
  {| atCA := actual 0 0 0 0; atAZ := actual 0 0 0 0;
     atGA := actual 0 0 0 0; atTX := actual 0 0 0 0 |}.

Definition initialComputed : Computed :=
  {| totalTargetSpend := zero; totalTargetLeads := zero;
     totalTargetCases := zero; totalTargetRetainers := zero;
     totalActualSpend := zero; totalActualLeads := zero;
     totalActualCases := zero; totalActualRetainers := zero;
     spendProgress := zero; leadsProgress := zero;
     casesProgress := zero; retainersProgress := zero;
     spendPacingStatus := ""; leadsPacingStatus := "";
     casesPacingStatus := ""; retainersPacingStatus := "";
     dailyAverageSpend := zero; dailyAverageLeads := zero;
     dailyAverageCases := zero; dailyAverageRetainers := zero;
     requiredDailySpend := zero; requiredDailyLeads := zero;
     requiredDailyCases := zero; requiredDailyRetainers := zero;
     projectedSpend := zero; projectedLeads := zero;
     projectedCases := zero; projectedRetainers := zero;
     insights := [] |}.

Definition forecastingApp : App :=
  {| currentDayOfMonth := 0;
     totalDaysInMonth := 0;
     remainingDays := 0;
     dataSource := "Demo Data";
     conversionRates := defaultRates;
     settings := defaultSettings;
     actualData := noActuals;
     computed := initialComputed |}.

(** [getWeekdaysInMonth()] (main.js, 945-959), with the loop of
    [ForecastingApp.countWeekdays]. *)
Definition getWeekdaysInMonth (now : Date.t) (st : App) : Z :=
  let year := Date.getFullYear now in
  let month := Date.getMonth now in
  countWeekdays year month (Z.to_nat (totalDaysInMonth st)) 1 0.

(** [getPacingStatus(actual, expected)] (main.js, 1080-1086) *)
Definition getPacingStatus (actual expected : num) : string :=
  let diff := sub actual expected in
  if ge diff (ofZ 10) then "Ahead of target"
  else if ge diff (ofZ 0) then "On track"
  else if ge diff (ofZ (-10)) then "Slightly behind"
  else "Behind target".

(** [(this.currentDayOfMonth / this.totalDaysInMonth) * 100] *)
Definition expectedProgress (st : App) : num :=
  mul (div (ofZ (currentDayOfMonth st)) (ofZ (totalDaysInMonth st))) (ofZ 100).

(** [getStateTarget], [getStateActual], [getStateProgress] *)
Definition getStateTarget (st : App) (state : Region) (metric : Metric) : num :=
  orZero (monthlyTotal (Target.get (get (settings st) state) metric)).

Definition getStateActual (st : App) (state : Region) (metric : Metric) : num :=
  orZero (Actual.get (get (actualData st) state) metric).

Definition getStateProgress (st : App) (state : Region) (metric : Metric) : num :=
  let target := getStateTarget st state metric in
  let actual := getStateActual st state metric in
  if gt target zero then mul (div actual target) (ofZ 100) else zero.

(** [generateInsights()] (main.js, 1088-1120): the list it builds, from
    [this.insights = []] to the last [push] ... *)
Definition insightList (st : App) : list Insight :=
  let c := computed st in
  let insights0 : list Insight := [] in
  let insights1 :=
    if gt (projectedSpend c) (mul (totalTargetSpend c) (lit (11 # 10))) then
      insights0 ++ [Text "Spend is projected to exceed target by more than 10%"]
    else if lt (projectedSpend c) (mul (totalTargetSpend c) (lit (9 # 10))) then
      insights0 ++ [Text "Spend is projected to fall short of target by more than 10%"]
    else insights0 in
  let insights2 :=
    if gt (dailyAverageLeads c) (mul (requiredDailyLeads c) (lit (12 # 10))) then
      insights1 ++ [Text "Lead generation is significantly outperforming targets"]
    else if lt (dailyAverageLeads c) (mul (requiredDailyLeads c) (lit (8 # 10))) then
      insights1 ++ [Text "Lead generation needs acceleration to meet targets"]
    else insights1 in
  let currentCPL := div (totalActualSpend c) (totalActualLeads c) in
  let targetCPL := div (totalTargetSpend c) (totalTargetLeads c) in
  let insights3 :=
    if lt currentCPL (mul targetCPL (lit (9 # 10))) then
      insights2 ++ [CostPerLead currentCPL]
    else insights2 in
  let insights4 :=
    fold_left
      (fun acc state =>
         let stateProgress := getStateProgress st state Spend in
         let expected := expectedProgress st in
         if gt (abs (sub stateProgress expected)) (ofZ 15) then
           acc ++ [Text (regionCode state ++ " spend pacing needs attention")]
         else acc)
      [CA; AZ; GA] insights3 in
  insights4.

(** ... which is what [this.insights] holds when it returns. *)
Definition generateInsights (st : App) : App :=
  with_computed st (with_insights (computed st) (insightList st)).

(** [Object.values(obj).reduce((sum, x) => sum + (f(x) || 0), 0)] *)
Definition sumOrZero {A} (f : A -> num) (l : list A) : num :=
  fold_left (fun sum x => add sum (orZero (f x))) l zero.

(** [calculatePacing()] (main.js, 1006-1078): first every computed field
    but [insights] ... *)
Definition pacingFields (st : App) : Computed :=
  let old := computed st in
  let currentDay := currentDayOfMonth st in
  let remaining := remainingDays st in
  let totalTargetSpend' :=
    sumOrZero (fun s => monthlyTotal (Target.spend s)) (values (settings st)) in
  let totalTargetLeads' :=
    sumOrZero (fun s => monthlyTotal (Target.leads s)) (values (settings st)) in
  let totalTargetCases' :=
    sumOrZero (fun s => monthlyTotal (Target.cases s)) (values (settings st)) in
  let totalTargetRetainers' :=
    sumOrZero (fun s => monthlyTotal (Target.retainers s)) (values (settings st)) in
  let totalActualSpend' := sumOrZero Actual.spend (values (actualData st)) in
  let totalActualLeads' := sumOrZero Actual.leads (values (actualData st)) in
  let totalActualCases' := sumOrZero Actual.cases (values (actualData st)) in
  let totalActualRetainers' := sumOrZero Actual.retainers (values (actualData st)) in
  let expected := expectedProgress st in
  let progress target actual :=
    if gt target zero then mul (div actual target) (ofZ 100) else zero in
  let spendProgress' := progress totalTargetSpend' totalActualSpend' in
  let leadsProgress' := progress totalTargetLeads' totalActualLeads' in
  let casesProgress' := progress totalTargetCases' totalActualCases' in
  let retainersProgress' := progress totalTargetRetainers' totalActualRetainers' in
  let dailyAverage actual :=
    if currentDay >? 0 then div actual (ofZ currentDay) else zero in
  let dailyAverageSpend' := dailyAverage totalActualSpend' in
  let dailyAverageLeads' := dailyAverage totalActualLeads' in
  let dailyAverageCases' := dailyAverage totalActualCases' in
  let dailyAverageRetainers' := dailyAverage totalActualRetainers' in
  let requiredDaily previous target actual :=
    if remaining >? 0 then max zero (div (sub target actual) (ofZ remaining))
    else previous in
  let projection actual average := add actual (mul average (ofZ remaining)) in
  {| totalTargetSpend := totalTargetSpend';
     totalTargetLeads := totalTargetLeads';
     totalTargetCases := totalTargetCases';
     totalTargetRetainers := totalTargetRetainers';
     totalActualSpend := totalActualSpend';
     totalActualLeads := totalActualLeads';
     totalActualCases := totalActualCases';
     totalActualRetainers := totalActualRetainers';
     spendProgress := spendProgress';
     leadsProgress := leadsProgress';
     casesProgress := casesProgress';
     retainersProgress := retainersProgress';
     spendPacingStatus := getPacingStatus spendProgress' expected;
     leadsPacingStatus := getPacingStatus leadsProgress' expected;
     casesPacingStatus := getPacingStatus casesProgress' expected;
     retainersPacingStatus := getPacingStatus retainersProgress' expected;
     dailyAverageSpend := dailyAverageSpend';
     dailyAverageLeads := dailyAverageLeads';
     dailyAverageCases := dailyAverageCases';
     dailyAverageRetainers := dailyAverageRetainers';
     requiredDailySpend :=
       requiredDaily (requiredDailySpend old) totalTargetSpend' totalActualSpend';
     requiredDailyLeads :=
       requiredDaily (requiredDailyLeads old) totalTargetLeads' totalActualLeads';
     requiredDailyCases :=
       requiredDaily (requiredDailyCases old) totalTargetCases' totalActualCases';
     requiredDailyRetainers :=
       requiredDaily (requiredDailyRetainers old)
         totalTargetRetainers' totalActualRetainers';
     projectedSpend := projection totalActualSpend' dailyAverageSpend';
     projectedLeads := round (projection totalActualLeads' dailyAverageLeads');
     projectedCases := round (projection totalActualCases' dailyAverageCases');
     projectedRetainers :=
       round (projection totalActualRetainers' dailyAverageRetainers');
     insights := insights old |}.

(** ... then [this.generateInsights()]. *)
Definition calculatePacing (st : App) : App :=
  generateInsights (with_computed st (pacingFields st)).

(** [recalculateDailyTargets(state, metric)] (main.js, 846-858) *)
Definition recalculateDailyTargets (now : Date.t) (state : Region) (metric : Metric)
    (st : App) : App :=
  let target := Target.get (get (settings st) state) metric in
  let monthlyTotal' := monthlyTotal target in
  let weekdays := getWeekdaysInMonth now st in
  let weekends := totalDaysInMonth st - weekdays in
  let weekdayDaily' := round (div (mul monthlyTotal' (lit (7 # 10))) (ofZ weekdays)) in
  let weekendDaily' := round (div (mul monthlyTotal' (lit (3 # 10))) (ofZ weekends)) in
  with_settings st
    (set (settings st) state
       (Target.set (get (settings st) state) metric
          {| weekdayDaily := weekdayDaily';
             weekendDaily := weekendDaily';
             monthlyTotal := monthlyTotal' |})).

(** [this.settings[state][metric].monthlyTotal = v] *)
Definition setMonthlyTotal (state : Region) (metric : Metric) (v : num) (st : App) : App :=
  let target := Target.get (get (settings st) state) metric in
  with_settings st
    (set (settings st) state
       (Target.set (get (settings st) state) metric
          {| weekdayDaily := weekdayDaily target;
             weekendDaily := weekendDaily target;
             monthlyTotal := v |})).

(** [recalculateTargets(state)] (main.js, 860-879) *)
Definition recalculateTargets (now : Date.t) (state : Region) (st : App) : App :=
  let leads := monthlyTotal (Target.leads (get (settings st) state)) in
  let cases := round (mul leads (div (leadToCase (conversionRates st)) (ofZ 100))) in
  let st := setMonthlyTotal state Cases cases st in
  let retainers :=
    round (mul leads (div (leadToRetainer (conversionRates st)) (ofZ 100))) in
  let st := setMonthlyTotal state Retainers retainers st in
  let st :=
    fold_left (fun st metric => recalculateDailyTargets now state metric st)
      [Spend; Leads; Cases; Retainers] st in
  calculatePacing st.

(** [updateCalculations()] (main.js, 881-897) *)
Definition updateCalculations (now : Date.t) (st : App) : App :=
  let st :=
    fold_left
      (fun st state =>
         let leads := monthlyTotal (Target.leads (get (settings st) state)) in
         let st :=
           setMonthlyTotal state Cases
             (round (mul leads (div (leadToCase (conversionRates st)) (ofZ 100)))) st in
         let st :=
           setMonthlyTotal state Retainers
             (round (mul leads (div (leadToRetainer (conversionRates st)) (ofZ 100)))) st in
         fold_left (fun st metric => recalculateDailyTargets now state metric st)
           [Cases; Retainers] st)
      [CA; AZ; GA; TX] st in
  calculatePacing st.

(** [loadDefaults()] (main.js, 808-844) *)
Definition loadDefaults (st : App) : App :=
  calculatePacing
    (with_conversionRates (with_settings st defaultSettings) defaultRates).

(** The date part of [init()]: it runs before the first [await]. *)
Definition initDates (now : Date.t) (st : App) : App :=
  let currentDay := Date.getDate now in
  let lastDay := Date.make (Date.getFullYear now) (Date.getMonth now + 1) 0 in
  let totalDays := Date.getDate (Date.civil_from_days lastDay) in
  {| currentDayOfMonth := currentDay;
     totalDaysInMonth := totalDays;
     remainingDays := totalDays - currentDay;
     dataSource := dataSource st;
     conversionRates := conversionRates st;
     settings := settings st;
     actualData := actualData st;
     computed := computed st |}.






(** The states the component passes through: [init()] runs once, when the
    component is created and sets the dates; [loadSettings()] and
    [fetchActualData()] write [settings], [actualData] and [dataSource]
    from replies of any content; after that the user edits targets and
    rates, and the methods above run in any order. *)
Inductive reachable : App -> Prop :=
| reach_new : reachable forecastingApp
| reach_init now : reachable (initDates now forecastingApp)
| reach_settings st s : reachable st -> reachable (with_settings st s)
| reach_rates st r : reachable st -> reachable (with_conversionRates st r)
| reach_actualData st a : reachable st -> reachable (with_actualData st a)
| reach_dataSource st label : reachable st -> reachable (with_dataSource st label)
| reach_calculatePacing st : reachable st -> reachable (calculatePacing st)
| reach_loadDefaults st : reachable st -> reachable (loadDefaults st)
| reach_recalculateTargets st now state :
    reachable st -> reachable (recalculateTargets now state st)
| reach_updateCalculations st now :
    reachable st -> reachable (updateCalculations now st).

End Forecasting64.

(** ** Vocabulary and sample states over binary64 numbers *)

Module Spec64.

Import ForecastingApp.
Import Double Forecasting64.

(** The computed fields, by metric. *)
Definition totalTarget (c : Computed) (m : Metric) : num :=
  match m with
  | Spend => totalTargetSpend c | Leads => totalTargetLeads c
  | Cases => totalTargetCases c | Retainers => totalTargetRetainers c
  end.

Definition totalActual (c : Computed) (m : Metric) : num :=
  match m with
  | Spend => totalActualSpend c | Leads => totalActualLeads c
  | Cases => totalActualCases c | Retainers => totalActualRetainers c
  end.

Definition progress (c : Computed) (m : Metric) : num :=
  match m with
  | Spend => spendProgress c | Leads => leadsProgress c
  | Cases => casesProgress c | Retainers => retainersProgress c
  end.

Definition dailyAverage (c : Computed) (m : Metric) : num :=
  match m with
  | Spend => dailyAverageSpend c | Leads => dailyAverageLeads c
  | Cases => dailyAverageCases c | Retainers => dailyAverageRetainers c
  end.

Definition requiredDaily (c : Computed) (m : Metric) : num :=
  match m with
  | Spend => requiredDailySpend c | Leads => requiredDailyLeads c
  | Cases => requiredDailyCases c | Retainers => requiredDailyRetainers c
  end.

Definition projected (c : Computed) (m : Metric) : num :=
  match m with
  | Spend => projectedSpend c | Leads => projectedLeads c
  | Cases => projectedCases c | Retainers => projectedRetainers c
  end.

(** Every monthly target and every actual figure is a finite number. *)
Definition finiteInputs (st : App) : bool :=
  forallb
    (fun s =>
       forallb
         (fun m =>
            isFinite (monthlyTotal (Target.get (get (settings st) s) m))
            && isFinite (Actual.get (get (actualData st) s) m))
         [Spend; Leads; Cases; Retainers])
    [CA; AZ; GA; TX].

(** A zero of either sign. *)
Definition isZero (x : num) : bool :=
  match x with S754_zero _ => true | _ => false end.


(** The target a conversion rate gives, as the component evaluates it:
    [Math.round(leads * (rate / 100))]. *)
Definition converted (leadsTotal rate : num) : num :=
  round (mul leadsTotal (div rate (ofZ 100))).

(** The daily split of a monthly total over [weekdays] weekdays and
    [weekends] weekend days, as the component evaluates it:
    [Math.round((monthlyTotal * 0.7) / weekdays)] and
    [Math.round((monthlyTotal * 0.3) / weekends)]. *)
Definition dailySplit (total : num) (weekdays weekends : Z) : MetricTarget :=
  {| weekdayDaily := round (div (mul total (lit (7 # 10))) (ofZ weekdays));
     weekendDaily := round (div (mul total (lit (3 # 10))) (ofZ weekends));
     monthlyTotal := total |}.

(** The leads target of a region, and the day counts the component works
    with. *)
Definition leadsTotal (st : App) (s : Region) : num :=
  monthlyTotal (Target.leads (get (settings st) s)).

Definition weekdays (now : Date.t) (st : App) : Z := getWeekdaysInMonth now st.

Definition weekends (now : Date.t) (st : App) : Z :=
  totalDaysInMonth st - getWeekdaysInMonth now st.

(** [part / whole * 100], as [calculatePacing] computes a percentage. *)
Definition percentOf (part whole : Z) : num :=
  mul (div (ofZ part) (ofZ whole)) (ofZ 100).

(** The state [init()] sets up on the day [now], and the one after the
    monthly target of [metric] in [state] was set to [total]. *)
Definition started (now : Date.t) : App := initDates now forecastingApp.

Definition withTarget (now : Date.t) (state : Region) (metric : Metric) (total : num)
    : App :=
  setMonthlyTotal state metric total (started now).

(** A leads target of [leadsTarget] in California and a lead-to-case rate
    of [rate] percent, on 3 November 2026. *)
Definition withRate (leadsTarget rate : Z) : App :=
  with_conversionRates (withTarget Sample.november3 CA Leads (ofZ leadsTarget))
    {| leadToCase := ofZ rate; leadToRetainer := ofZ 25 |}.



Definition february28 : Date.t :=
  {| Date.getFullYear := 2026; Date.getMonth := 1; Date.getDate := 28 |}.

Definition march1 : Date.t :=
  {| Date.getFullYear := 2026; Date.getMonth := 2; Date.getDate := 1 |}.

(** Figures of the examples. *)
Definition figures : list num :=
  [zero; S754_zero true; NaN; PInf; NInf; ofZ 1; ofZ 4; ofZ 30; ofZ 100; ofZ 50;
   ofZ 29; ofZ 45; ofZ 21; ofZ 9; ofZ (-10); lit (7 # 10); lit (3 # 10);
   ofZ (10 ^ 18); ofZ (2 ^ 1023); div (ofZ 1) (ofZ 30); div (ofZ 4) (ofZ 30);
   div (ofZ 29) (ofZ 100); mul (ofZ 45) (lit (7 # 10))].

End Spec64.

(** ** The summary cards of the jQuery dashboard *)

Module SummaryCards.

Import Double.

(** The fields of a bucket [renderSummaryCards] reads. *)
Record Bucket : Type :=
  { name : string;
    cost : num; leads : num; cases : num; retainers : num; inPractice : num }.

Record Totals : Type :=
  { totalSpend : num; totalLeads : num; totalCases : num; totalRetainers : num;
    totalInPractice : num }.

Record t : Type :=
  { totals : Totals;
    avgCPL : num;
    avgCPA : num;
    avgCPR : num;
    convRate : num }.

(** One round of [buckets.forEach] (dashboard.js, 520-528). *)
Definition addBucket (totals : Totals) (bucket : Bucket) : Totals :=
  if negb (Str.includes (name bucket) "Youtube")
     && negb (Str.includes (name bucket) "Crisp")
  then
    {| totalSpend := add (totalSpend totals) (orZero (cost bucket));
       totalLeads := add (totalLeads totals) (orZero (leads bucket));
       totalCases := add (totalCases totals) (orZero (cases bucket));
       totalRetainers := add (totalRetainers totals) (orZero (retainers bucket));
       totalInPractice := add (totalInPractice totals) (orZero (inPractice bucket)) |}
  else totals.

(** The figures [renderSummaryCards()] (dashboard.js, 509-570) puts on the
    cards. *)
Definition renderSummaryCards (buckets : list Bucket) : t :=
  let totals :=
    fold_left addBucket buckets
      {| totalSpend := zero; totalLeads := zero; totalCases := zero;
         totalRetainers := zero; totalInPractice := zero |} in
  {| totals := totals;
     avgCPL :=
       if gt (totalLeads totals) zero then div (totalSpend totals) (totalLeads totals)
       else zero;
     avgCPA :=
       if gt (totalCases totals) zero then div (totalSpend totals) (totalCases totals)
       else zero;
     avgCPR :=
       if gt (totalRetainers totals) zero
       then div (totalSpend totals) (totalRetainers totals)
       else zero;
     convRate :=
       if gt (totalInPractice totals) zero
       then div (totalRetainers totals) (totalInPractice totals)
       else zero |}.

End SummaryCards.

(** * Properties *)

Unset Implicit Arguments.

Import ForecastingApp.

(** ** Facts about the number model *)

Section NumFacts.

Lemma Qcompare_cases (p q : Q) :
  (p ?= q)%Q = Lt /\ (p < q)%Q \/ (p ?= q)%Q = Eq /\ (p == q)%Q \/
  (p ?= q)%Q = Gt /\ (q < p)%Q.
Proof.
  destruct (p ?= q)%Q eqn:E.
  - right; left; split; [reflexivity | now apply Qeq_alt].
  - left; split; [reflexivity | now apply Qlt_alt].
  - right; right; split; [reflexivity | now apply Qgt_alt].
Qed.

Lemma ge_Fin_true (p q : Q) : ge (Fin p) (Fin q) = true <-> (q <= p)%Q.
Proof.
  unfold ge, cmp.
  destruct (Qcompare_cases p q) as [[-> H] | [[-> H] | [-> H]]];
    split; intros; try reflexivity; try discriminate; try lra; exfalso; lra.
Qed.

Lemma ge_Fin_false (p q : Q) : ge (Fin p) (Fin q) = false <-> (p < q)%Q.
Proof.
  unfold ge, cmp.
  destruct (Qcompare_cases p q) as [[-> H] | [[-> H] | [-> H]]];
    split; intros; try reflexivity; try discriminate; try lra; exfalso; lra.
Qed.

Lemma gt_Fin_true (p q : Q) : gt (Fin p) (Fin q) = true <-> (q < p)%Q.
Proof.
  unfold gt, cmp.
  destruct (Qcompare_cases p q) as [[-> H] | [[-> H] | [-> H]]];
    split; intros; try reflexivity; try discriminate; try lra; exfalso; lra.
Qed.

Lemma gt_Fin_false (p q : Q) : gt (Fin p) (Fin q) = false <-> (p <= q)%Q.
Proof.
  unfold gt, cmp.
  destruct (Qcompare_cases p q) as [[-> H] | [[-> H] | [-> H]]];
    split; intros; try reflexivity; try discriminate; try lra; exfalso; lra.
Qed.

Lemma Qeq_bool_false (q : Q) : Qeq_bool q 0 = false <-> ~ (q == 0)%Q.
Proof.
  split.
  - intros H E. apply Qeq_bool_iff in E. congruence.
  - intros H. destruct (Qeq_bool q 0) eqn:E; [| reflexivity].
    apply Qeq_bool_iff in E. contradiction.
Qed.



End NumFacts.

(** ** The end-to-end scenario *)

Section EndToEnd.

(** C2, as the code computes it: with a leads target of 1000, 300 leads,
    day 10 of 30 (20 days remaining), expected progress is 100/3, quoted
    33.3, actual progress is 30, the leads status is "Slightly behind",
    the daily average is 30 leads, the required daily rate 35 and the
    projection 900. *)
Theorem endToEnd_snapshot :
  expectedProgress Sample.endToEnd =~ Fin (100 # 3) /\
  (Spec.oneDecimal (toQ (expectedProgress Sample.endToEnd)) == 333 # 10)%Q /\
  leadsProgress (computed (calculatePacing Sample.endToEnd)) =~ ofZ 30 /\
  leadsPacingStatus (computed (calculatePacing Sample.endToEnd)) = "Slightly behind" /\
  dailyAverageLeads (computed (calculatePacing Sample.endToEnd)) =~ ofZ 30 /\
  requiredDailyLeads (computed (calculatePacing Sample.endToEnd)) =~ ofZ 35 /\
  projectedLeads (computed (calculatePacing Sample.endToEnd)) =~ ofZ 900.
Proof. vm_compute. repeat split; reflexivity. Qed.

(** C2 as stated fails: the leads status of the scenario is not
    "On track". *)
Lemma endToEnd_not_on_track :
  leadsPacingStatus (computed (calculatePacing Sample.endToEnd)) <> "On track".
Proof. vm_compute. discriminate. Qed.

End EndToEnd.

(** ** Recomputing the snapshot *)

Section Idempotence.

(** [calculatePacing] leaves everything it reads as it was. *)
Lemma calculatePacing_inputs (st : App) :
  currentDayOfMonth (calculatePacing st) = currentDayOfMonth st /\
  totalDaysInMonth (calculatePacing st) = totalDaysInMonth st /\
  remainingDays (calculatePacing st) = remainingDays st /\
  dataSource (calculatePacing st) = dataSource st /\
  conversionRates (calculatePacing st) = conversionRates st /\
  settings (calculatePacing st) = settings st /\
  actualData (calculatePacing st) = actualData st.
Proof. unfold calculatePacing, generateInsights, with_computed; cbn. repeat split. Qed.

Lemma computed_calculatePacing (st : App) :
  computed (calculatePacing st)
  = with_insights (pacingFields st) (insightList (with_computed st (pacingFields st))).
Proof. reflexivity. Qed.

Lemma with_computed_ext (a b : App) (c : Computed) :
  currentDayOfMonth a = currentDayOfMonth b ->
  totalDaysInMonth a = totalDaysInMonth b ->
  remainingDays a = remainingDays b ->
  dataSource a = dataSource b ->
  conversionRates a = conversionRates b ->
  settings a = settings b ->
  actualData a = actualData b ->
  with_computed a c = with_computed b c.
Proof. unfold with_computed. intros; congruence. Qed.

(** Two records of computed fields that agree but for [insights] agree
    once [insights] is overwritten. *)
Lemma with_insights_ext (c c' : Computed) (l : list Insight) :
  with_insights c [] = with_insights c' [] -> with_insights c l = with_insights c' l.
Proof.
  destruct c, c'. unfold with_insights. cbn. intros H.
  injection H as ?. subst. reflexivity.
Qed.

(** The computed fields depend on the targets, the actual figures and the
    calendar position only; the required daily rates are carried over when
    no day remains. *)
Lemma pacingFields_ext (a b : App) :
  currentDayOfMonth a = currentDayOfMonth b ->
  totalDaysInMonth a = totalDaysInMonth b ->
  remainingDays a = remainingDays b ->
  settings a = settings b ->
  actualData a = actualData b ->
  ((remainingDays b >? 0) = false ->
   requiredDailySpend (computed a) = requiredDailySpend (computed b) /\
   requiredDailyLeads (computed a) = requiredDailyLeads (computed b) /\
   requiredDailyCases (computed a) = requiredDailyCases (computed b) /\
   requiredDailyRetainers (computed a) = requiredDailyRetainers (computed b)) ->
  with_insights (pacingFields a) [] = with_insights (pacingFields b) [].
Proof.
  intros Hday Hdays Hrem Hset Hact Hold.
  unfold pacingFields, with_insights, expectedProgress.
  cbn [totalTargetSpend totalTargetLeads totalTargetCases totalTargetRetainers
       totalActualSpend totalActualLeads totalActualCases totalActualRetainers
       spendProgress leadsProgress casesProgress retainersProgress
       spendPacingStatus leadsPacingStatus casesPacingStatus retainersPacingStatus
       dailyAverageSpend dailyAverageLeads dailyAverageCases dailyAverageRetainers
       requiredDailySpend requiredDailyLeads requiredDailyCases requiredDailyRetainers
       projectedSpend projectedLeads projectedCases projectedRetainers insights].
  rewrite Hday, Hdays, Hrem, Hset, Hact.
  destruct (remainingDays b >? 0) eqn:E.
  - reflexivity.
  - destruct (Hold eq_refl) as (-> & -> & -> & ->). reflexivity.
Qed.

(** The insights depend on the targets, the actual figures, the calendar
    position and the computed numbers only. *)
Lemma insightList_ext (a b : App) :
  currentDayOfMonth a = currentDayOfMonth b ->
  totalDaysInMonth a = totalDaysInMonth b ->
  settings a = settings b ->
  actualData a = actualData b ->
  with_insights (computed a) [] = with_insights (computed b) [] ->
  insightList a = insightList b.
Proof.
  intros Hday Hdays Hset Hact Hc.
  assert (P : forall f : Computed -> num,
             (forall c l, f (with_insights c l) = f c) ->
             f (computed a) = f (computed b)).
  { intros f Hf. rewrite <- (Hf (computed a) []), <- (Hf (computed b) []).
    now rewrite Hc. }
  unfold insightList, getStateProgress, getStateTarget, getStateActual,
    expectedProgress.
  rewrite Hday, Hdays, Hset, Hact.
  rewrite (P projectedSpend), (P totalTargetSpend), (P dailyAverageLeads),
    (P requiredDailyLeads), (P totalActualSpend), (P totalActualLeads),
    (P totalTargetLeads) by reflexivity.
  reflexivity.
Qed.

(** C8: computing the snapshot a second time, with the targets, the
    actual figures and the calendar position unchanged, gives the state
    the first computation gave: every total, progress percentage, status,
    daily average, required daily rate, projection and insight is the
    same. *)
Theorem calculatePacing_idempotent (st : App) :
  calculatePacing (calculatePacing st) = calculatePacing st.
Proof.
  destruct (calculatePacing_inputs st) as (Hday & Hdays & Hrem & Hsrc & Hrates & Hset & Hact).
  assert (Hfields :
    with_insights (pacingFields (calculatePacing st)) []
    = with_insights (pacingFields st) []).
  { apply pacingFields_ext; try assumption.
    intros E. rewrite computed_calculatePacing.
    unfold with_insights, pacingFields.
    cbn [requiredDailySpend requiredDailyLeads requiredDailyCases
         requiredDailyRetainers].
    rewrite E. repeat split. }
  assert (Hlist :
    insightList (with_computed (calculatePacing st) (pacingFields (calculatePacing st)))
    = insightList (with_computed st (pacingFields st))).
  { apply insightList_ext; assumption. }
  unfold calculatePacing at 1. unfold generateInsights.
  cbn [computed with_computed].
  rewrite Hlist, (with_insights_ext _ _ _ Hfields).
  unfold calculatePacing, generateInsights. cbn [computed with_computed].
  reflexivity.
Qed.

End Idempotence.

(** ** The calendar of the daily targets *)

Section DailyTargets.

(** The day of the month a [Date] shows is at least 1. *)
Lemma getDate_civil_from_days (z : Z) : 1 <= Date.getDate (Date.civil_from_days z).
Proof.
  unfold Date.civil_from_days. cbn [Date.getDate].
  remember (z + 719468 - (z + 719468) / 146097 * 146097) as doe.
  remember (doe - doe / 1460 + doe / 36524 - doe / 146096) as n.
  remember (doe - (365 * (n / 365) + n / 365 / 4 - n / 365 / 100)) as doy.
  clear. Z.to_euclidean_division_equations. lia.
Qed.

Lemma daysInMonth_pos (now : Date.t) : 1 <= Spec.daysInMonth now.
Proof. unfold Spec.daysInMonth. apply getDate_civil_from_days. Qed.

Lemma dayOfWeek_range (now : Date.t) (day : Z) : 0 <= Spec.dayOfWeek now day < 7.
Proof. unfold Spec.dayOfWeek, Date.getDay. apply Z.mod_pos_bound. lia. Qed.

(** The test of the loop picks Monday to Friday, and rejects exactly
    Saturday and Sunday. *)
Lemma loop_test_MonFri (now : Date.t) (day : Z) :
  negb (Spec.dayOfWeek now day =? 0) && negb (Spec.dayOfWeek now day =? 6)
  = Spec.isMonFri now day.
Proof.
  unfold Spec.isMonFri.
  pose proof (dayOfWeek_range now day) as R.
  set (d := Spec.dayOfWeek now day) in *. clearbody d.
  destruct (Z.eqb_spec d 0), (Z.eqb_spec d 6), (Z.leb_spec 1 d), (Z.leb_spec d 5);
    cbn [negb andb]; try reflexivity; lia.
Qed.

Lemma isSatSun_not_MonFri (now : Date.t) (day : Z) :
  Spec.isSatSun now day = negb (Spec.isMonFri now day).
Proof.
  unfold Spec.isMonFri, Spec.isSatSun.
  pose proof (dayOfWeek_range now day) as R.
  set (d := Spec.dayOfWeek now day) in *. clearbody d.
  destruct (Z.eqb_spec d 0), (Z.eqb_spec d 6), (Z.leb_spec 1 d), (Z.leb_spec d 5);
    cbn [negb andb orb]; try reflexivity; lia.
Qed.

(** The loop counts the days from [k] on that fall on Monday to Friday. *)
Lemma countWeekdays_filter (now : Date.t) (fuel k : nat) (weekdays : Z) :
  countWeekdays (Date.getFullYear now) (Date.getMonth now) fuel (Z.of_nat k) weekdays
  = weekdays
    + Z.of_nat (List.length (filter (Spec.isMonFri now) (map Z.of_nat (seq k fuel)))).
Proof.
  revert k weekdays. induction fuel as [| fuel IH]; intros k weekdays.
  - simpl. lia.
  - cbn [countWeekdays seq map filter].
    replace (Z.of_nat k + 1) with (Z.of_nat (S k)) by lia.
    rewrite IH.
    fold (Spec.dayOfWeek now (Z.of_nat k)).
    rewrite loop_test_MonFri.
    destruct (Spec.isMonFri now (Z.of_nat k)); cbn [List.length]; lia.
Qed.

Lemma get_set_same {A} (m : PerState A) (s : Region) (v : A) : get (set m s v) s = v.
Proof. destruct s; reflexivity. Qed.

Lemma Target_get_set_same (x : Target.t) (m : Metric) (v : MetricTarget) :
  Target.get (Target.set x m v) m = v.
Proof. destruct m; reflexivity. Qed.

(** What [recalculateDailyTargets] leaves at the target it recomputes. *)
Lemma recalculateDailyTargets_target (now : Date.t) (state : Region) (metric : Metric)
    (st : App) :
  Target.get (get (settings (recalculateDailyTargets now state metric st)) state) metric
  = Spec.dailySplit (monthlyTotal (Target.get (get (settings st) state) metric))
      (getWeekdaysInMonth now st)
      (totalDaysInMonth st - getWeekdaysInMonth now st).
Proof.
  unfold recalculateDailyTargets, with_settings. cbn [settings].
  rewrite get_set_same, Target_get_set_same. reflexivity.
Qed.

End DailyTargets.

(** ** Division by a day count *)

Section Tolerance.

Lemma div_Fin_ofZ (p : Q) (z : Z) :
  z <> 0 -> div (Fin p) (ofZ z) = Fin (p / inject_Z z).
Proof.
  intros Hz. unfold div, ofZ.
  assert (E : Qeq_bool (inject_Z z) 0 = false).
  { apply Qeq_bool_false. unfold Qeq, inject_Z. simpl. lia. }
  now rewrite E.
Qed.

End Tolerance.

(** ** The settings the conversion rates leave *)

Section ConversionRates.

(** What [updateCalculations] leaves in the settings of a region. *)
Lemma updateCalculations_settings (now : Date.t) (st : App) (s : Region) :
  get (settings (updateCalculations now st)) s
  = {| Target.spend := Target.spend (get (settings st) s);
       Target.leads := Target.leads (get (settings st) s);
       Target.cases :=
         Spec.dailySplit
           (round (mul (Spec.leadsTotal st s)
                     (div (leadToCase (conversionRates st)) (ofZ 100))))
           (Spec.weekdays now st) (Spec.weekends now st);
       Target.retainers :=
         Spec.dailySplit
           (round (mul (Spec.leadsTotal st s)
                     (div (leadToRetainer (conversionRates st)) (ofZ 100))))
           (Spec.weekdays now st) (Spec.weekends now st) |}.
Proof. destruct s; reflexivity. Qed.

(** What [recalculateTargets(state)] leaves in the settings of that
    region, and of another one. *)
Lemma recalculateTargets_settings (now : Date.t) (st : App) (state : Region) :
  get (settings (recalculateTargets now state st)) state
  = {| Target.spend :=
         Spec.dailySplit (monthlyTotal (Target.spend (get (settings st) state)))
           (Spec.weekdays now st) (Spec.weekends now st);
       Target.leads :=
         Spec.dailySplit (Spec.leadsTotal st state)
           (Spec.weekdays now st) (Spec.weekends now st);
       Target.cases :=
         Spec.dailySplit
           (round (mul (Spec.leadsTotal st state)
                     (div (leadToCase (conversionRates st)) (ofZ 100))))
           (Spec.weekdays now st) (Spec.weekends now st);
       Target.retainers :=
         Spec.dailySplit
           (round (mul (Spec.leadsTotal st state)
                     (div (leadToRetainer (conversionRates st)) (ofZ 100))))
           (Spec.weekdays now st) (Spec.weekends now st) |}.
Proof. destruct state; reflexivity. Qed.

Lemma recalculateTargets_elsewhere (now : Date.t) (st : App) (state s : Region) :
  s <> state ->
  get (settings (recalculateTargets now state st)) s = get (settings st) s.
Proof. destruct state, s; intros H; try reflexivity; contradiction. Qed.

End ConversionRates.

(** ** The fields of the snapshot *)

Section SnapshotFields.







End SnapshotFields.

(** ** The formulas of the snapshot *)

Section SnapshotFormulas.








End SnapshotFormulas.

(** ** The cost-per-lead insight *)

Section CostPerLead.

Lemma lt_NaN_PInf (x y : num) : x = NaN \/ x = PInf -> lt x y = false.
Proof. intros [-> | ->]; destruct y; reflexivity. Qed.

(** Without leads, and with a spend that is not negative, the cost per
    lead is [NaN] or [Infinity]. *)
Lemma currentCPL_without_leads (c : Computed) :
  totalActualLeads c =~ zero ->
  lt (totalActualSpend c) zero = false ->
  Spec.currentCPL c = NaN \/ Spec.currentCPL c = PInf.
Proof.
  unfold Spec.currentCPL, zero.
  destruct (totalActualLeads c) as [l | | |]; cbn [same]; try contradiction.
  intros Hl Hs.
  destruct (totalActualSpend c) as [p | | |].
  - unfold div. rewrite (proj2 (Qeq_bool_iff l 0) Hl).
    unfold lt, cmp in Hs.
    destruct (p ?= 0)%Q; [left | discriminate | right]; reflexivity.
  - right. unfold div. rewrite (proj1 (Qeq_alt l 0) Hl). reflexivity.
  - discriminate.
  - left. reflexivity.
Qed.

(** C10, as the code behaves: when the total of actual leads is 0 and the
    total of actual spend is not negative, the cost per lead that
    [generateInsights] computes is [NaN] or [Infinity], its comparison
    with the target is false, and no cost-per-lead message is among the
    insights. *)
Theorem no_cost_per_lead_insight (st : App) :
  totalActualLeads (computed st) =~ zero ->
  lt (totalActualSpend (computed st)) zero = false ->
  (Spec.currentCPL (computed st) = NaN \/ Spec.currentCPL (computed st) = PInf) /\
  lt (Spec.currentCPL (computed st))
     (mul (div (totalTargetSpend (computed st)) (totalTargetLeads (computed st)))
        (Fin (9 # 10))) = false /\
  existsb Spec.isCostPerLead (insights (computed (generateInsights st))) = false.
Proof.
  intros Hl Hs.
  pose proof (currentCPL_without_leads _ Hl Hs) as CPL.
  split; [exact CPL |]. split; [now apply lt_NaN_PInf |].
  unfold generateInsights, with_computed, with_insights. cbn [computed insights].
  unfold insightList. fold (Spec.currentCPL (computed st)).
  rewrite (lt_NaN_PInf _ _ CPL). cbn [fold_left].
  repeat match goal with
         | |- context [if ?c then _ else _] => destruct c
         end; reflexivity.
Qed.

(** C10 as stated fails for a negative spend: the cost per lead is
    [-Infinity], it is below the target, and the message is pushed. *)
Lemma negative_spend_cost_per_lead :
  ~ (forall st : App,
       totalActualLeads (computed st) =~ zero ->
       existsb Spec.isCostPerLead (insights (computed (generateInsights st))) = false).
Proof.
  intros H.
  specialize (H (with_computed Sample.refund (pacingFields Sample.refund))).
  vm_compute in H. specialize (H eq_refl). discriminate.
Qed.

Lemma no_cost_per_lead_insight_witness :
  (Spec.currentCPL (computed (calculatePacing forecastingApp)) = NaN \/
   Spec.currentCPL (computed (calculatePacing forecastingApp)) = PInf) /\
  lt (Spec.currentCPL (computed (calculatePacing forecastingApp)))
     (mul (div (totalTargetSpend (computed (calculatePacing forecastingApp)))
             (totalTargetLeads (computed (calculatePacing forecastingApp))))
        (Fin (9 # 10))) = false /\
  existsb Spec.isCostPerLead
    (insights (computed (generateInsights (calculatePacing forecastingApp)))) = false.
Proof.
  apply (no_cost_per_lead_insight (calculatePacing forecastingApp)).
  - vm_compute. reflexivity.
  - vm_compute. reflexivity.
Defined.

End CostPerLead.

(** ** Failed requests *)

Section FailedRequests.

Lemma fetchActualData_returns (pacing : Eff.Fetched PacingData)
    (status : Eff.Fetched StatusData) (st : App) :
  Eff.returns (fetchActualData pacing status) st = true.
Proof.
  destruct pacing as [message | [ok [[[data |]] |]]];
    destruct status as [message' | [ok' [[[|] [|]] |]]]; reflexivity.
Qed.

Lemma fetchActualData_demo (pacing : Eff.Fetched PacingData)
    (status : Eff.Fetched StatusData) (st : App) :
  Eff.rejected pacing = true \/ Eff.rejected status = true ->
  Eff.exec (fetchActualData pacing status) st
  = with_actualData (with_dataSource st "Demo Data") demoData.
Proof.
  intros [H | H].
  - destruct pacing as [message | [ok [[[data |]] |]]]; try discriminate; reflexivity.
  - destruct status as [message' | [ok' [[g l] |]]]; try discriminate;
      destruct pacing as [message | [ok [[[data |]] |]]]; reflexivity.
Qed.

Lemma dashboardApp_fetchData_returns (clock : string)
    (reply : Eff.Fetched DashboardApp.Reply.t) (st : DashboardApp.App) :
  Eff.returns (DashboardApp.fetchData clock reply) st = true.
Proof.
  destruct reply as [message | [[|] [data |]]]; reflexivity.
Qed.

Lemma dashboardApp_fetchData_failed (clock : string)
    (reply : Eff.Fetched DashboardApp.Reply.t) (st : DashboardApp.App) :
  DashboardApp.failed reply = true ->
  Eff.exec (DashboardApp.fetchData clock reply) st
  = DashboardApp.with_status st false true (Spec.failureMessage reply).
Proof.
  destruct reply as [message | [[|] [data |]]]; try discriminate; reflexivity.
Qed.

(** C9, as the code behaves: no handler lets the error of a failed request
    escape.  A failed request of [fetchActualData] (either of its two)
    replaces the actual figures by the fixed demo figures and labels them
    "Demo Data".  A failed request of the live dashboard does not: in
    [dashboardApp] it raises the error flag with the message of the error
    and leaves the buckets, the summaries and the data-source label as
    they were; in the jQuery dashboard it shows the error block with a
    message and leaves the data as it was. *)
Theorem failed_requests_are_caught :
  (forall pacing status st,
     Eff.returns (fetchActualData pacing status) st = true) /\
  (forall pacing status st,
     Eff.rejected pacing = true \/ Eff.rejected status = true ->
     dataSource (Eff.exec (fetchActualData pacing status) st) = "Demo Data" /\
     actualData (Eff.exec (fetchActualData pacing status) st) = demoData) /\
  (forall clock reply st,
     Eff.returns (DashboardApp.fetchData clock reply) st = true) /\
  (forall clock reply st,
     DashboardApp.failed reply = true ->
     Eff.exec (DashboardApp.fetchData clock reply) st
     = DashboardApp.with_status st false true (Spec.failureMessage reply)) /\
  (forall xhr st page,
     Dashboard.isLoading st = false ->
     Dashboard.fetchData (Dashboard.Error xhr) (st, page)
     = ({| Dashboard.isLoading := false;
           Dashboard.isRefreshing := false;
           Dashboard.dashboardData := Dashboard.dashboardData st;
           Dashboard.litifyLeads := Dashboard.litifyLeads st;
           Dashboard.availableBuckets := Dashboard.availableBuckets st |},
        {| Dashboard.loadingState := false;
           Dashboard.errorState := true;
           Dashboard.dashboardContent := false;
           Dashboard.errorMessage :=
             match Dashboard.responseJSON xhr with
             | Some (Some (String c e)) => String c e
             | _ => "Failed to load dashboard data. Please try again."
             end |})).
Proof.
  split; [exact fetchActualData_returns |].
  split.
  { intros pacing status st H.
    rewrite (fetchActualData_demo pacing status st H). split; reflexivity. }
  split; [exact dashboardApp_fetchData_returns |].
  split; [exact dashboardApp_fetchData_failed |].
  intros xhr st page H. unfold Dashboard.fetchData. rewrite H.
  destruct xhr as [[[[| c e] |] |]]; reflexivity.
Qed.

(** C9 as stated fails for the live dashboard: after a reply labelled
    "Live Data", a request that finds no connection leaves the label and
    the buckets of that reply in place. *)
Lemma failed_dashboard_fetch_keeps_live_data :
  ~ (forall clock reply st,
       DashboardApp.failed reply = true ->
       DashboardApp.dataSource (Eff.exec (DashboardApp.fetchData clock reply) st)
       = "Demo Data").
Proof.
  intros H.
  specialize (H "10:20:00 AM" (inl "Failed to fetch") Sample.liveDashboard eq_refl).
  vm_compute in H. discriminate.
Qed.

End FailedRequests.

(** * Further properties of the forecasting view *)

Import ForecastingViews.

(** ** Pacing classes *)

Section PacingClasses.

Lemma ge_ofZ_weaken (d : num) (a b : Z) :
  b <= a -> ge d (ofZ a) = true -> ge d (ofZ b) = true.
Proof.
  intros Hab. destruct d as [q | | |]; try (intros; reflexivity); try discriminate.
  unfold ofZ. rewrite !ge_Fin_true. intros H.
  assert (E : (inject_Z b <= inject_Z a)%Q) by (rewrite <- Zle_Qle; exact Hab).
  lra.
Qed.

(** X1: the colour of a progress bar and the pacing class agree for every
    progress value and calendar position: green exactly when the status
    of that progress is "Ahead of target" or "On track" (class
    [pacing-good]), yellow exactly for [pacing-warning], red exactly for
    [pacing-danger]. *)
Theorem progress_bar_agrees_with_pacing_class (st : App) (progress : num) :
  (getProgressBarClass st progress = "bg-green-500" <->
   getPacingClass (getPacingStatus progress (expectedProgress st)) = "pacing-good") /\
  (getProgressBarClass st progress = "bg-yellow-500" <->
   getPacingClass (getPacingStatus progress (expectedProgress st)) = "pacing-warning") /\
  (getProgressBarClass st progress = "bg-red-500" <->
   getPacingClass (getPacingStatus progress (expectedProgress st)) = "pacing-danger").
Proof.
  unfold getProgressBarClass, getPacingStatus.
  generalize (sub progress (expectedProgress st)). intros d.
  pose proof (ge_ofZ_weaken d 10 0 ltac:(lia)) as H10.
  pose proof (ge_ofZ_weaken d 0 (-10) ltac:(lia)) as H0.
  destruct (ge d (ofZ 10)); [rewrite (H10 eq_refl) |];
    (destruct (ge d (ofZ 0)); [rewrite ?(H0 eq_refl) |]);
    try destruct (ge d (ofZ (-10)));
    vm_compute; repeat split; intros; try reflexivity; discriminate.
Qed.

End PacingClasses.

(** ** What the insights never contain *)

Section InsightBounds.

Lemma attention_threshold (d : num) :
  gt (abs d) (ofZ 15) = true ->
  ge d (ofZ 10) = true \/
  (ge d (ofZ 10) = false /\ ge d (ofZ 0) = false /\ ge d (ofZ (-10)) = false).
Proof.
  destruct d as [q | | |]; cbn [abs]; try discriminate.
  - unfold ofZ. rewrite gt_Fin_true, ge_Fin_true, !ge_Fin_false.
    change (inject_Z 15) with 15%Q. change (inject_Z 10) with 10%Q.
    change (inject_Z 0) with 0%Q. change (inject_Z (-10)) with (-10)%Q.
    intros H. destruct (Qlt_le_dec q 0) as [N | P].
    + rewrite Qabs_neg in H by lra. right. repeat split; lra.
    + rewrite Qabs_pos in H by lra. left. lra.
  - intros _. left. reflexivity.
  - intros _. right. repeat split; reflexivity.
Qed.

(** A loop that pushes [g x] for the [x] that pass a test. *)
Lemma push_loop_length (A B : Type) (c : B -> bool) (g : B -> A) (l : list B)
    (init : list A) :
  (List.length (fold_left (fun acc x => if c x then acc ++ [g x] else acc) l init)
   <= List.length init + List.length l)%nat.
Proof.
  revert init. induction l as [| x l IH]; intros init; cbn [fold_left List.length].
  - lia.
  - specialize (IH (if c x then init ++ [g x] else init)).
    destruct (c x); [rewrite length_app in IH; cbn [List.length] in IH |]; lia.
Qed.

Lemma push_loop_In (A B : Type) (c : B -> bool) (g : B -> A) (l : list B)
    (init : list A) (y : A) :
  In y (fold_left (fun acc x => if c x then acc ++ [g x] else acc) l init) ->
  In y init \/ exists x : B, In x l /\ c x = true /\ y = g x.
Proof.
  revert init. induction l as [| x l IH]; intros init; cbn [fold_left].
  - auto.
  - intros H. apply IH in H. destruct H as [H | (x' & I & C & E)].
    + destruct (c x) eqn:C; [| auto].
      apply in_app_or in H. destruct H as [H | [H | []]]; [auto |].
      right. exists x. cbn [In]. auto.
    + right. exists x'. cbn [In]. auto.
Qed.

(** The messages pushed before the loop over the regions. *)
Lemma insightList_shape (st : App) :
  exists early : list Insight,
    insightList st
    = fold_left
        (fun acc state =>
           if gt (abs (sub (getStateProgress st state Spend) (expectedProgress st)))
                (ofZ 15)
           then acc ++ [Text (regionCode state ++ " spend pacing needs attention")]
           else acc)
        [CA; AZ; GA] early /\
    (List.length early <= 3)%nat /\
    (forall state : Region,
       ~ In (Text (regionCode state ++ " spend pacing needs attention")) early) /\
    ~ (In (Text "Spend is projected to exceed target by more than 10%") early /\
       In (Text "Spend is projected to fall short of target by more than 10%") early) /\
    ~ (In (Text "Lead generation is significantly outperforming targets") early /\
       In (Text "Lead generation needs acceleration to meet targets") early).
Proof.
  unfold insightList. eexists. split; [reflexivity |].
  repeat match goal with
         | |- context [if ?c then _ else _] => destruct c
         end;
    cbn [app List.length In];
    (split; [lia |]); (split; [intros state; destruct state; cbn [regionCode] |]);
    repeat split; intros H;
    repeat match goal with
           | H : _ /\ _ |- _ => destruct H
           | H : _ \/ _ |- _ => destruct H
           | H : False |- _ => contradiction
           | H : Text _ = Text _ |- _ => discriminate H
           | H : CostPerLead _ = Text _ |- _ => discriminate H
           end.
Qed.

(** X6: whatever the state, [generateInsights] leaves at most six
    messages; the over-spend and under-spend warnings never appear
    together, nor do the two lead messages; and no message is ever about
    Texas, which the loop over the regions leaves out. *)
Theorem insights_are_bounded (st : App) :
  (List.length (insights (computed (generateInsights st))) <= 6)%nat /\
  ~ (In (Text "Spend is projected to exceed target by more than 10%")
        (insights (computed (generateInsights st))) /\
     In (Text "Spend is projected to fall short of target by more than 10%")
        (insights (computed (generateInsights st)))) /\
  ~ (In (Text "Lead generation is significantly outperforming targets")
        (insights (computed (generateInsights st))) /\
     In (Text "Lead generation needs acceleration to meet targets")
        (insights (computed (generateInsights st)))) /\
  ~ In (Text "TX spend pacing needs attention")
       (insights (computed (generateInsights st))).
Proof.
  change (insights (computed (generateInsights st))) with (insightList st).
  destruct (insightList_shape st) as (early & -> & L & NoState & NoSpend & NoLeads).
  assert (Late : forall y : Insight,
            In y (fold_left
                    (fun acc state =>
                       if gt (abs (sub (getStateProgress st state Spend)
                                     (expectedProgress st))) (ofZ 15)
                       then acc ++ [Text (regionCode state ++ " spend pacing needs attention")]
                       else acc) [CA; AZ; GA] early) ->
            In y early \/
            y = Text "CA spend pacing needs attention" \/
            y = Text "AZ spend pacing needs attention" \/
            y = Text "GA spend pacing needs attention").
  { intros y H. apply push_loop_In in H.
    destruct H as [H | (x & I & _ & ->)]; [auto |].
    right. cbn [In] in I. destruct I as [<- | [<- | [<- | []]]]; cbn [regionCode]; auto. }
  split; [| split; [| split]].
  - pose proof (push_loop_length _ _
      (fun state => gt (abs (sub (getStateProgress st state Spend)
                               (expectedProgress st))) (ofZ 15))
      (fun state => Text (regionCode state ++ " spend pacing needs attention"))
      [CA; AZ; GA] early) as P.
    cbn [List.length] in P. lia.
  - intros [H1 H2]. apply Late in H1. apply Late in H2.
    destruct H1 as [H1 | [H1 | [H1 | H1]]]; try discriminate H1.
    destruct H2 as [H2 | [H2 | [H2 | H2]]]; try discriminate H2.
    apply NoSpend. auto.
  - intros [H1 H2]. apply Late in H1. apply Late in H2.
    destruct H1 as [H1 | [H1 | [H1 | H1]]]; try discriminate H1.
    destruct H2 as [H2 | [H2 | [H2 | H2]]]; try discriminate H2.
    apply NoLeads. auto.
  - intros H. apply Late in H.
    destruct H as [H | [H | [H | H]]]; try discriminate H.
    exact (NoState TX H).
Qed.

(** X7: a region is flagged with "spend pacing needs attention" only
    when its spend status is "Ahead of target" or "Behind target": a
    region that is "On track" or "Slightly behind" is never flagged. *)
Theorem attention_only_when_far_off (st : App) (state : Region) :
  In (Text (regionCode state ++ " spend pacing needs attention"))
     (insights (computed (generateInsights st))) ->
  getStatePacingStatus st state = "Ahead of target" \/
  getStatePacingStatus st state = "Behind target".
Proof.
  change (insights (computed (generateInsights st))) with (insightList st).
  destruct (insightList_shape st) as (early & -> & _ & NoState & _).
  intros H. apply push_loop_In in H.
  destruct H as [H | (x & _ & C & E)]; [destruct (NoState state H) |].
  assert (S : state = x) by (destruct state, x; try reflexivity; discriminate E).
  subst x.
  unfold getStatePacingStatus, getPacingStatus.
  destruct (attention_threshold _ C) as [A | (A & B & D)].
  - rewrite A. left. reflexivity.
  - rewrite A, B, D. right. reflexivity.
Qed.

Lemma attention_only_when_far_off_witness :
  getStatePacingStatus (calculatePacing (Fixture.demoOn 3 30)) CA = "Ahead of target" \/
  getStatePacingStatus (calculatePacing (Fixture.demoOn 3 30)) CA = "Behind target".
Proof.
  apply (attention_only_when_far_off (calculatePacing (Fixture.demoOn 3 30)) CA).
  vm_compute. tauto.
Defined.

End InsightBounds.

(** ** Day counts and the division by them *)

Section DayCounts.

Lemma make_linear (y m day : Z) : Date.make y m day = Date.make y m 1 + (day - 1).
Proof. unfold Date.make. lia. Qed.

(** Among the first seven dates there is a Monday and a Sunday. *)
Lemma week_has_both (now : Date.t) :
  (exists k : Z, 1 <= k <= 7 /\ Spec.isMonFri now k = true) /\
  (exists k : Z, 1 <= k <= 7 /\ Spec.isSatSun now k = true).
Proof.
  assert (D : forall k, Spec.dayOfWeek now k
                        = (Date.make (Date.getFullYear now) (Date.getMonth now) 1
                           + (k - 1) + 4) mod 7).
  { intros k. unfold Spec.dayOfWeek, Date.getDay. now rewrite make_linear. }
  unfold Spec.isMonFri, Spec.isSatSun.
  generalize dependent (Date.make (Date.getFullYear now) (Date.getMonth now) 1).
  intros base D. split.
  - exists ((4 - base) mod 7 + 1). split.
    + pose proof (Z.mod_pos_bound (4 - base) 7 ltac:(lia)). lia.
    + rewrite D.
      replace ((base + ((4 - base) mod 7 + 1 - 1) + 4) mod 7) with 1
        by (Z.to_euclidean_division_equations; lia).
      reflexivity.
  - exists ((3 - base) mod 7 + 1). split.
    + pose proof (Z.mod_pos_bound (3 - base) 7 ltac:(lia)). lia.
    + rewrite D.
      replace ((base + ((3 - base) mod 7 + 1 - 1) + 4) mod 7) with 0
        by (Z.to_euclidean_division_equations; lia).
      reflexivity.
Qed.

Lemma filter_nonempty (A : Type) (p : A -> bool) (l : list A) (x : A) :
  In x l -> p x = true -> (0 < List.length (filter p l))%nat.
Proof.
  intros I P. assert (F : In x (filter p l)) by (apply filter_In; auto).
  destruct (filter p l); [destruct F | cbn; lia].
Qed.

Lemma first_week_in_month (n : nat) (k : Z) :
  (7 <= n)%nat -> 1 <= k <= 7 -> In k (map Z.of_nat (seq 1 n)).
Proof.
  intros Hn Hk. apply in_map_iff. exists (Z.to_nat k). split; [lia |].
  apply in_seq. lia.
Qed.

(** X8: in a month of at least seven days the loop finds at least one
    weekday and leaves at least one weekend day, so recomputing the daily
    targets of a finite monthly total stores two integers, never
    [Infinity] or [NaN]. *)
Theorem daily_targets_are_integers (now : Date.t) (state : Region) (metric : Metric)
    (st : App) (total : Q) :
  7 <= totalDaysInMonth st ->
  monthlyTotal (Target.get (get (settings st) state) metric) = Fin total ->
  0 < getWeekdaysInMonth now st < totalDaysInMonth st /\
  exists weekday weekend : Z,
    Target.get (get (settings (recalculateDailyTargets now state metric st)) state) metric
    = {| weekdayDaily := ofZ weekday;
         weekendDaily := ofZ weekend;
         monthlyTotal := Fin total |}.
Proof.
  intros Hdays Htotal.
  assert (C : 0 < getWeekdaysInMonth now st < totalDaysInMonth st).
  { unfold getWeekdaysInMonth.
    pose proof (countWeekdays_filter now (Z.to_nat (totalDaysInMonth st)) 1 0) as E.
    change (Z.of_nat 1) with 1 in E. rewrite E. clear E.
    set (l := map Z.of_nat (seq 1 (Z.to_nat (totalDaysInMonth st)))).
    destruct (week_has_both now) as [(k1 & R1 & P1) (k2 & R2 & P2)].
    assert (I1 : In k1 l) by (apply first_week_in_month; lia).
    assert (I2 : In k2 l) by (apply first_week_in_month; lia).
    pose proof (filter_nonempty _ _ l k1 I1 P1) as N1.
    rewrite isSatSun_not_MonFri in P2.
    assert (P2' : negb (Spec.isMonFri now k2) = true) by exact P2.
    pose proof (filter_nonempty _ (fun x => negb (Spec.isMonFri now x)) l k2 I2 P2') as N2.
    pose proof (filter_length (Spec.isMonFri now) l) as L.
    assert (N : List.length l = Z.to_nat (totalDaysInMonth st))
      by (unfold l; now rewrite length_map, length_seq).
    lia. }
  split; [exact C |].
  rewrite recalculateDailyTargets_target. unfold Spec.dailySplit.
  rewrite Htotal. cbn [mul]. rewrite !div_Fin_ofZ by lia. cbn [round].
  eexists. eexists. reflexivity.
Qed.

Lemma daily_targets_are_integers_witness :
  0 < getWeekdaysInMonth Sample.november3 (initDates Sample.november3 forecastingApp)
    < totalDaysInMonth (initDates Sample.november3 forecastingApp) /\
  exists weekday weekend : Z,
    Target.get
      (get (settings (recalculateDailyTargets Sample.november3 GA Leads
                        (initDates Sample.november3 forecastingApp))) GA) Leads
    = {| weekdayDaily := ofZ weekday;
         weekendDaily := ofZ weekend;
         monthlyTotal := Fin 310 |}.
Proof.
  apply (daily_targets_are_integers Sample.november3 GA Leads
           (initDates Sample.november3 forecastingApp) 310).
  - vm_compute. discriminate.
  - reflexivity.
Defined.

Lemma countWeekdays_no_fuel (y m day acc : Z) : countWeekdays y m 0 day acc = acc.
Proof. reflexivity. Qed.



End DayCounts.

(** ** Applying the conversion rates again *)

Section Reapplying.




(** [calculatePacing] depends on the fields it reads only. *)
Lemma calculatePacing_ext (a b : App) :
  currentDayOfMonth a = currentDayOfMonth b ->
  totalDaysInMonth a = totalDaysInMonth b ->
  remainingDays a = remainingDays b ->
  dataSource a = dataSource b ->
  conversionRates a = conversionRates b ->
  settings a = settings b ->
  actualData a = actualData b ->
  ((remainingDays b >? 0) = false ->
   requiredDailySpend (computed a) = requiredDailySpend (computed b) /\
   requiredDailyLeads (computed a) = requiredDailyLeads (computed b) /\
   requiredDailyCases (computed a) = requiredDailyCases (computed b) /\
   requiredDailyRetainers (computed a) = requiredDailyRetainers (computed b)) ->
  calculatePacing a = calculatePacing b.
Proof.
  intros Hday Hdays Hrem Hsrc Hrates Hset Hact Hold.
  pose proof (pacingFields_ext a b Hday Hdays Hrem Hset Hact Hold) as Hfields.
  assert (Hlist : insightList (with_computed a (pacingFields a))
                  = insightList (with_computed b (pacingFields b))).
  { apply insightList_ext; assumption. }
  unfold calculatePacing, generateInsights. cbn [computed with_computed].
  rewrite Hlist, (with_insights_ext _ _ _ Hfields).
  unfold with_computed. cbn. congruence.
Qed.

Lemma PerState_ext (A : Type) (m m' : PerState A) :
  (forall s : Region, get m s = get m' s) -> m = m'.
Proof.
  intros H. destruct m, m'.
  pose proof (H CA) as H1. pose proof (H AZ) as H2.
  pose proof (H GA) as H3. pose proof (H TX) as H4.
  cbn in *. congruence.
Qed.

(** [updateCalculations] is [calculatePacing] after a state that differs
    from the one it started from in the cases and retainers targets
    only. *)
Lemma updateCalculations_pre (now : Date.t) (st : App) :
  exists pre : App,
    updateCalculations now st = calculatePacing pre /\
    currentDayOfMonth pre = currentDayOfMonth st /\
    totalDaysInMonth pre = totalDaysInMonth st /\
    remainingDays pre = remainingDays st /\
    dataSource pre = dataSource st /\
    conversionRates pre = conversionRates st /\
    actualData pre = actualData st /\
    computed pre = computed st /\
    settings pre = settings (updateCalculations now st).
Proof.
  unfold updateCalculations. eexists. split; [reflexivity |].
  match goal with |- context [settings (calculatePacing ?x)] =>
    destruct (calculatePacing_inputs x) as (_ & _ & _ & _ & _ & -> & _) end.
  repeat split.
Qed.

(** So is [recalculateTargets], for the targets of the edited region. *)
Lemma recalculateTargets_pre (now : Date.t) (state : Region) (st : App) :
  exists pre : App,
    recalculateTargets now state st = calculatePacing pre /\
    currentDayOfMonth pre = currentDayOfMonth st /\
    totalDaysInMonth pre = totalDaysInMonth st /\
    remainingDays pre = remainingDays st /\
    dataSource pre = dataSource st /\
    conversionRates pre = conversionRates st /\
    actualData pre = actualData st /\
    computed pre = computed st /\
    settings pre = settings (recalculateTargets now state st).
Proof.
  unfold recalculateTargets. eexists. split; [reflexivity |].
  match goal with |- context [settings (calculatePacing ?x)] =>
    destruct (calculatePacing_inputs x) as (_ & _ & _ & _ & _ & -> & _) end.
  repeat split.
Qed.

(** What [calculatePacing] carries over from a state it has already
    worked on. *)
Lemma required_carried_twice (a b : App) :
  computed a = computed (calculatePacing b) ->
  (remainingDays b >? 0) = false ->
  requiredDailySpend (computed a) = requiredDailySpend (computed b) /\
  requiredDailyLeads (computed a) = requiredDailyLeads (computed b) /\
  requiredDailyCases (computed a) = requiredDailyCases (computed b) /\
  requiredDailyRetainers (computed a) = requiredDailyRetainers (computed b).
Proof.
  intros -> E. rewrite computed_calculatePacing.
  unfold with_insights, pacingFields.
  cbn [requiredDailySpend requiredDailyLeads requiredDailyCases requiredDailyRetainers].
  rewrite E. repeat split.
Qed.

(** X11: applying the conversion rates is idempotent: running
    [updateCalculations] a second time, or [recalculateTargets] a second
    time for the same region, changes nothing. *)
Theorem conversion_rates_applied_once (now : Date.t) (st : App) :
  updateCalculations now (updateCalculations now st) = updateCalculations now st /\
  (forall state : Region,
     recalculateTargets now state (recalculateTargets now state st)
     = recalculateTargets now state st).
Proof.
  split.
  - assert (S : settings (updateCalculations now (updateCalculations now st))
                = settings (updateCalculations now st)).
    { destruct (updateCalculations_pre now st)
        as (b & Eb & _ & Hdays & _ & _ & Hrates & _ & _ & _).
      destruct (calculatePacing_inputs b) as (_ & Hdays' & _ & _ & Hrates' & _ & _).
      apply PerState_ext. intros s. rewrite (updateCalculations_settings now _ s).
      unfold Spec.leadsTotal, Spec.weekdays, Spec.weekends, getWeekdaysInMonth.
      rewrite (updateCalculations_settings now st s).
      cbn [Target.spend Target.leads].
      rewrite Eb, Hdays', Hdays, Hrates', Hrates. reflexivity. }
    destruct (updateCalculations_pre now (updateCalculations now st))
      as (a & Ea & Aday & Adays & Arem & Asrc & Arates & Aact & Acomp & Aset).
    rewrite S in Aset. clear S. rewrite Ea. clear Ea.
    destruct (updateCalculations_pre now st)
      as (b & Eb & Bday & Bdays & Brem & Bsrc & Brates & Bact & Bcomp & Bset).
    rewrite Eb in *.
    destruct (calculatePacing_inputs b) as (Cday & Cdays & Crem & Csrc & Crates & Cset & Cact).
    apply calculatePacing_ext; try congruence.
    apply required_carried_twice. exact Acomp.
  - intros state.
    assert (S : settings (recalculateTargets now state (recalculateTargets now state st))
                = settings (recalculateTargets now state st)).
    { destruct (recalculateTargets_pre now state st)
        as (b & Eb & _ & Hdays & _ & _ & Hrates & _ & _ & _).
      destruct (calculatePacing_inputs b) as (_ & Hdays' & _ & _ & Hrates' & _ & _).
      apply PerState_ext. intros s.
      assert (D : s = state \/ s <> state)
        by (destruct s, state; (left; reflexivity) || (right; discriminate)).
      destruct D as [-> | N].
      - rewrite (recalculateTargets_settings now _ state).
        unfold Spec.leadsTotal, Spec.weekdays, Spec.weekends, getWeekdaysInMonth.
        rewrite (recalculateTargets_settings now st state).
        cbn [Target.spend Target.leads Spec.dailySplit monthlyTotal].
        rewrite Eb, Hdays', Hdays, Hrates', Hrates. reflexivity.
      - rewrite (recalculateTargets_elsewhere now _ state s N). reflexivity. }
    destruct (recalculateTargets_pre now state (recalculateTargets now state st))
      as (a & Ea & Aday & Adays & Arem & Asrc & Arates & Aact & Acomp & Aset).
    rewrite S in Aset. clear S. rewrite Ea. clear Ea.
    destruct (recalculateTargets_pre now state st)
      as (b & Eb & Bday & Bdays & Brem & Bsrc & Brates & Bact & Bcomp & Bset).
    rewrite Eb in *.
    destruct (calculatePacing_inputs b) as (Cday & Cdays & Crem & Csrc & Crates & Cset & Cact).
    apply calculatePacing_ext; try congruence.
    apply required_carried_twice. exact Acomp.
Qed.

End Reapplying.

(** ** The data-source label *)

Section DataSourceLabel.

Lemma updateCalculations_inputs (now : Date.t) (st : App) :
  currentDayOfMonth (updateCalculations now st) = currentDayOfMonth st /\
  totalDaysInMonth (updateCalculations now st) = totalDaysInMonth st /\
  remainingDays (updateCalculations now st) = remainingDays st /\
  dataSource (updateCalculations now st) = dataSource st /\
  conversionRates (updateCalculations now st) = conversionRates st /\
  actualData (updateCalculations now st) = actualData st.
Proof.
  unfold updateCalculations.
  match goal with |- context [calculatePacing ?x] =>
    destruct (calculatePacing_inputs x) as (-> & -> & -> & -> & -> & _ & ->) end.
  repeat split.
Qed.

Lemma recalculateTargets_inputs (now : Date.t) (state : Region) (st : App) :
  currentDayOfMonth (recalculateTargets now state st) = currentDayOfMonth st /\
  totalDaysInMonth (recalculateTargets now state st) = totalDaysInMonth st /\
  remainingDays (recalculateTargets now state st) = remainingDays st /\
  dataSource (recalculateTargets now state st) = dataSource st /\
  conversionRates (recalculateTargets now state st) = conversionRates st /\
  actualData (recalculateTargets now state st) = actualData st.
Proof.
  unfold recalculateTargets.
  match goal with |- context [calculatePacing ?x] =>
    destruct (calculatePacing_inputs x) as (-> & -> & -> & -> & -> & _ & ->) end.
  repeat split.
Qed.

(** The three labels of the forecasting view. *)
Lemma fetchActualData_label (pacing : Eff.Fetched PacingData)
    (status : Eff.Fetched StatusData) (st : App) :
  dataSource (Eff.exec (fetchActualData pacing status) st) = dataSource st \/
  In (dataSource (Eff.exec (fetchActualData pacing status) st))
     ["Demo Data"; "Live Data"; "Partial Live Data"].
Proof.
  destruct pacing as [message | [ok [[[data |]] |]]];
    destruct status as [message' | [ok' [[[|] [|]] |]]];
    unfold Eff.exec, fetchActualData, Eff.try_catch, Eff.bind, Eff.fetch, Eff.json,
      Eff.ret, Eff.throw, Eff.modify;
    cbn [Eff.body states google_ads_connected litify_connected andb orb fst snd];
    try destruct (existsb _ _);
    cbn [dataSource with_dataSource with_actualData snd In];
    auto 6.
Qed.

Lemma loadSettings_label (reply : Eff.Fetched (option (PerState Target.t))) (st : App) :
  dataSource (Eff.exec (loadSettings reply) st) = dataSource st.
Proof.
  destruct reply as [message | [ok [[data |] |]]]; reflexivity.
Qed.

(** X13: the label of the data source is one of "Demo Data",
    "Live Data" and "Partial Live Data" in every state the component
    reaches, whatever the replies to its requests are. *)
Theorem data_source_is_one_of_three (st : App) :
  reachable st ->
  In (dataSource st) ["Demo Data"; "Live Data"; "Partial Live Data"].
Proof.
  induction 1 as [| now | st s _ IH | st r _ IH | st reply _ IH
                  | st pacing status _ IH | st _ IH | st _ IH
                  | st now state _ IH | st now _ IH].
  - left. reflexivity.
  - left. reflexivity.
  - exact IH.
  - exact IH.
  - rewrite loadSettings_label. exact IH.
  - destruct (fetchActualData_label pacing status st) as [E | E];
      [rewrite E; exact IH | exact E].
  - destruct (calculatePacing_inputs st) as (_ & _ & _ & -> & _). exact IH.
  - exact IH.
  - destruct (recalculateTargets_inputs now state st) as (_ & _ & _ & -> & _). exact IH.
  - destruct (updateCalculations_inputs now st) as (_ & _ & _ & -> & _). exact IH.
Qed.

Lemma data_source_is_one_of_three_witness :
  In (dataSource
        (Eff.exec
           (fetchActualData
              (inr {| Eff.ok := true; Eff.body := Some {| states := None |} |})
              (inr {| Eff.ok := true;
                      Eff.body := Some {| google_ads_connected := true;
                                          litify_connected := false |} |}))
           forecastingApp))
     ["Demo Data"; "Live Data"; "Partial Live Data"].
Proof.
  apply (data_source_is_one_of_three
           (Eff.exec
              (fetchActualData
                 (inr {| Eff.ok := true; Eff.body := Some {| states := None |} |})
                 (inr {| Eff.ok := true;
                         Eff.body := Some {| google_ads_connected := true;
                                             litify_connected := false |} |}))
              forecastingApp)).
  apply reach_fetchActualData. apply reach_new.
Defined.

End DataSourceLabel.

(** * Further properties of the dashboards *)

(** ** The order of numbers *)

Section NumOrder.

Lemma gt_not_NaN (x y : num) : gt x y = true -> x <> NaN /\ y <> NaN.
Proof. destruct x, y; cbn; intros H; try discriminate; split; discriminate. Qed.

Lemma lt_ge (x y : num) : lt x y = true -> ge y x = true.
Proof.
  destruct x as [p | | |], y as [q | | |]; cbn; try discriminate; try reflexivity.
  unfold lt, ge, cmp.
  destruct (Qcompare_cases p q) as [[-> H] | [[-> H] | [-> H]]]; try discriminate.
  destruct (Qcompare_cases q p) as [[-> H'] | [[-> H'] | [-> H']]];
    intros _; try reflexivity; exfalso; lra.
Qed.

Lemma not_lt_ge (x y : num) : x <> NaN -> y <> NaN -> lt x y = false -> ge x y = true.
Proof.
  destruct x as [p | | |], y as [q | | |]; cbn; try discriminate; try reflexivity;
    try congruence.
  intros _ _. unfold lt, ge, cmp.
  destruct (Qcompare_cases p q) as [[-> H] | [[-> H] | [-> H]]];
    intros; try reflexivity; discriminate.
Qed.

Lemma gt_ge (x y : num) : gt x y = true -> ge x y = true.
Proof. unfold gt, ge. destruct (cmp x y) as [[| |] |]; try discriminate; reflexivity. Qed.

Lemma not_gt_ge (x y : num) : x <> NaN -> y <> NaN -> gt x y = false -> ge y x = true.
Proof.
  destruct x as [p | | |], y as [q | | |]; cbn; try discriminate; try reflexivity;
    try congruence.
  intros _ _. unfold gt, ge, cmp.
  destruct (Qcompare_cases p q) as [[-> H] | [[-> H] | [-> H]]]; try discriminate;
    destruct (Qcompare_cases q p) as [[-> H'] | [[-> H'] | [-> H']]];
    intros _; try reflexivity; exfalso; lra.
Qed.

Lemma ge_refl (x : num) : x <> NaN -> ge x x = true.
Proof.
  destruct x as [p | | |]; try reflexivity; try congruence.
  intros _. apply ge_Fin_true. lra.
Qed.

Lemma ge_trans (x y z : num) : ge x y = true -> ge y z = true -> ge x z = true.
Proof.
  destruct x as [p | | |], y as [q | | |], z as [r | | |];
    try (rewrite !ge_Fin_true; intros; lra);
    cbn; try discriminate; reflexivity.
Qed.

Lemma gt_trans (x y z : num) : gt x y = true -> gt y z = true -> gt x z = true.
Proof.
  destruct x as [p | | |], y as [q | | |], z as [r | | |];
    try (rewrite !gt_Fin_true; intros; lra);
    cbn; try discriminate; reflexivity.
Qed.

Lemma ge_not_gt (x y : num) : ge x y = true -> gt y x = false.
Proof.
  destruct x as [p | | |], y as [q | | |];
    try (rewrite ge_Fin_true, gt_Fin_false; intros; lra);
    cbn; try discriminate; reflexivity.
Qed.

End NumOrder.

(** ** Choosing the bucket of a card *)

Section Picking.

Import DashboardApp DashboardCards.

(** [pick] returns an element that is at least as good as every other,
    when [better] decides a preorder on the elements. *)
Lemma pick_best (better : BucketRow -> BucketRow -> bool) (R : BucketRow -> BucketRow -> Prop)
    (first : BucketRow) (rest : list BucketRow) :
  (forall b, In b (first :: rest) -> R b b) ->
  (forall a b c, R a b -> R b c -> R a c) ->
  (forall c p, In c (first :: rest) -> In p (first :: rest) ->
               better c p = true -> R c p) ->
  (forall c p, In c (first :: rest) -> In p (first :: rest) ->
               better c p = false -> R p c) ->
  In (pick better first rest) (first :: rest) /\
  forall b, In b (first :: rest) -> R (pick better first rest) b.
Proof.
  unfold pick. revert first.
  induction rest as [| x rest IH]; intros first Hrefl Htrans Hyes Hno.
  - cbn. split; [now left |]. intros b [<- | []]. apply Hrefl. now left.
  - cbn [fold_left].
    set (acc := if better x first then x else first).
    assert (Hacc : In acc (first :: x :: rest))
      by (unfold acc; destruct (better x first); cbn; tauto).
    assert (Hsub : forall b, In b (acc :: rest) -> In b (first :: x :: rest)).
    { intros b [<- | Hb]; [exact Hacc | cbn; tauto]. }
    destruct (IH acc) as [Hin Hbest].
    + intros b Hb. apply Hrefl, Hsub, Hb.
    + exact Htrans.
    + intros c p Hc Hp. apply Hyes; apply Hsub; assumption.
    + intros c p Hc Hp. apply Hno; apply Hsub; assumption.
    + split; [apply Hsub, Hin |].
      assert (Hf : R acc first /\ R acc x).
      { unfold acc. destruct (better x first) eqn:E.
        - split; [apply Hyes; cbn; tauto | apply Hrefl; cbn; tauto].
        - split; [apply Hrefl; cbn; tauto | apply Hno; cbn; tauto]. }
      intros b [<- | [<- | Hb]].
      * apply Htrans with acc; [apply Hbest; now left | apply Hf].
      * apply Htrans with acc; [apply Hbest; now left | apply Hf].
      * apply Hbest. now right.
Qed.

(** The smallest of a key that is a number on every element. *)
Lemma pick_lowest (key : BucketRow -> num) (first : BucketRow) (rest : list BucketRow) :
  (forall b, In b (first :: rest) -> key b <> NaN) ->
  In (pick (fun current prev => lt (key current) (key prev)) first rest) (first :: rest) /\
  forall b, In b (first :: rest) ->
    ge (key b) (key (pick (fun current prev => lt (key current) (key prev)) first rest))
    = true.
Proof.
  intros Hnum.
  apply (pick_best (fun current prev => lt (key current) (key prev))
           (fun a b => ge (key b) (key a) = true)).
  - intros b Hb. apply ge_refl, Hnum, Hb.
  - intros a b c Hab Hbc. exact (ge_trans _ _ _ Hbc Hab).
  - intros c p _ _ H. apply lt_ge, H.
  - intros c p Hc Hp H. apply not_lt_ge; auto.
Qed.

(** The largest of such a key. *)
Lemma pick_highest (key : BucketRow -> num) (first : BucketRow) (rest : list BucketRow) :
  (forall b, In b (first :: rest) -> key b <> NaN) ->
  In (pick (fun current prev => gt (key current) (key prev)) first rest) (first :: rest) /\
  forall b, In b (first :: rest) ->
    ge (key (pick (fun current prev => gt (key current) (key prev)) first rest)) (key b)
    = true.
Proof.
  intros Hnum.
  apply (pick_best (fun current prev => gt (key current) (key prev))
           (fun a b => ge (key a) (key b) = true)).
  - intros b Hb. apply ge_refl, Hnum, Hb.
  - intros a b c. apply ge_trans.
  - intros c p _ _ H. apply gt_ge, H.
  - intros c p Hc Hp H. apply not_gt_ge; auto.
Qed.

Lemma filter_nil_forall (A : Type) (f : A -> bool) (l : list A) :
  filter f l = [] -> forall x, In x l -> f x = false.
Proof.
  intros H x Hx. destruct (f x) eqn:E; [| reflexivity].
  assert (Hin : In x (filter f l)) by (apply filter_In; split; assumption).
  rewrite H in Hin. destruct Hin.
Qed.

(** X14: the cards "Lowest CPL" and "Most Efficient" of the live
    dashboard.  Among the filtered buckets, those with a positive figure
    (cost per lead, cost per case) that are not YouTube buckets compete;
    the card shows 'N/A' when there is none, and otherwise the name of one
    of them whose figure no competitor undercuts. *)
Theorem lowest_cost_cards_are_minimal (filteredBuckets : list BucketRow) :
  ((getLowestCPL filteredBuckets = "N/A" /\
    forall b, In b filteredBuckets ->
      gt (costPerLead b) zero && negb (isYouTubeBucket (bucket b)) = false) \/
   exists best,
     In best filteredBuckets /\
     gt (costPerLead best) zero && negb (isYouTubeBucket (bucket best)) = true /\
     getLowestCPL filteredBuckets = name (bucket best) /\
     forall b, In b filteredBuckets ->
       gt (costPerLead b) zero && negb (isYouTubeBucket (bucket b)) = true ->
       ge (costPerLead b) (costPerLead best) = true) /\
  ((getMostEfficient filteredBuckets = "N/A" /\
    forall b, In b filteredBuckets ->
      gt (cpa b) zero && negb (isYouTubeBucket (bucket b)) = false) \/
   exists best,
     In best filteredBuckets /\
     gt (cpa best) zero && negb (isYouTubeBucket (bucket best)) = true /\
     getMostEfficient filteredBuckets = name (bucket best) /\
     forall b, In b filteredBuckets ->
       gt (cpa b) zero && negb (isYouTubeBucket (bucket b)) = true ->
       ge (cpa b) (cpa best) = true).
Proof.
  split.
  - unfold getLowestCPL.
    destruct (filter _ filteredBuckets) as [| first rest] eqn:E.
    + left. split; [reflexivity |]. exact (filter_nil_forall _ _ _ E).
    + right.
      destruct (pick_lowest costPerLead first rest) as [Hin Hmin].
      { intros b Hb. rewrite <- E in Hb. apply filter_In in Hb.
        destruct Hb as [_ Hb]. apply andb_true_iff in Hb.
        apply (gt_not_NaN _ _ (proj1 Hb)). }
      eexists. rewrite <- E in Hin. apply filter_In in Hin.
      split; [exact (proj1 Hin) |]. split; [exact (proj2 Hin) |].
      split; [reflexivity |].
      intros b Hb Hv. apply Hmin. rewrite <- E. apply filter_In. now split.
  - unfold getMostEfficient.
    destruct (filter _ filteredBuckets) as [| first rest] eqn:E.
    + left. split; [reflexivity |]. exact (filter_nil_forall _ _ _ E).
    + right.
      destruct (pick_lowest cpa first rest) as [Hin Hmin].
      { intros b Hb. rewrite <- E in Hb. apply filter_In in Hb.
        destruct Hb as [_ Hb]. apply andb_true_iff in Hb.
        apply (gt_not_NaN _ _ (proj1 Hb)). }
      eexists. rewrite <- E in Hin. apply filter_In in Hin.
      split; [exact (proj1 Hin) |]. split; [exact (proj2 Hin) |].
      split; [reflexivity |].
      intros b Hb Hv. apply Hmin. rewrite <- E. apply filter_In. now split.
Qed.

(** X15: the cards "Best Conversion" and "Highest Volume" of the live
    dashboard.  "Best Conversion" shows 'N/A' when no filtered bucket has a
    positive conversion rate, and otherwise the name of a bucket with a
    positive rate that no bucket exceeds.  "Highest Volume" shows 'N/A' for
    an empty list; for a list in which every leads figure is a number it
    shows the name of a bucket whose leads are at least those of every
    bucket. *)
Theorem highest_cards_are_maximal (filteredBuckets : list BucketRow) :
  ((getBestConversion filteredBuckets = "N/A" /\
    forall b, In b filteredBuckets -> gt (conversionRate b) zero = false) \/
   exists best,
     In best filteredBuckets /\
     gt (conversionRate best) zero = true /\
     getBestConversion filteredBuckets = name (bucket best) /\
     forall b, In b filteredBuckets ->
       gt (conversionRate b) (conversionRate best) = false) /\
  (filteredBuckets = [] -> getHighestVolume filteredBuckets = "N/A") /\
  (filteredBuckets <> [] ->
   (forall b, In b filteredBuckets -> leads (bucket b) <> NaN) ->
   exists best,
     In best filteredBuckets /\
     getHighestVolume filteredBuckets = name (bucket best) /\
     forall b, In b filteredBuckets ->
       ge (leads (bucket best)) (leads (bucket b)) = true).
Proof.
  split; [| split].
  - unfold getBestConversion.
    destruct filteredBuckets as [| b0 l0] eqn:L.
    { left. split; [reflexivity |]. intros b []. }
    rewrite <- L.
    destruct (filter _ filteredBuckets) as [| first rest] eqn:E.
    + left. split; [reflexivity |]. exact (filter_nil_forall _ _ _ E).
    + right.
      destruct (pick_highest conversionRate first rest) as [Hin Hmax].
      { intros b Hb. rewrite <- E in Hb. apply filter_In in Hb.
        apply (gt_not_NaN _ _ (proj2 Hb)). }
      eexists. rewrite <- E in Hin. apply filter_In in Hin.
      split; [exact (proj1 Hin) |]. split; [exact (proj2 Hin) |].
      split; [reflexivity |].
      intros b Hb.
      destruct (gt (conversionRate b) zero) eqn:V.
      * apply ge_not_gt, Hmax. rewrite <- E. apply filter_In. now split.
      * destruct Hin as [_ Hpos].
        match goal with |- gt _ ?best = false => destruct (gt (conversionRate b) best) eqn:G end;
          [| reflexivity].
        rewrite (gt_trans _ _ _ G Hpos) in V. discriminate.
  - intros ->. reflexivity.
  - intros Hne Hnum. destruct filteredBuckets as [| first rest]; [congruence |].
    destruct (pick_highest (fun b => leads (bucket b)) first rest Hnum) as [Hin Hmax].
    eexists. split; [exact Hin |]. split; [reflexivity | exact Hmax].
Qed.

End Picking.

(** ** The key insights of the jQuery dashboard *)

Section KeyInsightCards.

Import DashboardApp DashboardCards KeyInsights.

Lemma lt_gt (x y : num) : lt x y = gt y x.
Proof.
  destruct x as [p | | |], y as [q | | |]; try reflexivity.
  unfold lt, gt, cmp.
  destruct (Qcompare_cases p q) as [[-> H] | [[-> H] | [-> H]]];
    destruct (Qcompare_cases q p) as [[-> H'] | [[-> H'] | [-> H']]];
    try reflexivity; exfalso; lra.
Qed.

(** A first bucket without a positive cost per lead is never replaced. *)
Lemma pick_keeps_unpriced (key : BucketRow -> num) (acc : BucketRow) (l : list BucketRow) :
  gt (key acc) zero = false ->
  pick (fun curr lowest => lt (key curr) (key lowest) && gt (key curr) zero) acc l = acc.
Proof.
  intros Hacc. unfold pick. induction l as [| x l IH]; [reflexivity |].
  cbn [fold_left].
  destruct (lt (key x) (key acc)) eqn:L; [| exact IH].
  destruct (gt (key x) zero) eqn:G; [| exact IH].
  rewrite lt_gt in L. rewrite (gt_trans _ _ _ L G) in Hacc. discriminate.
Qed.

(** From a first bucket with a positive cost per lead, the lowest
    positive one is found. *)
Lemma pick_lowest_positive (key : BucketRow -> num) (acc : BucketRow) (l : list BucketRow) :
  gt (key acc) zero = true ->
  let m := pick (fun curr lowest => lt (key curr) (key lowest) && gt (key curr) zero)
             acc l in
  In m (acc :: l) /\
  gt (key m) zero = true /\
  ge (key acc) (key m) = true /\
  forall b, In b l -> gt (key b) zero = true -> ge (key b) (key m) = true.
Proof.
  unfold pick. revert acc. induction l as [| x l IH]; intros acc Hacc.
  - cbn [fold_left]. split; [now left |]. split; [exact Hacc |].
    split; [apply ge_refl, (gt_not_NaN _ _ Hacc) | intros b []].
  - cbn [fold_left].
    set (acc' := if lt (key x) (key acc) && gt (key x) zero then x else acc).
    assert (Hpos : gt (key acc') zero = true).
    { unfold acc'. destruct (lt (key x) (key acc)); [| exact Hacc].
      destruct (gt (key x) zero) eqn:G; [exact G | exact Hacc]. }
    assert (Hle : ge (key acc) (key acc') = true /\
                  (gt (key x) zero = true -> ge (key x) (key acc') = true)).
    { unfold acc'. destruct (lt (key x) (key acc)) eqn:L.
      - destruct (gt (key x) zero) eqn:G; cbn [andb].
        + split; [apply lt_ge, L |]. intros _. apply ge_refl, (gt_not_NaN _ _ G).
        + split; [apply ge_refl, (gt_not_NaN _ _ Hacc) | discriminate].
      - cbn [andb]. split; [apply ge_refl, (gt_not_NaN _ _ Hacc) |].
        intros G. apply not_lt_ge; [apply (gt_not_NaN _ _ G) | | exact L].
        apply (gt_not_NaN _ _ Hacc). }
    destruct (IH acc' Hpos) as (Hin & Hm & Hge & Hall).
    split; [| split; [exact Hm | split]].
    + destruct Hin as [<- | Hin]; [| cbn; tauto].
      unfold acc'. destruct (lt (key x) (key acc) && gt (key x) zero); cbn; tauto.
    + exact (ge_trans _ _ _ (proj1 Hle) Hge).
    + intros b [<- | Hb] G.
      * exact (ge_trans _ _ _ (proj2 Hle G) Hge).
      * apply Hall; assumption.
Qed.

Lemma gt_irrefl (x : num) : gt x x = false.
Proof.
  destruct x as [p | | |]; try reflexivity. apply gt_Fin_false. lra.
Qed.

(** No element exceeds the one [pick] returns for [>]. *)
Lemma pick_unexceeded (key : BucketRow -> num) (acc : BucketRow) (l : list BucketRow) :
  let m := pick (fun curr best => gt (key curr) (key best)) acc l in
  In m (acc :: l) /\
  (key m = key acc \/ gt (key m) (key acc) = true) /\
  forall b, In b (acc :: l) -> gt (key b) (key m) = false.
Proof.
  unfold pick. revert acc. induction l as [| x l IH]; intros acc.
  - cbn [fold_left]. split; [now left |]. split; [now left |].
    intros b [<- | []]. apply gt_irrefl.
  - cbn [fold_left].
    set (acc' := if gt (key x) (key acc) then x else acc).
    destruct (IH acc') as (Hin & Hup & Hall).
    set (m := fold_left _ l acc') in *.
    assert (Hacc : key m = key acc \/ gt (key m) (key acc) = true).
    { unfold acc' in Hup. destruct (gt (key x) (key acc)) eqn:G; [| exact Hup].
      right. destruct Hup as [-> | Hup]; [exact G | exact (gt_trans _ _ _ Hup G)]. }
    split; [| split; [exact Hacc |]].
    + destruct Hin as [<- | Hin]; [| cbn; tauto].
      unfold acc'. destruct (gt (key x) (key acc)); cbn; tauto.
    + assert (Hlow : forall b, gt (key b) (key acc) = false -> gt (key b) (key m) = false).
      { intros b Hb. destruct (gt (key b) (key m)) eqn:G; [| reflexivity].
        destruct Hacc as [E | Hgt].
        - rewrite E in G. congruence.
        - rewrite (gt_trans _ _ _ G Hgt) in Hb. discriminate. }
      intros b [<- | [<- | Hb]].
      * apply Hlow, gt_irrefl.
      * unfold acc' in Hall. destruct (gt (key x) (key acc)) eqn:G.
        -- apply Hall. now left.
        -- apply Hlow, G.
      * apply Hall. now right.
Qed.

Lemma find_filter_head (A : Type) (f : A -> bool) (l : list A) :
  find f l = hd_error (filter f l).
Proof.
  induction l as [| x l IH]; [reflexivity |].
  cbn. destruct (f x); [reflexivity | exact IH].
Qed.

(** X16: the card "Lowest CPL" of the jQuery dashboard, among the active
    buckets (leads recorded, no "Youtube" or "Crisp" in the name).  When
    the first active bucket has no positive cost per lead, the card shows
    that bucket, whatever the others cost.  When it has one, the card
    shows an active bucket with a positive cost per lead that no active
    bucket with a positive cost per lead undercuts. *)
Theorem key_insights_lowest_cpl (buckets : list BucketRow) (first : BucketRow)
    (rest : list BucketRow) :
  activeBuckets buckets = first :: rest ->
  (gt (costPerLead first) zero = false ->
   lowestCPL (updateKeyInsights buckets) = named first) /\
  (gt (costPerLead first) zero = true ->
   exists best,
     In best (activeBuckets buckets) /\
     gt (costPerLead best) zero = true /\
     lowestCPL (updateKeyInsights buckets) = named best /\
     forall b, In b (activeBuckets buckets) ->
       gt (costPerLead b) zero = true ->
       ge (costPerLead b) (costPerLead best) = true).
Proof.
  intros E. unfold updateKeyInsights. rewrite E. cbn [lowestCPL]. split.
  - intros H. now rewrite (pick_keeps_unpriced costPerLead first (first :: rest) H).
  - intros H.
    destruct (pick_lowest_positive costPerLead first (first :: rest) H)
      as (Hin & Hpos & _ & Hall).
    eexists. split; [| split; [exact Hpos | split; [reflexivity | exact Hall]]].
    destruct Hin as [<- | Hin]; [now left | exact Hin].
Qed.

Lemma key_insights_lowest_cpl_witness :
  lowestCPL
    (updateKeyInsights [CardFixture.organic; CardFixture.search; CardFixture.arizona])
  = named CardFixture.organic.
Proof.
  apply (key_insights_lowest_cpl
           [CardFixture.organic; CardFixture.search; CardFixture.arizona]
           CardFixture.organic [CardFixture.search; CardFixture.arizona]);
    reflexivity.
Defined.

(** X17: the other three cards of the jQuery dashboard.  Without active
    buckets all four cards show 'N/A'.  Otherwise "Highest Volume" shows
    an active bucket whose leads are at least those of every active
    bucket, "Best Conversion" one whose conversion rate no active bucket
    exceeds, and "Most Efficient" shows 'N/A' when no active bucket has a
    positive cost per case and else one with a positive cost per case that
    no such bucket undercuts. *)
Theorem key_insights_are_extremal (buckets : list BucketRow) :
  (activeBuckets buckets = [] ->
   updateKeyInsights buckets
   = {| bestConversion := None; lowestCPL := None;
        highestVolume := None; mostEfficient := None |}) /\
  (activeBuckets buckets <> [] ->
   (exists best,
      In best (activeBuckets buckets) /\
      highestVolume (updateKeyInsights buckets) = named best /\
      forall b, In b (activeBuckets buckets) ->
        ge (leads (bucket best)) (leads (bucket b)) = true) /\
   (exists best,
      In best (activeBuckets buckets) /\
      bestConversion (updateKeyInsights buckets) = named best /\
      forall b, In b (activeBuckets buckets) ->
        gt (conversionRate b) (conversionRate best) = false) /\
   ((mostEfficient (updateKeyInsights buckets) = None /\
     forall b, In b (activeBuckets buckets) -> gt (cpa b) zero = false) \/
    exists best,
      In best (activeBuckets buckets) /\
      gt (cpa best) zero = true /\
      mostEfficient (updateKeyInsights buckets) = Some best /\
      forall b, In b (activeBuckets buckets) ->
        gt (cpa b) zero = true -> ge (cpa b) (cpa best) = true)).
Proof.
  split.
  - intros E. unfold updateKeyInsights. now rewrite E.
  - intros Hne.
    assert (Hact : forall b, In b (activeBuckets buckets) ->
                             gt (leads (bucket b)) zero = true).
    { intros b Hb. unfold activeBuckets in Hb. apply filter_In in Hb.
      destruct Hb as [_ Hb]. apply andb_true_iff in Hb. destruct Hb as [Hb _].
      apply andb_true_iff in Hb. exact (proj1 Hb). }
    unfold updateKeyInsights.
    destruct (activeBuckets buckets) as [| first rest] eqn:E; [congruence |].
    cbn [highestVolume bestConversion mostEfficient].
    split; [| split].
    + destruct (pick_unexceeded (fun b => leads (bucket b)) first (first :: rest))
        as (Hin & _ & Hall).
      eexists. split; [| split; [reflexivity |]].
      * destruct Hin as [<- | Hin]; [now left | exact Hin].
      * intros b Hb. cbv beta in Hall.
        apply not_gt_ge.
        -- apply (gt_not_NaN _ _ (Hact b Hb)).
        -- match goal with |- leads (bucket ?m) <> NaN =>
             assert (Hm : In m (first :: rest))
               by (destruct Hin as [<- | Hin]; [now left | exact Hin]);
             apply (gt_not_NaN _ _ (Hact m Hm))
           end.
        -- apply Hall. now right.
    + destruct (pick_unexceeded conversionRate first (first :: rest))
        as (Hin & _ & Hall).
      eexists. split; [| split; [reflexivity |]].
      * destruct Hin as [<- | Hin]; [now left | exact Hin].
      * intros b Hb. apply Hall. now right.
    + rewrite find_filter_head.
      destruct (filter (fun b => gt (cpa b) zero) (first :: rest)) as [| v vs] eqn:F.
      * left. cbn [hd_error pick fold_left].
        pose proof (filter_nil_forall _ _ _ F) as Hnone.
        rewrite (Hnone first (or_introl eq_refl)). split; [reflexivity | exact Hnone].
      * right. cbn [hd_error].
        assert (Hv : forall b, In b (v :: vs) ->
                               In b (first :: rest) /\ gt (cpa b) zero = true).
        { intros b Hb. rewrite <- F in Hb. apply filter_In in Hb. exact Hb. }
        destruct (pick_lowest cpa v (v :: vs)) as [Hin Hall].
        { intros b [<- | Hb].
          - apply (gt_not_NaN _ _ (proj2 (Hv v (or_introl eq_refl)))).
          - apply (gt_not_NaN _ _ (proj2 (Hv b Hb))). }
        set (m := pick _ v (v :: vs)) in *.
        assert (Hm : In m (v :: vs)) by (destruct Hin as [<- | Hin]; [now left | exact Hin]).
        destruct (Hv m Hm) as [Hm1 Hm2].
        exists m. rewrite Hm2.
        split; [exact Hm1 |]. split; [reflexivity |]. split; [reflexivity |].
        intros b Hb Hpos. apply Hall. right. rewrite <- F. apply filter_In. now split.
Qed.

End KeyInsightCards.

(** ** Filters of the live dashboard *)

Section DashboardFilters.

Import DashboardApp DashboardCards.

Lemma find_by_name (l : list Bucket) (b : Bucket) :
  NoDup (map name l) -> In b l ->
  find (fun b' => String.eqb (name b') (name b)) l = Some b.
Proof.
  induction l as [| x l IH]; intros Hnd Hin; [destruct Hin |].
  cbn [map] in Hnd. apply NoDup_cons_iff in Hnd. destruct Hnd as [Hx Hnd].
  cbn [find]. destruct (String.eqb (name x) (name b)) eqn:E.
  - apply String.eqb_eq in E. destruct Hin as [-> | Hin]; [reflexivity |].
    exfalso. apply Hx. rewrite E. now apply in_map.
  - destruct Hin as [-> | Hin]; [now rewrite String.eqb_refl in E |].
    now apply IH.
Qed.

Lemma filter_map_names (f : Bucket -> bool) (g : string -> bool) (l : list Bucket) :
  (forall b, In b l -> g (name b) = f b) ->
  filter g (map name l) = map name (filter f l).
Proof.
  induction l as [| x l IH]; intros H; [reflexivity |].
  cbn [map filter]. rewrite (H x (or_introl eq_refl)), IH.
  - now destruct (f x).
  - intros b Hb. apply H. now right.
Qed.

(** X18: the campaigns offered in the campaign filter.  With bucket
    names that are pairwise different, they are the names of all buckets
    when the state filter is 'all', and the names of the buckets of the
    selected state otherwise, in the order of the buckets. *)
Theorem available_campaigns_of_state (st : App) :
  NoDup (map name (buckets st)) ->
  availableCampaigns st
  = if String.eqb (selectedState st) "all" then map name (buckets st)
    else map name
           (filter (fun b => String.eqb (state b) (selectedState st)) (buckets st)).
Proof.
  intros Hnd. unfold availableCampaigns.
  destruct (String.eqb (selectedState st) "all"); cbn [negb]; [reflexivity |].
  apply filter_map_names. intros b Hb. now rewrite (find_by_name _ _ Hnd Hb).
Qed.

Lemma available_campaigns_of_state_witness :
  availableCampaigns CardFixture.twoStates = ["Arizona Search"].
Proof.
  apply (available_campaigns_of_state CardFixture.twoStates).
  repeat constructor; simpl; intuition discriminate.
Defined.

Lemma filter_all (A : Type) (f : A -> bool) (l : list A) :
  (forall x, f x = true) -> filter f l = l.
Proof.
  intros H. induction l as [| x l IH]; [reflexivity |].
  cbn. now rewrite H, IH.
Qed.

(** X19: what a successful reply leaves in the live dashboard.  The
    buckets and the label are those of the reply ("Demo Data" when the
    reply has no label), the time of the update is recorded and the error
    flag is down; the summary is the summary of the buckets and the
    filtered summary is the summary of the filtered buckets; with both
    filters on 'all' the filtered buckets are all buckets and the two
    summaries agree; the leads shown are all leads when the bucket filter
    is 'all'; and the loading flag is down unless an exclusion filter is
    on. *)
Theorem successful_fetch_shows_reply (clock : string) (data : Reply.t) (st : App) :
  let st' :=
    Eff.exec (fetchData clock (inr {| Eff.ok := true; Eff.body := Some data |})) st in
  buckets st' = match Reply.buckets data with Some l => l | None => [] end /\
  dataSource st' = Str.orElse (Reply.data_source data) "Demo Data" /\
  lastUpdated st' = clock /\
  hasError st' = false /\
  summary st' = summarize (buckets st') /\
  filteredSummary st' = summarize (filteredBuckets st') /\
  (selectedState st = "all" -> selectedCampaign st = "all" ->
   filteredBuckets st' = buckets st' /\ filteredSummary st' = summary st') /\
  (litifyBucketFilter st = "all" -> filteredLitifyLeads st' = litifyLeads st') /\
  (hasExclusionFilters st = false -> isLoading st' = false).
Proof.
  unfold fetchData, Eff.exec, Eff.bind, Eff.try_catch, Eff.fetch, Eff.json, Eff.ret,
    Eff.throw, Eff.modify.
  cbn [Eff.ok Eff.body negb fst snd].
  unfold filterLitifyLeads, updateFilters, hasExclusionFilters.
  cbn [includeSpam includeAbandoned includeDuplicate assignData fetchData_begin
       with_status].
  destruct (includeSpam st || includeAbandoned st || includeDuplicate st) eqn:X;
    cbn [fetchData_begin with_status buckets dataSource lastUpdated hasError summary
         filteredSummary filteredBuckets filteredLitifyLeads litifyLeads isLoading
         selectedState selectedCampaign litifyBucketFilter assignData];
    (repeat split; try reflexivity; try discriminate; intros;
     repeat match goal with
            | H : _ st = "all" |- _ => rewrite H; clear H
            end;
     try reflexivity;
     try f_equal; apply filter_all; reflexivity).
Qed.

(** X20: clearing the exclusion filters starts no request: the three
    boxes are unticked and the count of included leads is 0, while the
    buckets, the summary, the excluded counts, the label and the time of
    the last update stay as they were, and so do the loading flag and the
    error flag, which the start of a request would set; the filtered
    buckets are those [updateFilters] computes. *)
Theorem clearing_exclusions_keeps_fetched_data (st : App) :
  hasExclusionFilters (clearExclusionFilters st) = false /\
  getIncludedCount (clearExclusionFilters st) = zero /\
  buckets (clearExclusionFilters st) = buckets st /\
  summary (clearExclusionFilters st) = summary st /\
  excludedCounts (clearExclusionFilters st) = excludedCounts st /\
  dataSource (clearExclusionFilters st) = dataSource st /\
  lastUpdated (clearExclusionFilters st) = lastUpdated st /\
  isLoading (clearExclusionFilters st) = isLoading st /\
  hasError (clearExclusionFilters st) = hasError st /\
  filteredBuckets (clearExclusionFilters st) = filteredBuckets (updateFilters st).
Proof.
  unfold clearExclusionFilters, updateFilters, hasExclusionFilters, getIncludedCount.
  cbn [includeSpam includeAbandoned includeDuplicate orb].
  destruct (includeSpam st || includeAbandoned st || includeDuplicate st);
    cbn [includeSpam includeAbandoned includeDuplicate orb buckets summary
         excludedCounts dataSource lastUpdated isLoading hasError filteredBuckets
         selectedState selectedCampaign fetchData_begin with_status];
    repeat split.
Qed.

End DashboardFilters.

(** ** Date ranges and requests *)

Section DateRanges.

Import DateRange.

Lemma setDate_back (today : Date.t) (k : Z) :
  setDate today (Date.getDate today - k) = Date.civil_from_days (dayNumber today - k).
Proof.
  unfold setDate, dayNumber. f_equal.
  rewrite (make_linear _ _ (Date.getDate today - k)),
    (make_linear _ _ (Date.getDate today)). lia.
Qed.

(** X21: the presets "week" and "month" of the two dashboards.  In the
    live dashboard "week" starts on the Sunday on or before today, so
    covers one to seven days, and "month" starts on day 1 of today's
    month; in the jQuery dashboard "week" always starts six days before
    today and "month" 29 days before today.  Both end today. *)
Theorem week_preset_starts_on_sunday (today : Date.t) (st : Range)
    (s : DashboardRequests.Session) :
  (startDate (setDateRange today "week" st)
   = formatDate (Date.civil_from_days (dayNumber today - getDay today)) /\
   endDate (setDateRange today "week" st) = formatDate today /\
   0 <= getDay today <= 6 /\
   Date.getDay (dayNumber today - getDay today) = 0) /\
  (startDate (setDateRange today "month" st)
   = formatDate (Date.civil_from_days (dayNumber today - (Date.getDate today - 1))) /\
   endDate (setDateRange today "month" st) = formatDate today) /\
  (DashboardRequests.startDate (DashboardRequests.setDateRange today "week" s)
   = Some (formatDate (Date.civil_from_days (dayNumber today - 6))) /\
   DashboardRequests.endDate (DashboardRequests.setDateRange today "week" s)
   = Some (formatDate today)) /\
  (DashboardRequests.startDate (DashboardRequests.setDateRange today "month" s)
   = Some (formatDate (Date.civil_from_days (dayNumber today - 29))) /\
   DashboardRequests.endDate (DashboardRequests.setDateRange today "month" s)
   = Some (formatDate today)).
Proof.
  split; [| split; [| split]].
  - cbn [setDateRange String.eqb Ascii.eqb Bool.eqb startDate endDate].
    unfold weekStart. rewrite setDate_back.
    split; [reflexivity |]. split; [reflexivity |].
    unfold getDay, Date.getDay.
    pose proof (Z.mod_pos_bound (dayNumber today + 4) 7 ltac:(lia)) as B.
    split; [lia |].
    pose proof (Z.div_mod (dayNumber today + 4) 7 ltac:(lia)) as D.
    replace (dayNumber today - (dayNumber today + 4) mod 7 + 4)
      with ((dayNumber today + 4) / 7 * 7) by lia.
    apply Z.mod_mul. lia.
  - cbn [setDateRange String.eqb Ascii.eqb Bool.eqb startDate endDate].
    split; [| reflexivity]. unfold monthStart, dayNumber. do 2 f_equal.
    rewrite (make_linear _ _ (Date.getDate today)). lia.
  - unfold DashboardRequests.setDateRange, DashboardRequests.send.
    cbn [String.eqb Ascii.eqb Bool.eqb fst snd].
    unfold weekAgo. rewrite setDate_back.
    destruct (Dashboard.isLoading _); split; reflexivity.
  - unfold DashboardRequests.setDateRange, DashboardRequests.send.
    cbn [String.eqb Ascii.eqb Bool.eqb fst snd].
    unfold monthAgo. rewrite setDate_back.
    destruct (Dashboard.isLoading _); split; reflexivity.
Qed.

End DateRanges.

Section Requests.

Import Dashboard DashboardRequests.

(** X22: the jQuery dashboard while a request is in flight.  Choosing a
    date preset, clicking refresh and clearing the exclusion filters send
    no request; the preset is recorded all the same, the refresh click
    leaves the refreshing flag up, and when the request in flight
    completes no request for the new settings has been sent. *)
Theorem request_in_flight_blocks_requests (today : Date.t) (preset : string)
    (outcome : Ajax) (s : Session) :
  isLoading (state s) = true ->
  sent (setDateRange today preset s) = sent s /\
  dateRangePreset (setDateRange today preset s) = preset /\
  sent (settle outcome (setDateRange today preset s)) = sent s /\
  sent (refreshData s) = sent s /\
  isRefreshing (state (refreshData s)) = true /\
  sent (clearExclusionFilters s) = sent s /\
  includeSpam (clearExclusionFilters s) = false.
Proof.
  intros H.
  assert (Hset : sent (setDateRange today preset s) = sent s /\
                 dateRangePreset (setDateRange today preset s) = preset).
  { unfold setDateRange, send. cbn [state with_dates]. rewrite H.
    destruct (String.eqb preset "custom"); split; reflexivity. }
  split; [exact (proj1 Hset) |]. split; [exact (proj2 Hset) |].
  split.
  { unfold settle.
    match goal with |- context [onComplete ?x] => destruct (onComplete x) as [st pg] end.
    cbn [sent]. exact (proj1 Hset). }
  unfold refreshData, clearExclusionFilters, send. cbn [state isLoading].
  rewrite H. destruct (isRefreshing (state s)) eqn:R; cbn [state isRefreshing sent];
    rewrite ?H, ?R; repeat split.
Qed.

Lemma request_in_flight_blocks_requests_witness :
  sent (setDateRange Sample.november3 "week" (init Sample.november3))
  = sent (init Sample.november3) /\
  dateRangePreset (setDateRange Sample.november3 "week" (init Sample.november3))
  = "week" /\
  sent (settle (Error {| responseJSON := None |})
          (setDateRange Sample.november3 "week" (init Sample.november3)))
  = sent (init Sample.november3) /\
  sent (refreshData (init Sample.november3)) = sent (init Sample.november3) /\
  isRefreshing (state (refreshData (init Sample.november3))) = true /\
  sent (clearExclusionFilters (init Sample.november3)) = sent (init Sample.november3) /\
  includeSpam (clearExclusionFilters (init Sample.november3)) = false.
Proof.
  apply (request_in_flight_blocks_requests Sample.november3 "week"
           (Error {| responseJSON := None |}) (init Sample.november3)).
  reflexivity.
Defined.

(** X23: the jQuery dashboard when no request is in flight.  A date
    preset other than 'custom' and clearing the exclusion filters each
    send one request, not forced, that carries the dates and the
    inclusion flags as they are after the change; 'custom' sends none; a
    refresh click, unless one is pending, sends one forced request.
    Loading the page sends one request, for today. *)
Theorem idle_dashboard_sends_one_request (today : Date.t) (preset : string)
    (s : Session) :
  isLoading (state s) = false ->
  (preset <> "custom" ->
   sent (setDateRange today preset s)
   = {| start_date := startDate (setDateRange today preset s);
        end_date := endDate (setDateRange today preset s);
        include_spam := includeSpam s;
        include_abandoned := includeAbandoned s;
        include_duplicate := includeDuplicate s;
        force_refresh := false |} :: sent s) /\
  sent (setDateRange today "custom" s) = sent s /\
  sent (clearExclusionFilters s)
  = {| start_date := startDate s; end_date := endDate s;
       include_spam := false; include_abandoned := false; include_duplicate := false;
       force_refresh := false |} :: sent s /\
  (isRefreshing (state s) = false ->
   sent (refreshData s)
   = {| start_date := startDate s; end_date := endDate s;
        include_spam := includeSpam s;
        include_abandoned := includeAbandoned s;
        include_duplicate := includeDuplicate s;
        force_refresh := true |} :: sent s) /\
  sent (init today)
  = [{| start_date := Some (DateRange.formatDate today);
        end_date := Some (DateRange.formatDate today);
        include_spam := false; include_abandoned := false; include_duplicate := false;
        force_refresh := false |}].
Proof.
  intros H. split; [| split; [| split; [| split]]].
  - intros Hp. apply String.eqb_neq in Hp.
    unfold setDateRange, send. rewrite Hp. cbn [state with_dates]. rewrite H.
    reflexivity.
  - unfold setDateRange. reflexivity.
  - unfold clearExclusionFilters, send. cbn [state]. rewrite H. reflexivity.
  - intros R. unfold refreshData, send. rewrite R. cbn [state isLoading].
    rewrite H. reflexivity.
  - reflexivity.
Qed.

Lemma idle_dashboard_sends_one_request_witness :
  sent (init Sample.november3)
  = [{| start_date := Some "2026-11-03";
        end_date := Some "2026-11-03";
        include_spam := false; include_abandoned := false; include_duplicate := false;
        force_refresh := false |}].
Proof.
  apply (idle_dashboard_sends_one_request Sample.november3 "today" initial).
  reflexivity.
Defined.

End Requests.

(** ** The annual view *)

Section Annual.

Import AnnualAnalytics.

Lemma prefix_app (needle s t : string) :
  String.prefix needle s = true -> String.prefix needle (s ++ t) = true.
Proof.
  revert s. induction needle as [| c needle IH]; intros s H;
    [destruct (s ++ t)%string; reflexivity |].
  destruct s as [| c' s]; [discriminate |].
  cbn in *. destruct (Ascii.ascii_dec c c'); [now apply IH | discriminate].
Qed.

Lemma includes_app (s t needle : string) :
  Str.includes s needle = true -> Str.includes (s ++ t) needle = true.
Proof.
  induction s as [| c s IH]; intros H.
  - destruct needle; [destruct t; reflexivity | discriminate H].
  - cbn [Str.includes] in H. cbn [append Str.includes].
    destruct (String.prefix needle (String c s)) eqn:P.
    + change (String c (s ++ t)%string) with (String c s ++ t)%string.
      now rewrite (prefix_app _ _ t P).
    + destruct (String.prefix needle (String c (s ++ t)%string)); [reflexivity |].
      now apply IH.
Qed.

(** X24: a request of the annual view.  Whatever comes back, the call
    returns with both progress flags down and the year selection
    untouched.  A request that delivers no data leaves the months, the
    summary, the analysis and the label as they were.  A reply with data
    replaces the months and the analysis (by nothing when the reply lacks
    them), whatever its status code is, and the label that results
    mentions "Live Data" exactly when the label of the reply does. *)
Theorem annual_fetch_outcomes (forceRefresh : bool) (reply : Eff.Fetched Reply)
    (st : App) :
  Eff.returns (fetchYearData forceRefresh reply) st = true /\
  isLoading (Eff.exec (fetchYearData forceRefresh reply) st) = false /\
  isRefreshing (Eff.exec (fetchYearData forceRefresh reply) st) = false /\
  selectedYear (Eff.exec (fetchYearData forceRefresh reply) st) = selectedYear st /\
  availableYears (Eff.exec (fetchYearData forceRefresh reply) st) = availableYears st /\
  (Eff.rejected reply = true ->
   monthlyData (Eff.exec (fetchYearData forceRefresh reply) st) = monthlyData st /\
   annualSummary (Eff.exec (fetchYearData forceRefresh reply) st) = annualSummary st /\
   performanceAnalysis (Eff.exec (fetchYearData forceRefresh reply) st)
   = performanceAnalysis st /\
   dataSource (Eff.exec (fetchYearData forceRefresh reply) st) = dataSource st) /\
  (forall ok data,
     reply = inr {| Eff.ok := ok; Eff.body := Some data |} ->
     monthlyData (Eff.exec (fetchYearData forceRefresh reply) st)
     = match monthly_data data with Some l => l | None => [] end /\
     performanceAnalysis (Eff.exec (fetchYearData forceRefresh reply) st)
     = match performance_analysis data with Some p => p | None => [] end /\
     annualSummary (Eff.exec (fetchYearData forceRefresh reply) st)
     = match annual_summary data with Some s => s | None => annualSummary st end /\
     Str.includes (dataSource (Eff.exec (fetchYearData forceRefresh reply) st))
       "Live Data"
     = match data_source data with
       | Some label => Str.includes label "Live Data"
       | None => false
       end).
Proof.
  destruct reply as [message | [ok [data |]]].
  - repeat split; try reflexivity; try discriminate; intros ? ? E; discriminate E.
  - split; [reflexivity |]. split; [reflexivity |]. split; [reflexivity |].
    split; [reflexivity |]. split; [reflexivity |]. split; [discriminate |].
    intros ok' data' E. injection E as _ <-.
    split; [reflexivity |]. split; [reflexivity |]. split; [reflexivity |].
    unfold fetchYearData, Eff.exec, Eff.bind, Eff.try_catch, Eff.fetch, Eff.json,
      Eff.ret, Eff.modify.
    cbn [Eff.body fst snd assignYear dataSource].
    destruct (data_source data) as [label |]; [| reflexivity].
    destruct (Str.includes label "Live Data") eqn:L.
    + apply includes_app, L.
    + destruct label; [reflexivity | exact L].
  - repeat split; try reflexivity; try discriminate; intros ? ? E; discriminate E.
Qed.

End Annual.

(** * Properties over binary64 numbers *)

Import Double.
Import Forecasting64.

(** ** The number model against the Standard Library's *)

Section Binary64.

(** On the figures of the examples below, which are doubles, the sums,
    products and quotients are those of the Standard Library's binary64
    operations, and doubles again. *)
Lemma operations_agree_with_SpecFloat (x y : num) :
  In x Spec64.figures -> In y Spec64.figures ->
  isDouble x = true /\
  add x y = SFadd64 x y /\ mul x y = SFmul64 x y /\ div x y = SFdiv64 x y /\
  isDouble (add x y) = true /\ isDouble (mul x y) = true /\
  isDouble (div x y) = true.
Proof.
  unfold Spec64.figures. intros Hx Hy.
  repeat (destruct Hx as [<- | Hx]; [| try contradiction]);
    repeat (destruct Hy as [<- | Hy]; [| try contradiction]);
    vm_compute; repeat split; reflexivity.
Qed.

End Binary64.

(** ** Rounding to the nearest double *)

Section Rounding.

Local Open Scope Q_scope.

Lemma pow2_pos (k : Z) : 0 < pow2 k.
Proof. unfold pow2. apply Qpower_0_lt. reflexivity. Qed.

Lemma pow2_add (a b : Z) : pow2 (a + b) == pow2 a * pow2 b.
Proof. unfold pow2. apply Qpower_plus. discriminate. Qed.

Lemma pow2_le (a b : Z) : (a <= b)%Z -> pow2 a <= pow2 b.
Proof. intros H. unfold pow2. apply Qpower_le_compat_l; [exact H | discriminate]. Qed.

Lemma pow2_Z (k : Z) : (0 <= k)%Z -> pow2 k == inject_Z (2 ^ k).
Proof. intros H. unfold pow2. rewrite Zpower_Qpower by exact H. reflexivity. Qed.

Lemma pow2_half (k : Z) : pow2 (k - 1) == pow2 k * (1 # 2).
Proof.
  unfold Z.sub. rewrite pow2_add. apply Qmult_comp; [reflexivity |].
  vm_compute. reflexivity.
Qed.

(** The nearest integer is within a half. *)
Lemma nearestEven_error (q : Q) : Qabs (inject_Z (nearestEven q) - q) <= 1 # 2.
Proof.
  unfold nearestEven.
  pose proof (Qfloor_le q) as Lo. pose proof (Qlt_floor q) as Hi.
  rewrite inject_Z_plus in Hi. change (inject_Z 1) with 1 in Hi.
  set (f := Qfloor q) in *.
  assert (P : inject_Z (f + 1) == inject_Z f + 1) by (rewrite inject_Z_plus; reflexivity).
  apply Qabs_Qle_condition.
  destruct (Qcompare_cases (q - inject_Z f) (1 # 2)) as [[-> H] | [[-> H] | [-> H]]].
  - split; lra.
  - destruct (Z.even f); [| rewrite P]; split; lra.
  - rewrite P. split; lra.
Qed.

Lemma nearestEven_floor (q : Q) : (Qfloor q <= nearestEven q)%Z.
Proof.
  unfold nearestEven.
  destruct (q - inject_Z (Qfloor q) ?= 1 # 2); [destruct (Z.even _) | |]; lia.
Qed.

Lemma nearestEven_ge (q : Q) (z : Z) : inject_Z z <= q -> (z <= nearestEven q)%Z.
Proof.
  intros H. pose proof (nearestEven_floor q) as F.
  pose proof (Qfloor_resp_le _ _ H) as G. rewrite Qfloor_Z in G. lia.
Qed.

Lemma nearestEven_comp (q q' : Q) : q == q' -> nearestEven q = nearestEven q'.
Proof.
  intros E. unfold nearestEven.
  assert (F : Qfloor q = Qfloor q') by (now rewrite E).
  rewrite <- F.
  assert (C : (q - inject_Z (Qfloor q) ?= 1 # 2) = (q' - inject_Z (Qfloor q) ?= 1 # 2)).
  { assert (D : q - inject_Z (Qfloor q) == q' - inject_Z (Qfloor q)) by lra.
    exact (Qcompare_comp _ _ D _ _ (Qeq_refl _)). }
  now rewrite C.
Qed.

Lemma nearestEven_Z (z : Z) : nearestEven (inject_Z z) = z.
Proof.
  unfold nearestEven. rewrite Qfloor_Z.
  assert (C : (inject_Z z - inject_Z z ?= 1 # 2) = Lt).
  { apply (proj1 (Qlt_alt _ _)). lra. }
  now rewrite C.
Qed.

(** The quotient of the leading powers of two is below a rational. *)
Lemma log2_bracket (a : Q) :
  0 < a -> pow2 (Z.log2 (Qnum a) - Z.log2 (Zpos (Qden a)) - 1) <= a.
Proof.
  destruct a as [n d]. cbn [Qnum Qden]. intros H.
  assert (Hn : (0 < n)%Z) by (unfold Qlt in H; cbn in H; lia).
  destruct (Z.log2_spec n Hn) as [Ln _].
  destruct (Z.log2_spec (Zpos d) ltac:(lia)) as [_ Ld].
  pose proof (Z.log2_nonneg n) as N1. pose proof (Z.log2_nonneg (Zpos d)) as N2.
  set (ln := Z.log2 n) in *. set (ld := Z.log2 (Zpos d)) in *.
  assert (E : pow2 (ln - ld - 1) * pow2 (ld + 1) == pow2 ln).
  { rewrite <- pow2_add. replace (ln - ld - 1 + (ld + 1))%Z with ln by lia. reflexivity. }
  rewrite (pow2_Z (ld + 1)), (pow2_Z ln) in E by lia.
  pose proof (pow2_pos (ln - ld - 1)) as P.
  set (x := pow2 (ln - ld - 1)) in *.
  assert (Hd : x * inject_Z (Zpos d) <= inject_Z n).
  { apply Qle_trans with (x * inject_Z (2 ^ Z.succ ld)).
    - rewrite !(Qmult_comm x). apply Qmult_le_compat_r; [| lra].
      rewrite <- Zle_Qle. lia.
    - replace (Z.succ ld) with (ld + 1)%Z by lia. rewrite E.
      rewrite <- Zle_Qle. exact Ln. }
  rewrite (Qmake_Qdiv n d).
  apply Qle_shift_div_l; [reflexivity |]. exact Hd.
Qed.

(** The exponent is -1074 at least, and above it the mantissa has its 53
    bits. *)
Lemma ulpExponent_spec (a : Q) :
  0 < a ->
  (-1074 <= ulpExponent a)%Z /\
  (ulpExponent a = (-1074)%Z \/ pow2 (52 + ulpExponent a) <= a).
Proof.
  intros H. unfold ulpExponent.
  set (e1 := (Z.log2 (Qnum a) - Z.log2 (Zpos (Qden a)) - 52)%Z).
  set (e2 := if Qle_bool (pow2 52) (a / pow2 e1) then e1 else (e1 - 1)%Z).
  assert (B : pow2 (52 + e2) <= a).
  { unfold e2. destruct (Qle_bool (pow2 52) (a / pow2 e1)) eqn:T.
    - apply Qle_bool_iff in T. pose proof (pow2_pos e1) as P.
      apply (Qmult_le_compat_r _ _ (pow2 e1)) in T; [| lra].
      assert (F : a / pow2 e1 * pow2 e1 == a) by (field; lra).
      rewrite F in T. rewrite pow2_add. exact T.
    - replace (52 + (e1 - 1))%Z
        with (Z.log2 (Qnum a) - Z.log2 (Zpos (Qden a)) - 1)%Z by (unfold e1; lia).
      now apply log2_bracket. }
  split; [lia |].
  destruct (Z.max_spec e2 (-1074)) as [[_ ->] | [_ ->]]; [now left | now right].
Qed.

(** The sign of a number as a factor. *)
Lemma pack_cases (s : bool) (m e : Z) :
  (0 <= m)%Z ->
  (pack s m e = S754_infinity s /\ (971 <= e)%Z) \/
  (isFinite (pack s m e) = true /\
   toQ (pack s m e) == (if s then -1 else 1) * (inject_Z m * pow2 e)).
Proof.
  intros Hm. unfold pack.
  destruct (Z.eqb_spec m (2 ^ 53)) as [-> | N].
  - change (2 ^ 52)%Z with (Zpos (2 ^ 52)%positive).
    destruct (Z.ltb_spec 971 (e + 1)) as [L | L].
    + left. split; [reflexivity | lia].
    + right. split; [reflexivity |]. cbn [toQ].
      rewrite pow2_add.
      assert (E2 : pow2 1 == 2) by (vm_compute; reflexivity).
      assert (E53 : inject_Z (2 ^ 53) == inject_Z (Zpos (2 ^ 52)%positive) * 2)
        by (vm_compute; reflexivity).
      rewrite E2, E53.
      assert (En : inject_Z (Zneg (2 ^ 52)%positive)
                   == - inject_Z (Zpos (2 ^ 52)%positive)) by (vm_compute; reflexivity).
      destruct s; [rewrite En |]; ring.
  - destruct m as [| p | p]; [| | lia].
    + right. split; [reflexivity |]. cbn [toQ]. destruct s; ring.
    + destruct (Z.ltb_spec 971 e) as [L | L].
      * left. split; [reflexivity | lia].
      * right. split; [reflexivity |]. cbn [toQ].
        assert (En : inject_Z (Zneg p) == - inject_Z (Zpos p)) by reflexivity.
        destruct s; [rewrite En |]; ring.
Qed.

(** The rounded mantissa of a positive [a], scaled back, is within half a
    unit of the last place. *)
Lemma mantissa_error (a : Q) :
  0 < a ->
  Qabs (inject_Z (nearestEven (a / pow2 (ulpExponent a))) * pow2 (ulpExponent a) - a)
  <= a * pow2 (-53) + pow2 (-1075).
Proof.
  intros H. destruct (ulpExponent_spec a H) as [Lo B].
  set (e := ulpExponent a) in *.
  pose proof (pow2_pos e) as P.
  pose proof (nearestEven_error (a / pow2 e)) as E.
  set (m := inject_Z (nearestEven (a / pow2 e))) in *.
  assert (F : m * pow2 e - a == (m - a / pow2 e) * pow2 e) by (field; lra).
  rewrite F, Qabs_Qmult, (Qabs_pos (pow2 e)) by lra.
  assert (G : Qabs (m - a / pow2 e) * pow2 e <= (1 # 2) * pow2 e).
  { apply Qmult_le_compat_r; [exact E | lra]. }
  pose proof (pow2_pos (-53)) as P53. pose proof (pow2_pos (-1075)) as P1075.
  assert (A53 : 0 <= a * pow2 (-53)).
  { apply Qmult_le_0_compat; lra. }
  destruct B as [B | B].
  - assert (K : pow2 (-1075) == pow2 e * (1 # 2)).
    { rewrite B. exact (pow2_half (-1074)). }
    lra.
  - assert (K : pow2 (52 + e) * pow2 (-53) == pow2 e * (1 # 2)).
    { rewrite <- pow2_add. replace (52 + e + -53)%Z with (e - 1)%Z by lia.
      apply pow2_half. }
    assert (M : pow2 (52 + e) * pow2 (-53) <= a * pow2 (-53)).
    { apply Qmult_le_compat_r; [exact B | lra]. }
    lra.
Qed.

Lemma mantissa_nonneg (a : Q) :
  0 < a -> (0 <= nearestEven (a / pow2 (ulpExponent a)))%Z.
Proof.
  intros H. apply nearestEven_ge. change (inject_Z 0) with 0.
  pose proof (pow2_pos (ulpExponent a)) as P.
  apply Qle_shift_div_l; [exact P | lra].
Qed.

(** Rounding either overflows or is within half a unit of the last
    place: a relative error of [2^-53], or [2^-1075] in the subnormal
    range. *)
Lemma rnd_cases (zs : bool) (q : Q) :
  (exists s : bool, rnd zs q = S754_infinity s /\ pow2 1023 <= Qabs q) \/
  (isFinite (rnd zs q) = true /\
   Qabs (toQ (rnd zs q) - q) <= Qabs q * pow2 (-53) + pow2 (-1075) /\
   (0 <= q -> 0 <= toQ (rnd zs q)) /\ (q <= 0 -> toQ (rnd zs q) <= 0)).
Proof.
  pose proof (pow2_pos (-53)) as P53. pose proof (pow2_pos (-1075)) as P1075.
  destruct q as [n d]. unfold rnd. cbn [Qnum].
  destruct n as [| n | n].
  - right. split; [reflexivity |]. cbn [toQ].
    assert (Z0 : 0 # d == 0) by reflexivity.
    rewrite Z0. change (Qabs 0) with 0. change (Qabs (0 - 0)) with 0.
    split; [lra |]. split; intros; lra.
  - change (Z.pos n <? 0)%Z with false.
    assert (A : Qabs (Z.pos n # d) = Z.pos n # d) by reflexivity.
    rewrite A. set (a := Z.pos n # d) in *.
    assert (Ha : 0 < a) by reflexivity.
    destruct (pack_cases false _ (ulpExponent a) (mantissa_nonneg a Ha))
      as [[E L] | [F V]].
    + left. exists false. split; [exact E |].
      destruct (ulpExponent_spec a Ha) as [_ [B | B]]; [lia |].
      apply Qle_trans with (pow2 (52 + ulpExponent a)); [| exact B].
      apply pow2_le. lia.
    + right. split; [exact F |].
      pose proof (mantissa_error a Ha) as M.
      pose proof (mantissa_nonneg a Ha) as N.
      set (m := nearestEven (a / pow2 (ulpExponent a))) in *.
      assert (V' : toQ (pack false m (ulpExponent a))
                   == inject_Z m * pow2 (ulpExponent a)) by (rewrite V; ring).
      assert (Pos : 0 <= inject_Z m * pow2 (ulpExponent a)).
      { apply Qmult_le_0_compat.
        - change 0 with (inject_Z 0). rewrite <- Zle_Qle. exact N.
        - pose proof (pow2_pos (ulpExponent a)). lra. }
      split; [now rewrite V' |]. rewrite V'. split; intros; lra.
  - change (Z.neg n <? 0)%Z with true.
    assert (A : Qabs (Z.neg n # d) = Z.pos n # d) by reflexivity.
    rewrite A. set (a := Z.pos n # d) in *.
    assert (Ha : 0 < a) by reflexivity.
    assert (Neg : Z.neg n # d == - a) by reflexivity.
    destruct (pack_cases true _ (ulpExponent a) (mantissa_nonneg a Ha))
      as [[E L] | [F V]].
    + left. exists true. split; [exact E |].
      destruct (ulpExponent_spec a Ha) as [_ [B | B]]; [lia |].
      apply Qle_trans with (pow2 (52 + ulpExponent a)); [| exact B].
      apply pow2_le. lia.
    + right. split; [exact F |].
      pose proof (mantissa_error a Ha) as M.
      pose proof (mantissa_nonneg a Ha) as N.
      set (m := nearestEven (a / pow2 (ulpExponent a))) in *.
      assert (V' : toQ (pack true m (ulpExponent a))
                   == - (inject_Z m * pow2 (ulpExponent a))) by (rewrite V; ring).
      assert (Pos : 0 <= inject_Z m * pow2 (ulpExponent a)).
      { apply Qmult_le_0_compat.
        - change 0 with (inject_Z 0). rewrite <- Zle_Qle. exact N.
        - pose proof (pow2_pos (ulpExponent a)). lra. }
      rewrite V', Neg.
      assert (S : - (inject_Z m * pow2 (ulpExponent a)) - - a
                  == - (inject_Z m * pow2 (ulpExponent a) - a)) by ring.
      rewrite S, Qabs_opp. split; [exact M |]. split; intros; lra.
Qed.

End Rounding.

Section RoundedOperations.

Local Open Scope Q_scope.

(** An integer below [2^53] in magnitude is a double. *)
Lemma integer_mantissa (p : positive) :
  (Z.pos p < 2 ^ 53)%Z ->
  (ulpExponent (inject_Z (Z.pos p)) <= 0)%Z /\
  inject_Z (nearestEven (inject_Z (Z.pos p) / pow2 (ulpExponent (inject_Z (Z.pos p)))))
  * pow2 (ulpExponent (inject_Z (Z.pos p)))
  == inject_Z (Z.pos p).
Proof.
  intros H. set (a := inject_Z (Z.pos p)).
  assert (Ha : 0 < a) by reflexivity.
  destruct (ulpExponent_spec a Ha) as [Lo B].
  set (e := ulpExponent a) in *.
  assert (He : (e <= 0)%Z).
  { destruct B as [-> | B]; [lia |].
    destruct (Z_le_gt_dec e 0) as [L | G]; [exact L | exfalso].
    assert (K : pow2 53 <= a).
    { apply Qle_trans with (pow2 (52 + e)); [apply pow2_le; lia | exact B]. }
    rewrite (pow2_Z 53) in K by lia. unfold a in K. rewrite <- Zle_Qle in K. lia. }
  split; [exact He |].
  pose proof (pow2_pos e) as P. pose proof (pow2_pos (- e)) as P'.
  assert (I : pow2 e * pow2 (- e) == 1).
  { rewrite <- pow2_add. replace (e + - e)%Z with 0%Z by lia. reflexivity. }
  assert (D : a / pow2 e == inject_Z (Z.pos p * 2 ^ (- e))).
  { rewrite inject_Z_mult, <- (pow2_Z (- e)) by lia. fold a.
    assert (X : a / pow2 e == a * (pow2 e * pow2 (- e)) / pow2 e) by (rewrite I; field; lra).
    rewrite X. field. lra. }
  rewrite (nearestEven_comp _ _ D), nearestEven_Z.
  rewrite inject_Z_mult, <- (pow2_Z (- e)) by lia. fold a.
  rewrite <- Qmult_assoc, (Qmult_comm (pow2 (- e))), I. ring.
Qed.

Lemma rnd_integer (zs : bool) (n : Z) :
  (Z.abs n < 2 ^ 53)%Z ->
  isFinite (rnd zs (inject_Z n)) = true /\ toQ (rnd zs (inject_Z n)) == inject_Z n.
Proof.
  intros H. unfold rnd. cbn [inject_Z Qnum].
  destruct n as [| p | p].
  - split; reflexivity.
  - change (Z.pos p <? 0)%Z with false.
    change (Qabs (Z.pos p # 1)) with (inject_Z (Z.pos p)).
    destruct (integer_mantissa p ltac:(lia)) as [He V].
    assert (Ha : 0 < inject_Z (Z.pos p)) by reflexivity.
    destruct (pack_cases false _ (ulpExponent (inject_Z (Z.pos p)))
                (mantissa_nonneg _ Ha)) as [[_ L] | [F E]]; [lia |].
    split; [exact F |]. rewrite E, V. ring.
  - change (Z.neg p <? 0)%Z with true.
    change (Qabs (Z.neg p # 1)) with (inject_Z (Z.pos p)).
    destruct (integer_mantissa p ltac:(lia)) as [He V].
    assert (Ha : 0 < inject_Z (Z.pos p)) by reflexivity.
    destruct (pack_cases true _ (ulpExponent (inject_Z (Z.pos p)))
                (mantissa_nonneg _ Ha)) as [[_ L] | [F E]]; [lia |].
    split; [exact F |]. rewrite E, V. reflexivity.
Qed.

Lemma ofZ_exact (n : Z) :
  (Z.abs n < 2 ^ 53)%Z -> isFinite (ofZ n) = true /\ toQ (ofZ n) == inject_Z n.
Proof. apply rnd_integer. Qed.

Lemma pow2_1023_large : 10000000000000000 < pow2 1023.
Proof. rewrite (pow2_Z 1023) by lia. vm_compute. reflexivity. Qed.

(** A product and a quotient of finite numbers that stay below [2^1023]
    are the exact ones up to a relative error of [2^-53] and an absolute
    one of [2^-1075], and keep the sign. *)
Lemma mul_error (x y : num) :
  isFinite x = true -> isFinite y = true ->
  Qabs (toQ x * toQ y) < pow2 1023 ->
  isFinite (mul x y) = true /\
  Qabs (toQ (mul x y) - toQ x * toQ y)
  <= Qabs (toQ x * toQ y) * pow2 (-53) + pow2 (-1075) /\
  (0 <= toQ x * toQ y -> 0 <= toQ (mul x y)).
Proof.
  pose proof (pow2_pos (-53)) as P53. pose proof (pow2_pos (-1075)) as P1075.
  intros Fx Fy B.
  assert (Zero : forall s q, q == 0 ->
            isFinite (S754_zero s) = true /\
            Qabs (toQ (S754_zero s) - q) <= Qabs q * pow2 (-53) + pow2 (-1075) /\
            (0 <= q -> 0 <= toQ (S754_zero s))).
  { intros s q E. split; [reflexivity |]. cbn [toQ]. rewrite E.
    change (Qabs (0 - 0)) with 0. change (Qabs 0) with 0. split; [lra |]. intros; lra. }
  destruct x as [sx | sx | | sx mx ex]; try discriminate;
    destruct y as [sy | sy | | sy my ey]; try discriminate;
    try (apply Zero; cbn [toQ]; ring).
  unfold mul.
  destruct (rnd_cases false (toQ (S754_finite sx mx ex) * toQ (S754_finite sy my ey)))
    as [(s & E & L) | (F & E & S & _)]; [lra |].
  repeat split; assumption.
Qed.

Lemma div_error (x y : num) :
  isFinite x = true -> isFinite y = true -> ~ toQ y == 0 ->
  Qabs (toQ x / toQ y) < pow2 1023 ->
  isFinite (div x y) = true /\
  Qabs (toQ (div x y) - toQ x / toQ y)
  <= Qabs (toQ x / toQ y) * pow2 (-53) + pow2 (-1075) /\
  (0 <= toQ x / toQ y -> 0 <= toQ (div x y)).
Proof.
  pose proof (pow2_pos (-53)) as P53. pose proof (pow2_pos (-1075)) as P1075.
  intros Fx Fy Ny B.
  destruct y as [sy | sy | | sy my ey]; try discriminate.
  { exfalso. apply Ny. reflexivity. }
  destruct x as [sx | sx | | sx mx ex]; try discriminate.
  - split; [reflexivity |]. cbn [div toQ].
    assert (E : 0 / (inject_Z (if sy then Z.neg my else Z.pos my) * pow2 ey) == 0)
      by (unfold Qdiv; ring).
    change (toQ (S754_finite sy my ey))
      with (inject_Z (if sy then Z.neg my else Z.pos my) * pow2 ey) in *.
    rewrite E. change (Qabs (0 - 0)) with 0. change (Qabs 0) with 0.
    split; [lra |]. intros; lra.
  - unfold div.
    destruct (rnd_cases false (toQ (S754_finite sx mx ex) / toQ (S754_finite sy my ey)))
      as [(s & E & L) | (F & E & S & _)]; [lra |].
    repeat split; assumption.
Qed.

(** [Math.round] of a number up to [2^52] in magnitude is the integer
    [floor(x + 1/2)]. *)
Lemma round_value (x : num) :
  isFinite x = true -> Qabs (toQ x) <= inject_Z (2 ^ 52) ->
  isFinite (round x) = true /\
  toQ (round x) == inject_Z (Qfloor (toQ x + (1 # 2))).
Proof.
  intros F B. destruct x as [s | s | | s m e]; try discriminate.
  - split; reflexivity.
  - unfold round.
    pose proof (Qfloor_le (toQ (S754_finite s m e) + (1 # 2))) as Lo.
    pose proof (Qlt_floor (toQ (S754_finite s m e) + (1 # 2))) as Hi.
    apply Qabs_Qle_condition in B. destruct B as [B1 B2].
    set (v := toQ (S754_finite s m e)) in *.
    assert (R : (Z.abs (Qfloor (v + (1 # 2))) < 2 ^ 53)%Z).
    { set (n := Qfloor (v + (1 # 2))) in *.
      rewrite inject_Z_plus in Hi. change (inject_Z 1) with 1 in Hi.
      assert (U : inject_Z n <= inject_Z (2 ^ 52)). 
      { apply Qle_trans with (inject_Z (Qfloor (inject_Z (2 ^ 52) + (1 # 2)))).
        - rewrite <- Zle_Qle. apply Qfloor_resp_le. lra.
        - vm_compute. discriminate. }
      assert (D : inject_Z (- 2 ^ 52 - 1) < inject_Z n).
      { assert (X : inject_Z (- 2 ^ 52 - 1) == - inject_Z (2 ^ 52) - 1)
          by (vm_compute; reflexivity).
        lra. }
      rewrite <- Zle_Qle in U. rewrite <- Zlt_Qlt in D. lia. }
    destruct (rnd_integer false _ R) as [F' E'].
    destruct (Qfloor (v + (1 # 2))) eqn:Q; [split; reflexivity | |]; split; assumption.
Qed.

End RoundedOperations.

Section RoundedBounds.

Local Open Scope Q_scope.

Lemma nearestEven_le (q : Q) (z : Z) : q <= inject_Z z -> (nearestEven q <= z)%Z.
Proof.
  intros H. unfold nearestEven.
  pose proof (Qfloor_le q) as Lo.
  assert (F : (Qfloor q <= z)%Z) by (rewrite Zle_Qle; lra).
  destruct (Qcompare_cases (q - inject_Z (Qfloor q)) (1 # 2)) as [[-> C] | [[-> C] | [-> C]]].
  - exact F.
  - assert (S : (Qfloor q < z)%Z) by (rewrite Zlt_Qlt; lra).
    destruct (Z.even (Qfloor q)); lia.
  - assert (S : (Qfloor q < z)%Z) by (rewrite Zlt_Qlt; lra). lia.
Qed.

(** A multiple [k x 2^j] of a power of two, in units of [2^e]. *)
Lemma scaled_integer (k j e : Z) :
  (e <= j)%Z -> inject_Z k * pow2 j / pow2 e == inject_Z (k * 2 ^ (j - e)).
Proof.
  intros H. pose proof (pow2_pos e) as P.
  rewrite inject_Z_mult, <- (pow2_Z (j - e)) by lia.
  assert (E : pow2 j == pow2 (j - e) * pow2 e).
  { rewrite <- pow2_add. replace (j - e + e)%Z with j by lia. reflexivity. }
  rewrite E. field. lra.
Qed.

(** Rounding does not cross a double: the rounded mantissa of an [a] at
    least [k x 2^j] stands for at least [k x 2^j], and likewise from
    above. *)
Lemma mantissa_ge (a : Q) (k j : Z) :
  0 < a -> (0 < k <= 2 ^ 53)%Z -> (-1074 <= j)%Z ->
  inject_Z k * pow2 j <= a ->
  inject_Z k * pow2 j
  <= inject_Z (nearestEven (a / pow2 (ulpExponent a))) * pow2 (ulpExponent a).
Proof.
  intros Ha Hk Hj H. destruct (ulpExponent_spec a Ha) as [Lo B].
  set (e := ulpExponent a) in *. pose proof (pow2_pos e) as P.
  destruct (Z_le_gt_dec e j) as [L | G].
  - assert (D : inject_Z (k * 2 ^ (j - e)) <= a / pow2 e).
    { rewrite <- (scaled_integer k j e L).
      apply Qle_shift_div_l; [exact P |].
      assert (X : inject_Z k * pow2 j / pow2 e * pow2 e == inject_Z k * pow2 j)
        by (field; lra).
      now rewrite X. }
    apply nearestEven_ge in D. rewrite Zle_Qle in D.
    apply (Qmult_le_compat_r _ _ (pow2 e)) in D; [| lra].
    rewrite <- (scaled_integer k j e L) in D.
    assert (X : inject_Z k * pow2 j / pow2 e * pow2 e == inject_Z k * pow2 j)
      by (field; lra).
    now rewrite X in D.
  - destruct B as [B | B]; [lia |].
    assert (D : inject_Z (2 ^ 52) <= a / pow2 e).
    { rewrite <- (pow2_Z 52) by lia. apply Qle_shift_div_l; [exact P |].
      rewrite <- pow2_add. exact B. }
    apply nearestEven_ge in D. rewrite Zle_Qle in D.
    apply (Qmult_le_compat_r _ _ (pow2 e)) in D; [| lra].
    rewrite <- (pow2_Z 52), <- pow2_add in D by lia.
    apply Qle_trans with (pow2 (52 + e)); [| exact D].
    apply Qle_trans with (pow2 (53 + j)); [| apply pow2_le; lia].
    rewrite pow2_add, (pow2_Z 53) by lia.
    apply Qmult_le_compat_r; [| pose proof (pow2_pos j); lra].
    rewrite <- Zle_Qle. lia.
Qed.

Lemma mantissa_le (a : Q) (k j : Z) :
  0 < a -> (0 < k < 2 ^ 53)%Z -> (-1074 <= j)%Z ->
  a <= inject_Z k * pow2 j ->
  (ulpExponent a <= j)%Z /\
  inject_Z (nearestEven (a / pow2 (ulpExponent a))) * pow2 (ulpExponent a)
  <= inject_Z k * pow2 j.
Proof.
  intros Ha Hk Hj H. destruct (ulpExponent_spec a Ha) as [Lo B].
  set (e := ulpExponent a) in *. pose proof (pow2_pos e) as P.
  assert (L : (e <= j)%Z).
  { destruct (Z_le_gt_dec e j) as [L | G]; [exact L | exfalso].
    destruct B as [B | B]; [lia |].
    assert (X : pow2 (53 + j) <= pow2 (52 + e)) by (apply pow2_le; lia).
    assert (Y : inject_Z k * pow2 j < pow2 (53 + j)).
    { rewrite pow2_add, (pow2_Z 53) by lia.
      apply Qmult_lt_compat_r; [apply pow2_pos |]. rewrite <- Zlt_Qlt. lia. }
    lra. }
  split; [exact L |].
  assert (D : a / pow2 e <= inject_Z (k * 2 ^ (j - e))).
  { rewrite <- (scaled_integer k j e L).
    apply Qle_shift_div_r; [exact P |].
    assert (X : inject_Z k * pow2 j / pow2 e * pow2 e == inject_Z k * pow2 j)
      by (field; lra).
    now rewrite X. }
  apply nearestEven_le in D. rewrite Zle_Qle in D.
  apply (Qmult_le_compat_r _ _ (pow2 e)) in D; [| lra].
  rewrite <- (scaled_integer k j e L) in D.
  assert (X : inject_Z k * pow2 j / pow2 e * pow2 e == inject_Z k * pow2 j)
    by (field; lra).
  now rewrite X in D.
Qed.

Lemma pack_opp (s : bool) (m e : Z) : neg (pack s m e) = pack (negb s) m e.
Proof.
  unfold pack. destruct (m =? 2 ^ 53)%Z.
  - change (2 ^ 52)%Z with (Z.pos (2 ^ 52)%positive).
    cbv beta iota zeta. destruct (971 <? e + 1)%Z; reflexivity.
  - destruct m as [| p | p]; try reflexivity.
    cbv beta iota zeta. destruct (971 <? e)%Z; reflexivity.
Qed.

Lemma rnd_negative (zs : bool) (n d : positive) :
  rnd zs (Z.neg n # d) = neg (rnd zs (Z.pos n # d)).
Proof.
  unfold rnd. cbn [Qnum]. change (Z.neg n <? 0)%Z with true.
  change (Z.pos n <? 0)%Z with false.
  change (Qabs (Z.neg n # d)) with (Z.pos n # d).
  change (Qabs (Z.pos n # d)) with (Z.pos n # d).
  now rewrite pack_opp.
Qed.

Lemma toQ_neg (x : num) : toQ (neg x) == - toQ x.
Proof.
  destruct x as [s | s | | s m e]; try reflexivity.
  cbn [neg SFopp toQ]. destruct s; cbn [negb].
  - assert (E : inject_Z (Z.neg m) == - inject_Z (Z.pos m)) by reflexivity.
    rewrite E. ring.
  - assert (E : inject_Z (Z.neg m) == - inject_Z (Z.pos m)) by reflexivity.
    rewrite E. ring.
Qed.

(** Rounding a positive number against a double [k x 2^j]. *)
Lemma rnd_positive_bounds (zs : bool) (n d : positive) (k j : Z) :
  (0 < k < 2 ^ 53)%Z -> (-1074 <= j <= 970)%Z ->
  (inject_Z k * pow2 j <= Z.pos n # d ->
   rnd zs (Z.pos n # d) = S754_infinity false \/
   isFinite (rnd zs (Z.pos n # d)) = true /\
   inject_Z k * pow2 j <= toQ (rnd zs (Z.pos n # d))) /\
  (Z.pos n # d <= inject_Z k * pow2 j ->
   isFinite (rnd zs (Z.pos n # d)) = true /\
   0 <= toQ (rnd zs (Z.pos n # d)) /\
   toQ (rnd zs (Z.pos n # d)) <= inject_Z k * pow2 j).
Proof.
  intros Hk Hj. unfold rnd. cbn [Qnum]. change (Z.pos n <? 0)%Z with false.
  change (Qabs (Z.pos n # d)) with (Z.pos n # d).
  set (a := Z.pos n # d). assert (Ha : 0 < a) by reflexivity.
  pose proof (mantissa_nonneg a Ha) as N.
  assert (Pos : 0 <= inject_Z (nearestEven (a / pow2 (ulpExponent a)))
                     * pow2 (ulpExponent a)).
  { apply Qmult_le_0_compat.
    - change 0 with (inject_Z 0). rewrite <- Zle_Qle. exact N.
    - pose proof (pow2_pos (ulpExponent a)). lra. }
  split; intros H.
  - pose proof (mantissa_ge a k j Ha ltac:(lia) ltac:(lia) H) as G.
    destruct (pack_cases false _ (ulpExponent a) N) as [[E _] | [F V]].
    + now left.
    + right. split; [exact F |]. rewrite V. lra.
  - destruct (mantissa_le a k j Ha Hk ltac:(lia) H) as [L G].
    destruct (pack_cases false _ (ulpExponent a) N) as [[_ E] | [F V]]; [lia |].
    split; [exact F |]. rewrite V. split; lra.
Qed.

End RoundedBounds.

(** ** Pacing status *)

Section RoundedDifference.

(** The status, row by row of the comparisons of the code. *)
Lemma getPacingStatus_rows (actual expected : num) :
  getPacingStatus actual expected
  = if ge (sub actual expected) (ofZ 10) then "Ahead of target"
    else if ge (sub actual expected) (ofZ 0) then "On track"
    else if ge (sub actual expected) (ofZ (-10)) then "Slightly behind"
    else "Behind target".
Proof. reflexivity. Qed.

(** Comparing with one of the three bounds compares the values. *)
Lemma cmp_bound (d : num) (z : Z) :
  z = 10 \/ z = 0 \/ z = -10 ->
  cmp d (ofZ z)
  = match d with
    | S754_nan => None
    | S754_infinity s => Some (if s then Lt else Gt)
    | _ => Some (toQ d ?= inject_Z z)%Q
    end.
Proof.
  assert (E10 : ofZ 10 = S754_finite false 5629499534213120 (-49))
    by (vm_compute; reflexivity).
  assert (E0 : ofZ 0 = S754_zero false) by (vm_compute; reflexivity).
  assert (En : ofZ (-10) = S754_finite true 5629499534213120 (-49))
    by (vm_compute; reflexivity).
  assert (Q10 : (toQ (S754_finite false 5629499534213120 (-49)) == inject_Z 10)%Q)
    by (vm_compute; reflexivity).
  assert (Qn : (toQ (S754_finite true 5629499534213120 (-49)) == inject_Z (-10))%Q)
    by (vm_compute; reflexivity).
  intros [-> | [-> | ->]].
  - rewrite E10. destruct d as [s | s | | s m e]; try reflexivity; unfold cmp; f_equal;
      apply Qcompare_comp; try reflexivity; exact Q10.
  - rewrite E0. destruct d as [s | s | | s m e]; reflexivity.
  - rewrite En. destruct d as [s | s | | s m e]; try reflexivity; unfold cmp; f_equal;
      apply Qcompare_comp; try reflexivity; exact Qn.
Qed.

(** The rows of a computed difference [d]: an infinity, [NaN], or a
    value. *)
Lemma rows_of_difference (d : num) :
  (if ge d (ofZ 10) then "Ahead of target"
   else if ge d (ofZ 0) then "On track"
   else if ge d (ofZ (-10)) then "Slightly behind"
   else "Behind target")
  = match d with
    | S754_nan => "Behind target"
    | S754_infinity s => if s then "Behind target" else "Ahead of target"
    | _ =>
        if Qle_bool 10 (toQ d) then "Ahead of target"
        else if Qle_bool 0 (toQ d) then "On track"
        else if Qle_bool (-10) (toQ d) then "Slightly behind"
        else "Behind target"
    end.
Proof.
  assert (sw : forall p q : Q,
             match (p ?= q)%Q with Gt | Eq => true | Lt => false end = Qle_bool q p).
  { intros p q.
    destruct (Qcompare_cases p q) as [[-> H] | [[-> H] | [-> H]]];
      destruct (Qle_bool q p) eqn:L; try reflexivity.
    - apply Qle_bool_iff in L. lra.
    - assert (L' : Qle_bool q p = true) by (apply Qle_bool_iff; lra). congruence.
    - assert (L' : Qle_bool q p = true) by (apply Qle_bool_iff; lra). congruence. }
  unfold ge. rewrite !cmp_bound by tauto.
  change (inject_Z 10) with 10%Q. change (inject_Z 0) with 0%Q.
  change (inject_Z (-10)) with (-10)%Q.
  destruct d as [s | s | | s m e]; try reflexivity.
  - destruct s; reflexivity.
  - rewrite <- !sw. reflexivity.
Qed.

Lemma ge_lt_bound (d : num) (z : Z) :
  z = 10 \/ z = 0 \/ z = -10 ->
  (ge d (ofZ z) = true ->
   match d with
   | S754_nan => False
   | S754_infinity s => s = false
   | _ => (inject_Z z <= toQ d)%Q
   end) /\
  (lt d (ofZ z) = true ->
   match d with
   | S754_nan => False
   | S754_infinity s => s = true
   | _ => (toQ d < inject_Z z)%Q
   end).
Proof.
  intros Hz. unfold ge, lt. rewrite (cmp_bound d z Hz).
  destruct d as [s | s | | s m e].
  - destruct (Qcompare_cases (toQ (S754_zero s)) (inject_Z z))
      as [[-> H] | [[-> H] | [-> H]]]; split; intros G; try discriminate; lra.
  - destruct s; split; intros G; try discriminate; reflexivity.
  - split; discriminate.
  - destruct (Qcompare_cases (toQ (S754_finite s m e)) (inject_Z z))
      as [[-> H] | [[-> H] | [-> H]]]; split; intros G; try discriminate; lra.
Qed.

Lemma Qle_bool_no (p q : Q) : (q < p)%Q -> Qle_bool p q = false.
Proof.
  intros H. destruct (Qle_bool p q) eqn:L; [| reflexivity].
  apply Qle_bool_iff in L. lra.
Qed.

Lemma Qle_bool_yes (p q : Q) : (p <= q)%Q -> Qle_bool p q = true.
Proof. intros H. now apply Qle_bool_iff. Qed.

End RoundedDifference.

Section RealDifference.

Local Open Scope Q_scope.

Lemma isDouble_exponent (s : bool) (m : positive) (e : Z) :
  isDouble (S754_finite s m e) = true -> (-1074 <= e)%Z.
Proof.
  unfold isDouble, valid_binary, bounded, canonical_mantissa, fexp, emin.
  intros H. apply andb_true_iff in H. destruct H as [H _].
  apply Z.eqb_eq in H. lia.
Qed.

(** A double is a multiple of [2^-1074]. *)
Lemma isDouble_grid (x : num) :
  isDouble x = true -> exists K : Z, toQ x == inject_Z K * pow2 (-1074).
Proof.
  destruct x as [s | s | | s m e]; intros H;
    try (exists 0%Z; cbn [toQ]; ring).
  apply isDouble_exponent in H.
  exists ((if s then Z.neg m else Z.pos m) * 2 ^ (e + 1074))%Z.
  cbn [toQ]. rewrite inject_Z_mult, <- (pow2_Z (e + 1074)) by lia.
  rewrite <- Qmult_assoc, <- pow2_add.
  replace (e + 1074 + -1074)%Z with e by lia. reflexivity.
Qed.

(** The status of a pair, from the difference the subtraction returns. *)
Lemma status_of_difference (actual expected d : num) :
  sub actual expected = d ->
  (d = S754_infinity false -> getPacingStatus actual expected = "Ahead of target") /\
  (d = S754_infinity true -> getPacingStatus actual expected = "Behind target") /\
  (isFinite d = true ->
   (10 <= toQ d -> getPacingStatus actual expected = "Ahead of target") /\
   (0 <= toQ d -> toQ d < 10 -> getPacingStatus actual expected = "On track") /\
   (-10 <= toQ d -> toQ d < 0 -> getPacingStatus actual expected = "Slightly behind") /\
   (toQ d < -10 -> getPacingStatus actual expected = "Behind target")).
Proof.
  intros E. rewrite getPacingStatus_rows, rows_of_difference, E.
  split; [intros ->; reflexivity |]. split; [intros ->; reflexivity |].
  intros F.
  assert (T : match d with
              | S754_nan => "Behind target"
              | S754_infinity s => if s then "Behind target" else "Ahead of target"
              | _ =>
                  if Qle_bool 10 (toQ d) then "Ahead of target"
                  else if Qle_bool 0 (toQ d) then "On track"
                  else if Qle_bool (-10) (toQ d) then "Slightly behind"
                  else "Behind target"
              end
              = if Qle_bool 10 (toQ d) then "Ahead of target"
                else if Qle_bool 0 (toQ d) then "On track"
                else if Qle_bool (-10) (toQ d) then "Slightly behind"
                else "Behind target").
  { destruct d; try discriminate; reflexivity. }
  rewrite T. clear T.
  split; [| split; [| split]].
  - intros H. now rewrite Qle_bool_yes by exact H.
  - intros H1 H2. now rewrite (Qle_bool_no 10), (Qle_bool_yes 0) by assumption.
  - intros H1 H2.
    rewrite (Qle_bool_no 10), (Qle_bool_no 0), Qle_bool_yes by lra. reflexivity.
  - intros H.
    rewrite (Qle_bool_no 10), (Qle_bool_no 0), (Qle_bool_no (-10)) by lra. reflexivity.
Qed.

(** The difference of two finite numbers is exact when one of them is a
    zero, and the rounded real difference otherwise. *)
Lemma sub_finite (actual expected : num) :
  isFinite actual = true -> isFinite expected = true ->
  (isFinite (sub actual expected) = true /\
   toQ (sub actual expected) == toQ actual - toQ expected) \/
  sub actual expected = rnd false (toQ actual + toQ (neg expected)).
Proof.
  intros Fa Fe.
  destruct actual as [sa | sa | | sa ma ea]; try discriminate;
    destruct expected as [se | se | | se me ee]; try discriminate.
  - left. split; reflexivity.
  - left. split; [reflexivity |].
    change (sub (S754_zero sa) (S754_finite se me ee))
      with (neg (S754_finite se me ee)).
    rewrite toQ_neg. cbn [toQ]. ring.
  - left. split; [reflexivity |].
    change (sub (S754_finite sa ma ea) (S754_zero se)) with (S754_finite sa ma ea).
    cbn [toQ]. ring.
  - right. reflexivity.
Qed.

Lemma ten_as_double : inject_Z 5 * pow2 1 == 10.
Proof. vm_compute. reflexivity. Qed.

(** The rows of the real difference [actual - expected] of two finite
    numbers. *)
Lemma status_of_real_difference (actual expected : num) :
  isFinite actual = true -> isFinite expected = true ->
  (10 <= toQ actual - toQ expected ->
   getPacingStatus actual expected = "Ahead of target") /\
  (0 <= toQ actual - toQ expected -> toQ actual - toQ expected < 10 ->
   getPacingStatus actual expected = "On track" \/
   getPacingStatus actual expected = "Ahead of target" /\
   toQ (sub actual expected) == 10) /\
  (-10 <= toQ actual - toQ expected -> toQ actual - toQ expected < 0 ->
   isDouble actual = true -> isDouble expected = true ->
   getPacingStatus actual expected = "Slightly behind") /\
  (toQ actual - toQ expected < -10 ->
   getPacingStatus actual expected = "Behind target" \/
   getPacingStatus actual expected = "Slightly behind" /\
   toQ (sub actual expected) == -10).
Proof.
  intros Fa Fe.
  destruct (status_of_difference actual expected _ eq_refl) as (Inf & NInf & Fin).
  pose proof ten_as_double as Ten.
  destruct (sub_finite actual expected Fa Fe) as [[F E] | R].
  - (* an exact difference *)
    destruct (Fin F) as (R1 & R2 & R3 & R4). rewrite E in R1, R2, R3, R4.
    split; [exact R1 |]. split; [intros H1 H2; left; now apply R2 |].
    split; [intros H1 H2 _ _; now apply R3 |]. intros H; left; now apply R4.
  - (* a rounded difference *)
    assert (D : toQ actual + toQ (neg expected) == toQ actual - toQ expected)
      by (rewrite toQ_neg; ring).
    assert (Grid : isDouble actual = true -> isDouble expected = true ->
                   exists K : Z,
                     toQ actual + toQ (neg expected) == inject_Z K * pow2 (-1074)).
    { intros Va Ve. destruct (isDouble_grid _ Va) as (Ka & Ea).
      destruct (isDouble_grid _ Ve) as (Ke & Ee).
      exists (Ka - Ke)%Z. rewrite D, Ea, Ee.
      unfold Z.sub. rewrite inject_Z_plus, inject_Z_opp. ring. }
    rewrite <- D. clear D.
    revert R Grid. generalize (toQ actual + toQ (neg expected)). intros q R Grid.
    rewrite R in *. clear R.
    destruct q as [n d]. destruct n as [| n | n].
    + (* the difference is 0 *)
      assert (Z0 : 0 # d == 0) by reflexivity.
      change (rnd false (0 # d)) with (S754_zero false) in *.
      destruct (Fin eq_refl) as (_ & R2 & _). cbn [toQ] in R2.
      rewrite Z0. split; [intros; lra |]. split; [intros _ _; left; apply R2; lra |].
      split; intros; lra.
    + (* a positive difference *)
      assert (P : 0 < Z.pos n # d) by reflexivity.
      destruct (rnd_positive_bounds false n d 5 1 ltac:(lia) ltac:(lia)) as [Lo Hi].
      rewrite Ten in Lo, Hi.
      split; [| split; [| split]].
      * intros H. destruct (Lo H) as [E | [F G]]; [now apply Inf |].
        now apply (Fin F).
      * intros _ H. destruct (Hi ltac:(lra)) as (F & G0 & G10).
        destruct (Fin F) as (R1 & R2 & _).
        destruct (Qlt_le_dec (toQ (rnd false (Z.pos n # d))) 10) as [L | L].
        -- left. now apply R2.
        -- right. split; [now apply R1 | lra].
      * intros; lra.
      * intros; lra.
    + (* a negative difference *)
      assert (P : 0 < Z.pos n # d) by reflexivity.
      assert (O : Z.neg n # d == - (Z.pos n # d)) by reflexivity.
      rewrite rnd_negative in *.
      destruct (rnd_positive_bounds false n d 5 1 ltac:(lia) ltac:(lia)) as [Lo Hi].
      destruct (rnd_positive_bounds false n d 1 (-1074) ltac:(lia) ltac:(lia))
        as [Lo' _].
      rewrite Ten in Lo, Hi.
      pose proof (toQ_neg (rnd false (Z.pos n # d))) as V.
      assert (Fneg : isFinite (rnd false (Z.pos n # d)) = true ->
                     isFinite (neg (rnd false (Z.pos n # d))) = true).
      { destruct (rnd false (Z.pos n # d)); intros; try discriminate; reflexivity. }
      split; [intros; lra |]. split; [intros; lra |]. split.
      * intros H1 H2 Va Ve. destruct (Hi ltac:(lra)) as (F & G0 & G10).
        destruct (Grid Va Ve) as (K & EK).
        assert (K1 : (1 <= - K)%Z).
        { destruct (Z_lt_ge_dec (- K) 1) as [L | G]; [exfalso | lia].
          assert (X : 0 <= inject_Z K).
          { change 0 with (inject_Z 0). rewrite <- Zle_Qle. lia. }
          pose proof (pow2_pos (-1074)) as PP.
          assert (Y : 0 <= inject_Z K * pow2 (-1074)) by (apply Qmult_le_0_compat; lra).
          lra. }
        assert (G : inject_Z 1 * pow2 (-1074) <= Z.pos n # d).
        { assert (X : Z.pos n # d == inject_Z (- K) * pow2 (-1074)).
          { rewrite inject_Z_opp. lra. }
          rewrite X. apply Qmult_le_compat_r; [| pose proof (pow2_pos (-1074)); lra].
          rewrite <- Zle_Qle. lia. }
        destruct (Lo' G) as [E | [_ G']].
        { rewrite E in F. discriminate. }
        pose proof (pow2_pos (-1074)) as PP.
        change (inject_Z 1) with 1 in G'.
        destruct (Fin (Fneg F)) as (_ & _ & R3 & _). apply R3; lra.
      * intros H. destruct (Lo ltac:(lra)) as [E | [F G]].
        -- left. apply NInf. rewrite E. reflexivity.
        -- destruct (Fin (Fneg F)) as (_ & _ & R3 & R4).
           destruct (Qlt_le_dec (- 10) (toQ (neg (rnd false (Z.pos n # d))))) as [L | L].
           ++ lra.
           ++ destruct (Qlt_le_dec (toQ (neg (rnd false (Z.pos n # d)))) (- 10))
                as [L' | L'].
              ** left. now apply R4.
              ** right. split; [apply R3; lra | lra].
Qed.

(** The rows of the difference the subtraction returns. *)
Lemma status_of_computed_difference (actual expected : num) :
  (ge (sub actual expected) (ofZ 10) = true ->
     getPacingStatus actual expected = "Ahead of target") /\
  (ge (sub actual expected) (ofZ 0) = true /\ lt (sub actual expected) (ofZ 10) = true ->
     getPacingStatus actual expected = "On track") /\
  (ge (sub actual expected) (ofZ (-10)) = true /\
   lt (sub actual expected) (ofZ 0) = true ->
     getPacingStatus actual expected = "Slightly behind") /\
  (lt (sub actual expected) (ofZ (-10)) = true ->
     getPacingStatus actual expected = "Behind target").
Proof.
  rewrite getPacingStatus_rows, rows_of_difference.
  generalize (sub actual expected). intros d.
  pose proof (ge_lt_bound d 10 ltac:(tauto)) as [G10 L10].
  pose proof (ge_lt_bound d 0 ltac:(tauto)) as [G0 L0].
  pose proof (ge_lt_bound d (-10) ltac:(tauto)) as [Gn Ln].
  change (inject_Z 10) with 10 in *. change (inject_Z 0) with 0 in *.
  change (inject_Z (-10)) with (-10) in *.
  assert (inf : forall s : bool, s = false ->
               (if s then "Behind target" else "Ahead of target") = "Ahead of target")
    by (intros s ->; reflexivity).
  assert (ninf : forall s : bool, s = true ->
               (if s then "Behind target" else "Ahead of target") = "Behind target")
    by (intros s ->; reflexivity).
  split; [| split; [| split]].
  - intros H. specialize (G10 H). clear -G10 inf.
    destruct d as [s | s | | s m e]; cbv beta iota; auto;
      try (now rewrite Qle_bool_yes by exact G10); contradiction.
  - intros [H1 H2]. specialize (G0 H1). specialize (L10 H2). clear -G0 L10.
    destruct d as [s | s | | s m e]; cbv beta iota;
      try (now rewrite (Qle_bool_no 10), (Qle_bool_yes 0) by assumption);
      try contradiction; congruence.
  - intros [H1 H2]. specialize (Gn H1). specialize (L0 H2). clear -Gn L0.
    destruct d as [s | s | | s m e]; cbv beta iota;
      try (rewrite (Qle_bool_no 10), (Qle_bool_no 0), Qle_bool_yes by lra;
           reflexivity);
      try contradiction; congruence.
  - intros H. specialize (Ln H). clear -Ln ninf.
    destruct d as [s | s | | s m e]; cbv beta iota; auto;
      try (rewrite (Qle_bool_no 10), (Qle_bool_no 0), (Qle_bool_no (-10)) by lra;
           reflexivity).
Qed.

(** C1, as the code computes it: the status is read off the difference
    [actual - expected] the subtraction returns, which is the real
    difference rounded to the nearest double.  A computed difference of at
    least 10 is "Ahead of target", from 0 up to 10 "On track", from -10 up
    to 0 "Slightly behind", below -10 "Behind target", and two pairs with
    the same computed difference get the same status.  For finite numbers
    and their real difference: at least 10 is "Ahead of target"; from 0 up
    to 10 is "On track", or "Ahead of target" when the subtraction rounds
    it to 10; from -10 up to 0 is "Slightly behind" (for doubles); below
    -10 is "Behind target", or "Slightly behind" when the subtraction
    rounds it to -10.  The three sample pairs (50,40), (35,40) and (20,40)
    give "Ahead of target", "Slightly behind" and "Behind target". *)
Theorem getPacingStatus_by_computed_difference (actual expected : num) :
  (ge (sub actual expected) (ofZ 10) = true ->
     getPacingStatus actual expected = "Ahead of target") /\
  (ge (sub actual expected) (ofZ 0) = true /\ lt (sub actual expected) (ofZ 10) = true ->
     getPacingStatus actual expected = "On track") /\
  (ge (sub actual expected) (ofZ (-10)) = true /\
   lt (sub actual expected) (ofZ 0) = true ->
     getPacingStatus actual expected = "Slightly behind") /\
  (lt (sub actual expected) (ofZ (-10)) = true ->
     getPacingStatus actual expected = "Behind target") /\
  (forall actual' expected' : num,
     sub actual' expected' = sub actual expected ->
     getPacingStatus actual' expected' = getPacingStatus actual expected) /\
  (isFinite actual = true -> isFinite expected = true ->
   (10 <= toQ actual - toQ expected ->
    getPacingStatus actual expected = "Ahead of target") /\
   (0 <= toQ actual - toQ expected -> toQ actual - toQ expected < 10 ->
    getPacingStatus actual expected = "On track" \/
    getPacingStatus actual expected = "Ahead of target" /\
    toQ (sub actual expected) == 10) /\
   (-10 <= toQ actual - toQ expected -> toQ actual - toQ expected < 0 ->
    isDouble actual = true -> isDouble expected = true ->
    getPacingStatus actual expected = "Slightly behind") /\
   (toQ actual - toQ expected < -10 ->
    getPacingStatus actual expected = "Behind target" \/
    getPacingStatus actual expected = "Slightly behind" /\
    toQ (sub actual expected) == -10)) /\
  getPacingStatus (ofZ 50) (ofZ 40) = "Ahead of target" /\
  getPacingStatus (ofZ 35) (ofZ 40) = "Slightly behind" /\
  getPacingStatus (ofZ 20) (ofZ 40) = "Behind target".
Proof.
  destruct (status_of_computed_difference actual expected) as (R1 & R2 & R3 & R4).
  split; [exact R1 |]. split; [exact R2 |]. split; [exact R3 |]. split; [exact R4 |].
  split.
  { intros a' e' E.
    rewrite (getPacingStatus_rows a' e'), (getPacingStatus_rows actual expected), E.
    reflexivity. }
  split; [apply status_of_real_difference |].
  repeat split; vm_compute; reflexivity.
Qed.

(** 1 lead of 30 against day 4 of 30: the difference of the two
    percentages, as real numbers, is below -10, the subtraction rounds it
    to -10, and the status is "Slightly behind"; and 10 against [2^-60]:
    the difference is below 10, rounds to 10, and the status is "Ahead of
    target". *)
Lemma getPacingStatus_at_a_rounded_boundary :
  isFinite (Spec64.percentOf 1 30) = true /\
  isFinite (Spec64.percentOf 4 30) = true /\
  (toQ (Spec64.percentOf 1 30) - toQ (Spec64.percentOf 4 30) < -10)%Q /\
  getPacingStatus (Spec64.percentOf 1 30) (Spec64.percentOf 4 30) = "Slightly behind" /\
  (toQ (ofZ 10) - toQ (lit (pow2 (-60))) < 10)%Q /\
  getPacingStatus (ofZ 10) (lit (pow2 (-60))) = "Ahead of target".
Proof. vm_compute. repeat split; reflexivity. Qed.

End RealDifference.

(** ** Zero divisors *)

Section GuardedDivisions.







Lemma gt_zero_of_zero (x : num) : Spec64.isZero x = true -> gt x zero = false.
Proof. destruct x as [s | | |]; try discriminate. destruct s; reflexivity. Qed.




End GuardedDivisions.

(** ** Daily targets *)

Section ComputedSplits.

(** In a state whose [totalDaysInMonth] is the length of the month of
    [now], the loop counts the Monday-to-Friday dates of that month, and
    the rest are its Saturdays and Sundays. *)
Lemma weekdays_of_month (now : Date.t) (st : App) :
  totalDaysInMonth st = Spec.daysInMonth now ->
  Spec64.weekdays now st = Spec.weekdayCount now /\
  Spec64.weekends now st = Spec.weekendCount now.
Proof.
  intros H.
  assert (W : getWeekdaysInMonth now st = Spec.weekdayCount now).
  { unfold getWeekdaysInMonth, Spec.weekdayCount, Spec.datesOfMonth.
    rewrite H. apply (countWeekdays_filter now _ 1 0). }
  unfold Spec64.weekdays, Spec64.weekends. rewrite W. split; [reflexivity |].
  rewrite H. unfold Spec.weekdayCount, Spec.weekendCount.
  rewrite (filter_ext _ _ (isSatSun_not_MonFri now)).
  pose proof (filter_length (Spec.isMonFri now) (Spec.datesOfMonth now)) as L.
  assert (N : List.length (Spec.datesOfMonth now) = Z.to_nat (Spec.daysInMonth now)).
  { unfold Spec.datesOfMonth. now rewrite length_map, length_seq. }
  pose proof (daysInMonth_pos now). lia.
Qed.

Lemma Target_get_set (x : Target.t) (m : Metric) (v : MetricTarget) :
  Target.get (Target.set x m v) m = v.
Proof. destruct m; reflexivity. Qed.

(** What [recalculateDailyTargets] leaves at the target it recomputes. *)
Lemma recalculateDailyTargets_entry (now : Date.t) (state : Region) (metric : Metric)
    (st : App) :
  Target.get (get (settings (recalculateDailyTargets now state metric st)) state) metric
  = Spec64.dailySplit (monthlyTotal (Target.get (get (settings st) state) metric))
      (Spec64.weekdays now st) (Spec64.weekends now st).
Proof.
  unfold recalculateDailyTargets, with_settings. cbn [settings].
  rewrite get_set_same, Target_get_set. reflexivity.
Qed.

(** C6, as the code computes it: in a state whose [totalDaysInMonth] is
    the length of the current month, recomputing the daily targets of a
    region and a metric sets [weekdayDaily] to
    [Math.round((monthlyTotal * 0.7) / weekdayCount)] and [weekendDaily]
    to [Math.round((monthlyTotal * 0.3) / weekendCount)], every operation
    rounding to the nearest double, the counts being those of the dates of
    the month that fall on Monday to Friday and on Saturday or Sunday; the
    monthly total stays. *)
Theorem recalculateDailyTargets_as_computed (now : Date.t) (state : Region)
    (metric : Metric) (st : App) :
  totalDaysInMonth st = Spec.daysInMonth now ->
  Target.get (get (settings (recalculateDailyTargets now state metric st)) state) metric
  = {| weekdayDaily :=
         round (div (mul (monthlyTotal (Target.get (get (settings st) state) metric))
                       (lit (7 # 10)))
                  (ofZ (Spec.weekdayCount now)));
       weekendDaily :=
         round (div (mul (monthlyTotal (Target.get (get (settings st) state) metric))
                       (lit (3 # 10)))
                  (ofZ (Spec.weekendCount now)));
       monthlyTotal := monthlyTotal (Target.get (get (settings st) state) metric) |}.
Proof.
  intros H. rewrite recalculateDailyTargets_entry.
  destruct (weekdays_of_month now st H) as [-> ->]. reflexivity.
Qed.

(** The state [init()] sets up on 3 November 2026, and the case targets
    of California. *)
Lemma recalculateDailyTargets_as_computed_witness :
  Target.get
    (get (settings (recalculateDailyTargets Sample.november3 CA Cases
                      (Spec64.started Sample.november3))) CA) Cases
  = {| weekdayDaily := round (div (mul (ofZ 308) (lit (7 # 10)))
                                (ofZ (Spec.weekdayCount Sample.november3)));
       weekendDaily := round (div (mul (ofZ 308) (lit (3 # 10)))
                                (ofZ (Spec.weekendCount Sample.november3)));
       monthlyTotal := ofZ 308 |}.
Proof.
  apply (recalculateDailyTargets_as_computed Sample.november3 CA Cases
           (Spec64.started Sample.november3)).
  reflexivity.
Defined.

(** A monthly total of 45 in November 2026, a month of 21 weekdays:
    45 x 0.7 / 21 is 1.5, which rounds to 2, and the component stores 1,
    the product and the quotient having been rounded to
    1.4999999999999998.  And in the state [init()] set up on 28 February
    2026, on 1 March the loop runs over 28 days and counts 20 weekdays and
    8 weekend days, where March has 22 and 9. *)
Lemma daily_target_of_45 :
  totalDaysInMonth (Spec64.withTarget Sample.november3 TX Leads (ofZ 45))
  = Spec.daysInMonth Sample.november3 /\
  Spec.weekdayCount Sample.november3 = 21 /\
  round_half_up (45 * (7 # 10) / 21) = 2 /\
  weekdayDaily
    (Target.get
       (get (settings
               (recalculateDailyTargets Sample.november3 TX Leads
                  (Spec64.withTarget Sample.november3 TX Leads (ofZ 45)))) TX) Leads)
  = ofZ 1 /\
  reachable (Spec64.started Spec64.february28) /\
  Spec64.weekdays Spec64.march1 (Spec64.started Spec64.february28) = 20 /\
  Spec64.weekends Spec64.march1 (Spec64.started Spec64.february28) = 8 /\
  Spec.weekdayCount Spec64.march1 = 22 /\
  Spec.weekendCount Spec64.march1 = 9.
Proof.
  split; [reflexivity |]. split; [reflexivity |]. split; [reflexivity |].
  split; [vm_compute; reflexivity |].
  split; [exact (reach_init Spec64.february28) |].
  repeat split; vm_compute; reflexivity.
Qed.

End ComputedSplits.

(** ** Conversion rates *)

Section AppliedRates.

(** What [updateCalculations] leaves in the settings of a region. *)
Lemma updateCalculations_entries (now : Date.t) (st : App) (s : Region) :
  get (settings (updateCalculations now st)) s
  = {| Target.spend := Target.spend (get (settings st) s);
       Target.leads := Target.leads (get (settings st) s);
       Target.cases :=
         Spec64.dailySplit
           (Spec64.converted (Spec64.leadsTotal st s) (leadToCase (conversionRates st)))
           (Spec64.weekdays now st) (Spec64.weekends now st);
       Target.retainers :=
         Spec64.dailySplit
           (Spec64.converted (Spec64.leadsTotal st s)
              (leadToRetainer (conversionRates st)))
           (Spec64.weekdays now st) (Spec64.weekends now st) |}.
Proof. destruct s; reflexivity. Qed.

(** What [recalculateTargets(state)] leaves in the settings of that
    region, and of another one. *)
Lemma recalculateTargets_entries (now : Date.t) (st : App) (state : Region) :
  get (settings (recalculateTargets now state st)) state
  = {| Target.spend :=
         Spec64.dailySplit (monthlyTotal (Target.spend (get (settings st) state)))
           (Spec64.weekdays now st) (Spec64.weekends now st);
       Target.leads :=
         Spec64.dailySplit (Spec64.leadsTotal st state)
           (Spec64.weekdays now st) (Spec64.weekends now st);
       Target.cases :=
         Spec64.dailySplit
           (Spec64.converted (Spec64.leadsTotal st state)
              (leadToCase (conversionRates st)))
           (Spec64.weekdays now st) (Spec64.weekends now st);
       Target.retainers :=
         Spec64.dailySplit
           (Spec64.converted (Spec64.leadsTotal st state)
              (leadToRetainer (conversionRates st)))
           (Spec64.weekdays now st) (Spec64.weekends now st) |}.
Proof. destruct state; reflexivity. Qed.

Lemma recalculateTargets_other_regions (now : Date.t) (st : App) (state s : Region) :
  s <> state ->
  get (settings (recalculateTargets now state st)) s = get (settings st) s.
Proof. destruct state, s; intros H; try reflexivity; contradiction. Qed.

(** C5, as the code computes it: applying the conversion rates sets, for
    every region, [cases.monthlyTotal] to
    [Math.round(leads.monthlyTotal * (leadToCase / 100))] and
    [retainers.monthlyTotal] to
    [Math.round(leads.monthlyTotal * (leadToRetainer / 100))], every
    operation rounding to the nearest double, and recomputes the daily
    splits of cases and retainers from them, leaving spend and leads as
    they were; the edit of one region does the same for that region,
    recomputes the daily splits of its spend and leads too, and leaves the
    other regions alone.  The splits are over the day counts of the loop,
    which in a state whose [totalDaysInMonth] is the length of the current
    month are the Monday-to-Friday and the Saturday-or-Sunday dates of the
    month.  With 1000 leads a month, a rate of 22 gives 220 cases and a
    rate of 30 gives 300. *)
Theorem conversion_rates_as_computed (now : Date.t) (st : App) :
  (forall s : Region,
     monthlyTotal (Target.cases (get (settings (updateCalculations now st)) s))
     = round (mul (monthlyTotal (Target.leads (get (settings st) s)))
                (div (leadToCase (conversionRates st)) (ofZ 100))) /\
     monthlyTotal (Target.retainers (get (settings (updateCalculations now st)) s))
     = round (mul (monthlyTotal (Target.leads (get (settings st) s)))
                (div (leadToRetainer (conversionRates st)) (ofZ 100))) /\
     Target.cases (get (settings (updateCalculations now st)) s)
     = Spec64.dailySplit
         (monthlyTotal (Target.cases (get (settings (updateCalculations now st)) s)))
         (Spec64.weekdays now st) (Spec64.weekends now st) /\
     Target.retainers (get (settings (updateCalculations now st)) s)
     = Spec64.dailySplit
         (monthlyTotal (Target.retainers (get (settings (updateCalculations now st)) s)))
         (Spec64.weekdays now st) (Spec64.weekends now st) /\
     Target.spend (get (settings (updateCalculations now st)) s)
     = Target.spend (get (settings st) s) /\
     Target.leads (get (settings (updateCalculations now st)) s)
     = Target.leads (get (settings st) s)) /\
  (forall state : Region,
     monthlyTotal (Target.cases (get (settings (recalculateTargets now state st)) state))
     = round (mul (monthlyTotal (Target.leads (get (settings st) state)))
                (div (leadToCase (conversionRates st)) (ofZ 100))) /\
     monthlyTotal
       (Target.retainers (get (settings (recalculateTargets now state st)) state))
     = round (mul (monthlyTotal (Target.leads (get (settings st) state)))
                (div (leadToRetainer (conversionRates st)) (ofZ 100))) /\
     (forall metric : Metric,
        Target.get (get (settings (recalculateTargets now state st)) state) metric
        = Spec64.dailySplit
            (monthlyTotal
               (Target.get (get (settings (recalculateTargets now state st)) state)
                  metric))
            (Spec64.weekdays now st) (Spec64.weekends now st)) /\
     monthlyTotal (Target.spend (get (settings (recalculateTargets now state st)) state))
     = monthlyTotal (Target.spend (get (settings st) state)) /\
     monthlyTotal (Target.leads (get (settings (recalculateTargets now state st)) state))
     = monthlyTotal (Target.leads (get (settings st) state)) /\
     (forall s : Region,
        s <> state ->
        get (settings (recalculateTargets now state st)) s = get (settings st) s)) /\
  (totalDaysInMonth st = Spec.daysInMonth now ->
   Spec64.weekdays now st = Spec.weekdayCount now /\
   Spec64.weekends now st = Spec.weekendCount now) /\
  monthlyTotal
    (Target.cases
       (get (settings (updateCalculations Sample.november3 (Spec64.withRate 1000 22)))
          CA))
  = ofZ 220 /\
  monthlyTotal
    (Target.cases
       (get (settings
               (updateCalculations Sample.november3
                  (with_conversionRates
                     (updateCalculations Sample.november3 (Spec64.withRate 1000 22))
                     {| leadToCase := ofZ 30; leadToRetainer := ofZ 25 |})))
          CA))
  = ofZ 300.
Proof.
  split; [| split; [| split; [| split]]].
  - intros s. rewrite updateCalculations_entries.
    cbn [Target.cases Target.retainers Target.spend Target.leads].
    repeat split; reflexivity.
  - intros state. rewrite recalculateTargets_entries.
    cbn [Target.cases Target.retainers Target.spend Target.leads].
    split; [reflexivity |]. split; [reflexivity |].
    split; [intros metric; destruct metric; reflexivity |].
    split; [reflexivity |]. split; [reflexivity |].
    intros s. apply recalculateTargets_other_regions.
  - apply weekdays_of_month.
  - vm_compute. reflexivity.
  - vm_compute. reflexivity.
Qed.

(** 50 leads a month at a rate of 29 percent: 50 x 29 / 100 is 14.5, which
    rounds to 15, and both methods store 14, the quotient 29 / 100 and
    the product having been rounded to 14.499999999999998. *)
Lemma fifty_leads_at_29_percent :
  reachable (Spec64.withRate 50 29) /\
  round_half_up (50 * 29 / 100) = 15 /\
  monthlyTotal
    (Target.cases
       (get (settings (updateCalculations Sample.november3 (Spec64.withRate 50 29))) CA))
  = ofZ 14 /\
  monthlyTotal
    (Target.cases
       (get (settings (recalculateTargets Sample.november3 CA (Spec64.withRate 50 29)))
          CA))
  = ofZ 14.
Proof.
  split.
  { apply reach_rates. unfold Spec64.withTarget, setMonthlyTotal.
    apply reach_settings. exact (reach_init Sample.november3). }
  split; [reflexivity |]. split; vm_compute; reflexivity.
Qed.

End AppliedRates.

(** ** Rounding tolerance of the daily split *)

Section SplitTolerance.

Local Open Scope Q_scope.

Lemma Qabs_mult_le (u k n : Q) : Qabs u <= k -> 0 <= n -> Qabs (u * n) <= k * n.
Proof.
  intros H Hn. rewrite Qabs_Qmult, (Qabs_pos n) by exact Hn.
  apply Qmult_le_compat_r; assumption.
Qed.

Lemma Qfloor_half (x : Q) : Qabs (inject_Z (Qfloor (x + (1 # 2))) - x) <= 1 # 2.
Proof.
  pose proof (Qfloor_le (x + (1 # 2))) as Lo.
  pose proof (Qlt_floor (x + (1 # 2))) as Hi.
  rewrite inject_Z_plus in Hi. change (inject_Z 1) with 1 in Hi.
  apply Qabs_Qle_condition. split; lra.
Qed.

(** One share of the split: the daily target times the day count is
    within the day count of the share [cq] of the total, where [c] is the
    double of the literal [cq]. *)
Lemma share_error (total c : num) (cq : Q) (n : Z) :
  isFinite total = true -> 0 <= toQ total -> toQ total <= 1000000000000000 ->
  isFinite c = true -> 0 <= toQ c -> toQ c <= 1 ->
  Qabs (toQ c - cq) <= 1 # 18014398509481984 ->
  0 <= cq -> cq <= 1 ->
  (0 < n)%Z ->
  isFinite (round (div (mul total c) (ofZ n))) = true /\
  Qabs (toQ (round (div (mul total c) (ofZ n))) * inject_Z n - cq * toQ total)
  <= inject_Z n.
Proof.
  intros Ft T0 T1 Fc C0 C1 Ec Q0 Q1 Hn.
  assert (E53 : pow2 (-53) == 1 # 9007199254740992) by (vm_compute; reflexivity).
  assert (E1075 : pow2 (-1075) <= 1 # 1267650600228229401496703205376).
  { apply Qle_trans with (pow2 (-100)); [apply pow2_le; lia |].
    vm_compute. discriminate. }
  pose proof (pow2_pos (-1075)) as P1075.
  pose proof pow2_1023_large as Big.
  set (t := toQ total) in *. set (c' := toQ c) in *.
  assert (TC0 : 0 <= t * c') by (apply Qmult_le_0_compat; assumption).
  assert (TC1 : t * c' <= 1000000000000000).
  { apply Qle_trans with (t * 1); [| lra].
    rewrite !(Qmult_comm t). apply Qmult_le_compat_r; assumption. }
  (* the product *)
  destruct (mul_error total c Ft Fc) as (Fp & Ep & Sp).
  { fold t c'. rewrite Qabs_pos by exact TC0. lra. }
  fold t c' in Ep, Sp. specialize (Sp TC0).
  rewrite (Qabs_pos (t * c')) in Ep by exact TC0.
  set (p := toQ (mul total c)) in *.
  apply Qabs_Qle_condition in Ep. destruct Ep as [Ep1 Ep2].
  rewrite E53 in Ep1, Ep2.
  assert (P1 : p <= 1000000000000001) by lra.
  assert (N1 : 1 <= inject_Z n).
  { change 1 with (inject_Z 1). rewrite <- Zle_Qle. lia. }
  set (N := inject_Z n) in *.
  (* the share of the total the product stands for *)
  assert (Share : Qabs (p - cq * t) <= 1 # 4).
  { assert (X : Qabs (t * (c' - cq)) <= (1 # 18014398509481984) * t).
    { rewrite (Qmult_comm t). apply Qabs_mult_le; assumption. }
    apply Qabs_Qle_condition in X. destruct X as [X1 X2].
    assert (Y : t * (c' - cq) == t * c' - cq * t) by ring.
    apply Qabs_Qle_condition. split; lra. }
  apply Qabs_Qle_condition in Share. destruct Share as [Sh1 Sh2].
  destruct (Z_lt_ge_dec n (2 ^ 53)) as [Small | Large].
  - (* the day count is a double *)
    destruct (ofZ_exact n ltac:(lia)) as [Fn En]. fold N in En.
    assert (Nn : ~ toQ (ofZ n) == 0) by (rewrite En; lra).
    assert (Y0 : 0 <= p / N) by (apply Qle_shift_div_l; lra).
    assert (Y1 : p / N <= p) by (apply Qle_shift_div_r; [lra |]; nra).
    assert (YN : p / N * N == p) by (field; lra).
    destruct (div_error (mul total c) (ofZ n) Fp Fn Nn) as (Fx & Ex & Sx).
    { fold p. rewrite En, Qabs_pos by exact Y0. lra. }
    fold p in Ex, Sx. 
    assert (Ex' : Qabs (toQ (div (mul total c) (ofZ n)) - p / N)
                  <= p / N * pow2 (-53) + pow2 (-1075)).
    { assert (Q : p / toQ (ofZ n) == p / N) by (now rewrite En).
      rewrite Q in Ex. rewrite (Qabs_pos (p / N)) in Ex by exact Y0. exact Ex. }
    assert (Sx' : 0 <= toQ (div (mul total c) (ofZ n))).
    { apply Sx. rewrite En. exact Y0. }
    clear Ex Sx.
    set (x := toQ (div (mul total c) (ofZ n))) in *.
    assert (Dx : Qabs ((x - p / N) * N)
                 <= (p / N * pow2 (-53) + pow2 (-1075)) * N).
    { apply Qabs_mult_le; [exact Ex' | lra]. }
    assert (Dx' : (p / N * pow2 (-53) + pow2 (-1075)) * N
                  <= p * (1 # 9007199254740992)
                     + (1 # 1267650600228229401496703205376) * N).
    { assert (Z1 : (p / N * pow2 (-53) + pow2 (-1075)) * N
                   == p * pow2 (-53) + pow2 (-1075) * N) by (field; lra).
      rewrite Z1, E53.
      assert (Z2 : pow2 (-1075) * N <= (1 # 1267650600228229401496703205376) * N).
      { apply Qmult_le_compat_r; [exact E1075 | lra]. }
      lra. }
    apply Qabs_Qle_condition in Ex'. destruct Ex' as [Ex1 Ex2].
    rewrite E53 in Ex1, Ex2.
    assert (X52 : Qabs x <= inject_Z (2 ^ 52)).
    { rewrite Qabs_pos by exact Sx'.
      assert (K : inject_Z (2 ^ 52) == 4503599627370496) by (vm_compute; reflexivity).
      rewrite K.
      assert (K2 : p / N * (1 # 9007199254740992) <= p * (1 # 9007199254740992)).
      { apply Qmult_le_compat_r; [exact Y1 | discriminate]. }
      lra. }
    destruct (round_value _ Fx X52) as [Fw Ew]. fold x in Ew.
    split; [exact Fw |]. rewrite Ew.
    pose proof (Qfloor_half x) as H.
    set (w := inject_Z (Qfloor (x + (1 # 2)))) in *.
    assert (Dw : Qabs ((w - x) * N) <= (1 # 2) * N).
    { apply Qabs_mult_le; [exact H | lra]. }
    apply Qabs_Qle_condition in Dw. destruct Dw as [Dw1 Dw2].
    apply Qabs_Qle_condition in Dx. destruct Dx as [Dx1 Dx2].
    assert (Sum : w * N - cq * t
                  == (w - x) * N + (x - p / N) * N + (p - cq * t)).
    { assert (Z3 : (x - p / N) * N == x * N - p / N * N) by ring.
      rewrite Z3, YN. ring. }
    rewrite Sum. apply Qabs_Qle_condition. split; lra.
  - (* a day count beyond 2^53: the daily target is 0 *)
    assert (N53 : 9007199254740992 <= N).
    { assert (K : inject_Z (2 ^ 53) == 9007199254740992) by (vm_compute; reflexivity).
      rewrite <- K. unfold N. rewrite <- Zle_Qle. lia. }
    assert (Zero : isFinite (round (div (mul total c) (ofZ n))) = true /\
                   toQ (round (div (mul total c) (ofZ n))) == 0).
    { unfold ofZ.
      destruct (rnd_cases false (inject_Z n)) as [(s & E & _) | (Fn & En & _)].
      - rewrite E. destruct (mul total c) as [sp | sp | | sp mp ep];
          try discriminate; split; reflexivity.
      - set (v := rnd false (inject_Z n)) in *.
        fold N in En. rewrite (Qabs_pos N) in En by lra.
        apply Qabs_Qle_condition in En. destruct En as [En1 En2].
        rewrite E53 in En1, En2.
        assert (V : 4503599627370496 <= toQ v) by lra.
        assert (Nv : ~ toQ v == 0) by lra.
        assert (Y0 : 0 <= p / toQ v) by (apply Qle_shift_div_l; lra).
        assert (Y1 : p / toQ v <= 1 # 4).
        { apply Qle_shift_div_r; [lra |]. lra. }
        destruct (div_error (mul total c) v Fp Fn Nv) as (Fx & Ex & Sx).
        { fold p. rewrite Qabs_pos by exact Y0. lra. }
        fold p in Ex, Sx. specialize (Sx Y0).
        rewrite (Qabs_pos (p / toQ v)) in Ex by exact Y0.
        apply Qabs_Qle_condition in Ex. destruct Ex as [Ex1 Ex2].
        rewrite E53 in Ex1, Ex2.
        set (x := toQ (div (mul total c) v)) in *.
        assert (X52 : Qabs x <= inject_Z (2 ^ 52)).
        { rewrite Qabs_pos by exact Sx.
          assert (K : inject_Z (2 ^ 52) == 4503599627370496)
            by (vm_compute; reflexivity).
          rewrite K. lra. }
        destruct (round_value _ Fx X52) as [Fw Ew]. fold x in Ew.
        split; [exact Fw |]. rewrite Ew.
        assert (F0 : Qfloor (x + (1 # 2)) = 0%Z).
        { assert (L0 : (0 <= Qfloor (x + (1 # 2)))%Z).
          { rewrite <- (Qfloor_Z 0). apply Qfloor_resp_le.
            change (inject_Z 0) with 0. lra. }
          assert (L1 : (Qfloor (x + (1 # 2)) < 1)%Z).
          { rewrite Zlt_Qlt.
            apply Qle_lt_trans with (x + (1 # 2)); [apply Qfloor_le |].
            change (inject_Z 1) with 1. lra. }
          lia. }
        rewrite F0. reflexivity. }
    destruct Zero as [Fw Ew]. split; [exact Fw |]. rewrite Ew.
    assert (CT : cq * t <= 1000000000000000).
    { apply Qle_trans with (1 * t); [| lra].
      apply Qmult_le_compat_r; assumption. }
    assert (CT0 : 0 <= cq * t) by (apply Qmult_le_0_compat; assumption).
    apply Qabs_Qle_condition. split; lra.
Qed.

Lemma literal_shares :
  isFinite (lit (7 # 10)) = true /\ 0 <= toQ (lit (7 # 10)) /\ toQ (lit (7 # 10)) <= 1 /\
  Qabs (toQ (lit (7 # 10)) - (7 # 10)) <= 1 # 18014398509481984 /\
  isFinite (lit (3 # 10)) = true /\ 0 <= toQ (lit (3 # 10)) /\ toQ (lit (3 # 10)) <= 1 /\
  Qabs (toQ (lit (3 # 10)) - (3 # 10)) <= 1 # 18014398509481984.
Proof. vm_compute. repeat split; discriminate. Qed.

End SplitTolerance.

Section SplitToleranceClaim.

Local Open Scope Q_scope.

(** C7, as the code computes it: for a monthly total from 0 to 10^15, when
    the loop counts at least one weekday and leaves at least one weekend
    day, the two daily targets are finite and
    |weekdayDaily x weekdays + weekendDaily x weekends - monthlyTotal| is
    at most weekdays + weekends; in a state whose [totalDaysInMonth] is
    the length of the current month the two counts are those of the
    Monday-to-Friday and of the Saturday-or-Sunday dates of the month. *)
Theorem recalculateDailyTargets_tolerance_of_doubles (now : Date.t) (state : Region)
    (metric : Metric) (st : App) :
  isFinite (monthlyTotal (Target.get (get (settings st) state) metric)) = true ->
  0 <= toQ (monthlyTotal (Target.get (get (settings st) state) metric)) ->
  toQ (monthlyTotal (Target.get (get (settings st) state) metric)) <= 1000000000000000 ->
  (0 < Spec64.weekdays now st)%Z ->
  (0 < Spec64.weekends now st)%Z ->
  isFinite
    (weekdayDaily
       (Target.get (get (settings (recalculateDailyTargets now state metric st)) state)
          metric)) = true /\
  isFinite
    (weekendDaily
       (Target.get (get (settings (recalculateDailyTargets now state metric st)) state)
          metric)) = true /\
  Qabs
    (toQ (weekdayDaily
            (Target.get
               (get (settings (recalculateDailyTargets now state metric st)) state)
               metric))
     * inject_Z (Spec64.weekdays now st)
     + toQ (weekendDaily
              (Target.get
                 (get (settings (recalculateDailyTargets now state metric st)) state)
                 metric))
       * inject_Z (Spec64.weekends now st)
     - toQ (monthlyTotal
              (Target.get
                 (get (settings (recalculateDailyTargets now state metric st)) state)
                 metric)))
  <= inject_Z (Spec64.weekdays now st + Spec64.weekends now st) /\
  (totalDaysInMonth st = Spec.daysInMonth now ->
   Spec64.weekdays now st = Spec.weekdayCount now /\
   Spec64.weekends now st = Spec.weekendCount now).
Proof.
  intros F T0 T1 Hd He.
  rewrite recalculateDailyTargets_entry.
  cbn [Spec64.dailySplit weekdayDaily weekendDaily monthlyTotal].
  set (total := monthlyTotal (Target.get (get (settings st) state) metric)) in *.
  destruct literal_shares as (F7 & A7 & B7 & E7 & F3 & A3 & B3 & E3).
  destruct (share_error total (lit (7 # 10)) (7 # 10) (Spec64.weekdays now st)
              F T0 T1 F7 A7 B7 E7 ltac:(discriminate) ltac:(discriminate) Hd)
    as [Fw Ew].
  destruct (share_error total (lit (3 # 10)) (3 # 10) (Spec64.weekends now st)
              F T0 T1 F3 A3 B3 E3 ltac:(discriminate) ltac:(discriminate) He)
    as [Fe Ee].
  split; [exact Fw |]. split; [exact Fe |].
  split; [| apply weekdays_of_month].
  rewrite inject_Z_plus.
  apply Qabs_Qle_condition in Ew. destruct Ew as [Ew1 Ew2].
  apply Qabs_Qle_condition in Ee. destruct Ee as [Ee1 Ee2].
  apply Qabs_Qle_condition. split; lra.
Qed.

(** The state [init()] sets up on 3 November 2026, and the spend target
    of California, 1000000. *)
Lemma recalculateDailyTargets_tolerance_of_doubles_witness :
  isFinite
    (weekdayDaily
       (Target.get
          (get (settings (recalculateDailyTargets Sample.november3 CA Spend
                            (Spec64.started Sample.november3))) CA) Spend)) = true /\
  isFinite
    (weekendDaily
       (Target.get
          (get (settings (recalculateDailyTargets Sample.november3 CA Spend
                            (Spec64.started Sample.november3))) CA) Spend)) = true /\
  Qabs
    (toQ (weekdayDaily
            (Target.get
               (get (settings (recalculateDailyTargets Sample.november3 CA Spend
                                 (Spec64.started Sample.november3))) CA) Spend))
     * inject_Z (Spec64.weekdays Sample.november3 (Spec64.started Sample.november3))
     + toQ (weekendDaily
              (Target.get
                 (get (settings (recalculateDailyTargets Sample.november3 CA Spend
                                   (Spec64.started Sample.november3))) CA) Spend))
       * inject_Z (Spec64.weekends Sample.november3 (Spec64.started Sample.november3))
     - toQ (monthlyTotal
              (Target.get
                 (get (settings (recalculateDailyTargets Sample.november3 CA Spend
                                   (Spec64.started Sample.november3))) CA) Spend)))
  <= inject_Z (Spec64.weekdays Sample.november3 (Spec64.started Sample.november3)
               + Spec64.weekends Sample.november3 (Spec64.started Sample.november3)) /\
  (totalDaysInMonth (Spec64.started Sample.november3)
   = Spec.daysInMonth Sample.november3 ->
   Spec64.weekdays Sample.november3 (Spec64.started Sample.november3)
   = Spec.weekdayCount Sample.november3 /\
   Spec64.weekends Sample.november3 (Spec64.started Sample.november3)
   = Spec.weekendCount Sample.november3).
Proof.
  apply (recalculateDailyTargets_tolerance_of_doubles Sample.november3 CA Spend
           (Spec64.started Sample.november3)).
  - reflexivity.
  - vm_compute. discriminate.
  - vm_compute. discriminate.
  - reflexivity.
  - reflexivity.
Defined.

(** A monthly total of 10^18 in November 2026, 21 weekdays and 9 weekend
    days: both daily targets are 33333333333333332, and the split is 40
    short of the total, more than the 30 days of the month. *)
Lemma daily_split_of_a_quintillion :
  isFinite (ofZ (10 ^ 18)) = true /\
  (0 <= toQ (ofZ (10 ^ 18)))%Q /\
  Spec64.weekdays Sample.november3
    (Spec64.withTarget Sample.november3 TX Spend (ofZ (10 ^ 18))) = 21%Z /\
  Spec64.weekends Sample.november3
    (Spec64.withTarget Sample.november3 TX Spend (ofZ (10 ^ 18))) = 9%Z /\
  inject_Z 30
  < Qabs
      (toQ (weekdayDaily
              (Target.get
                 (get (settings
                         (recalculateDailyTargets Sample.november3 TX Spend
                            (Spec64.withTarget Sample.november3 TX Spend
                               (ofZ (10 ^ 18))))) TX) Spend))
       * inject_Z 21
       + toQ (weekendDaily
                (Target.get
                   (get (settings
                           (recalculateDailyTargets Sample.november3 TX Spend
                              (Spec64.withTarget Sample.november3 TX Spend
                                 (ofZ (10 ^ 18))))) TX) Spend))
         * inject_Z 9
       - toQ (ofZ (10 ^ 18))).
Proof. vm_compute. repeat split; try reflexivity; discriminate. Qed.

End SplitToleranceClaim.

(** ** Target ratios *)

Section GuardedRatios.


Lemma ratio_short_circuit (x y : num) :
  gt y zero = false -> (if gt y zero then div x y else zero) = zero.
Proof. intros ->. reflexivity. Qed.


End GuardedRatios.

(** ** The required daily rate *)

Section RequiredRate.

Local Open Scope Q_scope.








End RequiredRate.

(** ** The summary cards of the jQuery dashboard *)

Section SummaryCardFigures.

Import SummaryCards.

Lemma fold_addBucket_skips (l : list Bucket) (acc : Totals) :
  fold_left addBucket l acc
  = fold_left addBucket
      (filter (fun b => negb (Str.includes (name b) "Youtube")
                        && negb (Str.includes (name b) "Crisp")) l)
      acc.
Proof.
  revert acc. induction l as [| b l IH]; intros acc; [reflexivity |].
  cbn [fold_left filter]. rewrite IH. unfold addBucket at 2.
  destruct (negb (Str.includes (name b) "Youtube")
            && negb (Str.includes (name b) "Crisp")) eqn:E.
  - cbn [fold_left]. unfold addBucket at 3. now rewrite E.
  - reflexivity.
Qed.

(** X25: the summary cards of the jQuery dashboard.  Buckets with
    "Youtube" or "Crisp" in their name contribute to no card: the figures
    are those of the list without them; and a ratio (cost per lead, per
    case, per retainer, conversion rate) whose divisor total is not
    greater than 0 is 0. *)
Theorem summary_cards_skip_video_buckets (buckets : list Bucket) :
  renderSummaryCards buckets
  = renderSummaryCards
      (filter (fun b => negb (Str.includes (name b) "Youtube")
                        && negb (Str.includes (name b) "Crisp")) buckets) /\
  (gt (totalLeads (totals (renderSummaryCards buckets))) zero = false ->
   avgCPL (renderSummaryCards buckets) = zero) /\
  (gt (totalCases (totals (renderSummaryCards buckets))) zero = false ->
   avgCPA (renderSummaryCards buckets) = zero) /\
  (gt (totalRetainers (totals (renderSummaryCards buckets))) zero = false ->
   avgCPR (renderSummaryCards buckets) = zero) /\
  (gt (totalInPractice (totals (renderSummaryCards buckets))) zero = false ->
   convRate (renderSummaryCards buckets) = zero) /\
  (forall x : num,
     Spec64.isZero x = true \/ x = NaN \/ lt x zero = true -> gt x zero = false).
Proof.
  split.
  { unfold renderSummaryCards. now rewrite <- fold_addBucket_skips. }
  unfold renderSummaryCards. cbn [totals avgCPL avgCPA avgCPR convRate].
  split; [apply ratio_short_circuit |]. split; [apply ratio_short_circuit |].
  split; [apply ratio_short_circuit |]. split; [apply ratio_short_circuit |].
  intros x [H | [-> | H]].
  - now apply gt_zero_of_zero.
  - reflexivity.
  - revert H. unfold lt, gt. destruct (cmp x zero) as [[| |] |]; intros H;
      try discriminate; reflexivity.
Qed.

End SummaryCardFigures.

(** ** The projection on the last day *)

Section LastDayProjection.






End LastDayProjection.
